(** * SearchCenter: result aggregation, scoring and snippet highlighting

    A shallow embedding of

    - [src/services/searchService.ts]: [fetchGitHubRepositories],
      [fetchGitHubCodeSnippets], [fetchSearchResults],
      [calculateCombinedScore];
    - [src/components/ResultsList.tsx]: [createSearchRegex],
      [getEnhancedCodeSnippet], [calculateRepoScore] and the sort of the
      rendered list; [ApiSourcesInfo], [ResultsMetrics], [formatDate];
    - [src/components/CodeBlock.tsx]: [createHighlightPattern] and the
      flags of the rendered lines;
    - [src/App.tsx]: [handleSearch], [handleFilterChange], [applyFilters].

    Conventions of the embedding.

    - A JavaScript string is a [string]; letter case and white space are
      those of ASCII.  An absent property is [None]; where the program tells
      [null] from [undefined] ([license]) the option is nested.
    - A JavaScript number is an integer ([Z]) where the API delivers a count
      and an exact rational ([Q]) where the program computes a score; [NaN]
      is [None].
    - Code that can throw returns a [Completion]; [try]/[catch] is
      [try_catch] and a rejected promise is a thrown value.
    - [const] and [let] locals are [let]s under their own names, a local that
      is assigned again is bound again.
    - The network, the clock and the regular-expression engine are the
      platform and are passed in ([Network], [RegExpEngine], [Platform]).
      The statements hold for every platform.  To run the definitions there
      is one concrete platform: the engine [JsFragment] for a fragment of the
      pattern language, the clock [Clock], and the networks of [Runs]. *)

From Stdlib Require Import ZArith QArith Qminmax Qround Lia Lqa String Ascii List
  Sorted.
From stdpp Require Import base option gmap strings list pretty.
Import ListNotations.

Local Open Scope Z_scope.

(** ** JavaScript values, exceptions and completions *)

Module Js.

(** Values that the program throws or catches.  [AxiosError] is the
    rejection of an HTTP call: [response] is [error.response] (status and
    [data.message]) and [code] is [error.code]. *)
Inductive JsError : Type :=
| Error (message : string)
| SyntaxError (message : string)
| AxiosError (response : option (Z * option string)) (code : option string)
             (message : string).

Definition message (e : JsError) : string :=
  match e with
  | Error m => m
  | SyntaxError m => m
  | AxiosError _ _ m => m
  end.

Inductive Completion (A : Type) : Type :=
| Normal (a : A)
| Throw (e : JsError).
Arguments Normal {A} a.
Arguments Throw {A} e.

Definition bind {A B} (c : Completion A) (k : A -> Completion B) : Completion B :=
  match c with
  | Normal a => k a
  | Throw e => Throw e
  end.

Definition try_catch {A} (body : Completion A) (handler : JsError -> Completion A)
  : Completion A :=
  match body with
  | Normal a => Normal a
  | Throw e => handler e
  end.

(** [xs.map(f)] and [xs.forEach(f)] where [f] may throw: the first
    exception ends the traversal. *)
Fixpoint mapM {A B} (f : A -> Completion B) (xs : list A) : Completion (list B) :=
  match xs with
  | [] => Normal []
  | x :: xs' =>
      bind (f x) (fun y => bind (mapM f xs') (fun ys => Normal (y :: ys)))
  end.

Fixpoint foldM {A S} (f : S -> A -> Completion S) (xs : list A) (s : S)
  : Completion S :=
  match xs with
  | [] => Normal s
  | x :: xs' => bind (f s x) (foldM f xs')
  end.

(** *** Strings *)

(** White space of [\s] and of [trim] among the characters of the model. *)
Definition is_space (c : ascii) : bool :=
  let n := nat_of_ascii c in
  ((9 <=? n)%nat && (n <=? 13)%nat) || (n =? 32)%nat.

Fixpoint trimStart (s : string) : string :=
  match s with
  | String c s' => if is_space c then trimStart s' else s
  | EmptyString => EmptyString
  end.

(** [trimEnd] keeps a character when it, or something after it, is not
    white space. *)
Fixpoint trimEnd (s : string) : string :=
  match s with
  | EmptyString => EmptyString
  | String c s' =>
      match trimEnd s' with
      | EmptyString => if is_space c then EmptyString else String c EmptyString
      | t => String c t
      end
  end.

Definition trim (s : string) : string := trimEnd (trimStart s).

(** Truthiness of a string: non-empty. *)
Definition truthy (s : string) : bool :=
  match s with EmptyString => false | _ => true end.

Definition truthy_opt (s : option string) : bool :=
  match s with Some s => truthy s | None => false end.

Definition lower_ascii (c : ascii) : ascii :=
  let n := nat_of_ascii c in
  if ((65 <=? n)%nat && (n <=? 90)%nat)%bool then ascii_of_nat (n + 32) else c.

Fixpoint toLowerCase (s : string) : string :=
  match s with
  | EmptyString => EmptyString
  | String c s' => String (lower_ascii c) (toLowerCase s')
  end.

(** [s.split(c)] for a one-character separator. *)
Fixpoint split_char (sep : ascii) (s : string) : list string :=
  match s with
  | EmptyString => [EmptyString]
  | String c s' =>
      if Ascii.eqb c sep then EmptyString :: split_char sep s'
      else match split_char sep s' with
           | h :: t => String c h :: t
           | [] => [String c EmptyString]
           end
  end.

Definition newline : ascii := ascii_of_nat 10.

Definition split_lines (s : string) : list string := split_char newline s.

(** [s.split(/\s+/)]: every maximal run of white space is one separator; a
    run at either end leaves an empty first or last piece. *)
Fixpoint split_ws_from (in_run : bool) (s : string) : list string :=
  match s with
  | EmptyString => [EmptyString]
  | String c s' =>
      if is_space c then
        if in_run then split_ws_from true s'
        else EmptyString :: split_ws_from true s'
      else match split_ws_from false s' with
           | h :: t => String c h :: t
           | [] => [String c EmptyString]
           end
  end.

Definition split_ws (s : string) : list string := split_ws_from false s.

(** [xs.join(sep)] *)
Fixpoint join (sep : string) (xs : list string) : string :=
  match xs with
  | [] => EmptyString
  | [x] => x
  | x :: xs' => x +:+ sep +:+ join sep xs'
  end.

(** [s.includes(t)] *)
Fixpoint includes (s t : string) : bool :=
  String.prefix t s ||
  match s with
  | EmptyString => false
  | String _ s' => includes s' t
  end.

(** [s.replace(/[.*+?^${}()|[\]\\]/g, '\\$&')] *)
Definition is_special (c : ascii) : bool :=
  existsb (Ascii.eqb c)
    (list_ascii_of_string ".*+?^${}()|[]\").

Fixpoint escapeRegExp (s : string) : string :=
  match s with
  | EmptyString => EmptyString
  | String c s' =>
      if is_special c then String "\"%char (String c (escapeRegExp s'))
      else String c (escapeRegExp s')
  end.

(** [xs.slice(a)] and [xs.slice(0, b)] are [drop] and [take]. *)

End Js.

Export Js.

#[global] Instance Completion_bind : MBind Completion :=
  fun A B k c => Js.bind c k.
#[global] Instance Completion_ret : MRet Completion := @Js.Normal.

(** ** Regular expressions *)

(** What [new RegExp(source, flags)] and the matcher behind it provide.
    [compile source ignoreCase] is the pattern, or the message of the
    [SyntaxError]; [match_at p s i] tries the pattern at index [i] of [s]
    only and gives the end index of the match. *)
Record RegExpEngine : Type := {
  pattern : Type;
  compile : string -> bool -> string + pattern;
  match_at : pattern -> string -> nat -> option nat
}.

Section RegExp.

Context (E : RegExpEngine).

(** A [RegExp] object without its [lastIndex], which the callers thread. *)
Record RegExp : Type := {
  re_pattern : pattern E;
  re_global : bool
}.

Definition has_flag (flags : string) (f : string) : bool := includes flags f.

Definition RegExp_new (source flags : string) : Completion RegExp :=
  match compile E source (has_flag flags "i") with
  | inl msg => Throw (SyntaxError msg)
  | inr p => Normal {| re_pattern := p; re_global := has_flag flags "g" |}
  end.

(** The search loop of [RegExpBuiltinExec]: the first index from [i] on at
    which the pattern matches, with the end of that match. *)
Fixpoint search_from (p : pattern E) (s : string) (fuel i : nat)
  : option (nat * nat) :=
  match fuel with
  | O => None
  | S fuel' =>
      match match_at E p s i with
      | Some e => Some (i, e)
      | None => search_from p s fuel' (S i)
      end
  end.

Definition exec_from (p : pattern E) (s : string) (i : nat) : option (nat * nat) :=
  if (String.length s <? i)%nat then None
  else search_from p s (S (String.length s - i)) i.

(** [re.test(s)] with the [lastIndex] before the call; gives the answer and
    the [lastIndex] after it.  Without the [g] flag the search starts at 0
    and [lastIndex] is left alone. *)
Definition test (re : RegExp) (s : string) (lastIndex : nat) : bool * nat :=
  if re_global re then
    match exec_from (re_pattern re) s lastIndex with
    | Some (_, e) => (true, e)
    | None => (false, O)
    end
  else
    match exec_from (re_pattern re) s O with
    | Some _ => (true, lastIndex)
    | None => (false, lastIndex)
    end.

(** All the matches that [s.match(re)] and [s.replace(re, ...)] visit for a
    global [re]: [lastIndex] starts at 0 and steps over an empty match. *)
Fixpoint matches_from (p : pattern E) (s : string) (fuel i : nat)
  : list (nat * nat) :=
  match fuel with
  | O => []
  | S fuel' =>
      match exec_from p s i with
      | None => []
      | Some (a, e) =>
          (a, e) :: matches_from p s fuel' (if (e =? a)%nat then S e else e)
      end
  end.

Definition match_all (re : RegExp) (s : string) : list (nat * nat) :=
  matches_from (re_pattern re) s (S (S (String.length s))) O.

(** [(s.match(re) || []).length] for a global [re] *)
Definition match_count (re : RegExp) (s : string) : nat :=
  List.length (match_all re s).

(** [s.replace(re, before + '$&' + after)]: every match for a global [re],
    the first one otherwise. *)
Fixpoint replace_matches (s : string) (pos : nat) (ms : list (nat * nat))
    (before after : string) : string :=
  match ms with
  | [] => substring pos (String.length s - pos) s
  | (a, e) :: ms' =>
      substring pos (a - pos) s +:+ before +:+ substring a (e - a) s +:+ after
      +:+ replace_matches s e ms' before after
  end.

Definition replace (re : RegExp) (s before after : string) : string :=
  let ms :=
    if re_global re then match_all re s
    else match exec_from (re_pattern re) s O with
         | Some m => [m]
         | None => []
         end in
  replace_matches s O ms before after.

End RegExp.

Arguments re_pattern {E} _.
Arguments re_global {E} _.
Arguments test {E} re s lastIndex.
Arguments match_all {E} re s.
Arguments match_count {E} re s.
Arguments replace {E} re s before after.

(** ** Data model ([src/types.ts]) *)

Inductive ResultType : Type := repository | code | community.

Record Owner : Type := {
  login : string;
  avatar_url : string;
  owner_url : option string
}.

Record ApiSource : Type := {
  api_name : string;
  api_url : string
}.

(** [license] distinguishes an absent property ([None]) from [null]
    ([Some None]).  [apiSource] and [hasRepoData] are the two properties
    that [fetchSearchResults] adds to the declared interface. *)
Record SearchResult : Type := {
  id : string;
  title : string;
  type : ResultType;
  source : string;
  url : string;
  snippet : option string;
  description : option string;
  language : option string;
  stars : option Z;
  forks : option Z;
  watchers : option Z;
  timestamp : string;
  owner : option Owner;
  topics : option (list string);
  openIssues : option Z;
  license : option (option string);
  path : option string;
  lineNumbers : option (list Z);
  score : option Q;
  apiSource : option ApiSource;
  hasRepoData : bool
}.

Record SearchFilters : Type := {
  filter_language : string;
  timeRange : string;
  sortBy : string
}.

Definition defaultSearchFilters : SearchFilters :=
  {| filter_language := "all"; timeRange := "all"; sortBy := "relevance" |}.

(** [{ ...r, apiSource: a }] *)
Definition with_apiSource (a : ApiSource) (r : SearchResult) : SearchResult :=
  {| id := id r; title := title r; type := type r; source := source r;
     url := url r; snippet := snippet r; description := description r;
     language := language r; stars := stars r; forks := forks r;
     watchers := watchers r; timestamp := timestamp r; owner := owner r;
     topics := topics r; openIssues := openIssues r; license := license r;
     path := path r; lineNumbers := lineNumbers r; score := score r;
     apiSource := Some a; hasRepoData := hasRepoData r |}.

(** [{ ...r, score }] *)
Definition with_score (sc : Q) (r : SearchResult) : SearchResult :=
  {| id := id r; title := title r; type := type r; source := source r;
     url := url r; snippet := snippet r; description := description r;
     language := language r; stars := stars r; forks := forks r;
     watchers := watchers r; timestamp := timestamp r; owner := owner r;
     topics := topics r; openIssues := openIssues r; license := license r;
     path := path r; lineNumbers := lineNumbers r; score := Some sc;
     apiSource := apiSource r; hasRepoData := hasRepoData r |}.

(** [{ ...codeResult, stars: m.stars, forks: m.forks, watchers: m.watchers,
       openIssues: m.openIssues, license: m.license, topics: m.topics,
       hasRepoData: true }] *)
Definition with_repo_data (m : SearchResult) (r : SearchResult) : SearchResult :=
  {| id := id r; title := title r; type := type r; source := source r;
     url := url r; snippet := snippet r; description := description r;
     language := language r; stars := stars m; forks := forks m;
     watchers := watchers m; timestamp := timestamp r; owner := owner r;
     topics := topics m; openIssues := openIssues m; license := license m;
     path := path r; lineNumbers := lineNumbers r; score := score r;
     apiSource := apiSource r; hasRepoData := true |}.

(** The same result with another [stars] property. *)
Definition with_stars (s : option Z) (r : SearchResult) : SearchResult :=
  {| id := id r; title := title r; type := type r; source := source r;
     url := url r; snippet := snippet r; description := description r;
     language := language r; stars := s; forks := forks r;
     watchers := watchers r; timestamp := timestamp r; owner := owner r;
     topics := topics r; openIssues := openIssues r; license := license r;
     path := path r; lineNumbers := lineNumbers r; score := score r;
     apiSource := apiSource r; hasRepoData := hasRepoData r |}.

(** ** Payloads of the GitHub REST API *)

Module User.
Record t : Type := {
  login : string;
  avatar_url : string;
  html_url : string
}.
End User.

Module RepoItem.
Record license_t : Type := { name : string }.
Record t : Type := {
  id : Z;
  full_name : string;
  html_url : string;
  description : option string;
  language : option string;
  stargazers_count : option Z;
  forks_count : option Z;
  watchers_count : option Z;
  updated_at : string;
  owner : User.t;
  topics : option (list string);
  open_issues_count : option Z;
  license : option license_t
}.
End RepoItem.

Module CodeItem.
Record repository_t : Type := {
  id : Z;
  full_name : string;
  updated_at : option string;
  stargazers_count : option Z;
  owner : User.t
}.
Record t : Type := {
  repository : repository_t;
  path : string;
  sha : string;
  html_url : string;
  language : option string
}.
End CodeItem.

(** The body of a search response: [data.items] when [data] is an object
    with an [items] array, [NoItems] otherwise. *)
Inductive SearchData (Item : Type) : Type :=
| Items (items : list Item)
| NoItems.
Arguments Items {Item} items.
Arguments NoItems {Item}.

(** The body of a raw-content response: a string or anything else. *)
Inductive ContentData : Type :=
| Text (content : string)
| NotText.

(** How an [axios.get] settles. *)
Inductive Settled (D : Type) : Type :=
| Fulfilled (status : Z) (statusText : string) (data : D)
| Rejected (reason : JsError).
Arguments Fulfilled {D} status statusText data.
Arguments Rejected {D} reason.

(** The three endpoints the service calls.  The two searches get the query
    parameters of the request, the content fetch gets its URL. *)
Record Network : Type := {
  get_repositories : list (string * string) -> Settled (SearchData RepoItem.t);
  get_code : list (string * string) -> Settled (SearchData CodeItem.t);
  get_contents : string -> Settled ContentData
}.

(** [await p]: a rejection is thrown. *)
Definition await {D} (p : Settled D) : Completion (Z * string * D) :=
  match p with
  | Fulfilled st txt d => Normal (st, txt, d)
  | Rejected e => Throw e
  end.

(** ** The platform *)

Record Platform : Type := {
  engine : RegExpEngine;
  network : Network;
  (** [new Date(s).getTime()] in milliseconds, [None] for an invalid date *)
  Date_getTime : string -> option Z;
  (** [new Date().getTime()] and [new Date().toISOString()] *)
  Date_now : Z;
  Date_now_iso : string;
  (** the [YYYY-MM-DD] of the date [n] days before now *)
  Date_days_ago : Z -> string
}.

(** ** [src/services/searchService.ts] *)

Definition GITHUB_CODE_API : string := "https://api.github.com/search/code".
Definition GITHUB_REPOS_API : string := "https://api.github.com/search/repositories".

(** [a || b] on strings that may be absent *)
Definition or_else (a : option string) (b : string) : string :=
  match a with
  | Some s => if truthy s then s else b
  | None => b
  end.

(** [for (let i = a; i <= b; i++)]: the values of [i]. *)
Definition range (a b : Z) : list Z :=
  map (fun k => a + Z.of_nat k) (seq 0 (Z.to_nat (b - a + 1))).

(** [lines[i]] as [join] prints it: an index outside the array reads
    [undefined], which [join] prints as the empty string. *)
Definition line_at (lines : list string) (i : Z) : string :=
  if i <? 0 then "" else default "" (lines !! Z.to_nat i).

(** The [catch] block shared by the two fetchers. *)
Definition search_error (error : JsError) : JsError :=
  match error with
  | AxiosError (Some (status, data_message)) _ m =>
      if status =? 401 then
        Error "GitHub API authentication failed. Please check your API token."
      else if status =? 403 then
        Error "GitHub API rate limit exceeded. Please try again later."
      else if status =? 422 then
        Error "Invalid search query. Please check your search terms."
      else
        Error ("GitHub API error (" +:+ pretty status +:+ "): " +:+ or_else data_message m)
  | AxiosError None (Some c) m =>
      if String.eqb c "ENOTFOUND" || String.eqb c "ECONNREFUSED" then
        Error "Network error. Please check your internet connection."
      else Error ("Search failed: " +:+ m)
  | _ => Error ("Search failed: " +:+ message error)
  end.

Definition language_filter (filters : SearchFilters) : string :=
  if truthy (filter_language filters) && negb (String.eqb (filter_language filters) "all")
  then " language:" +:+ filter_language filters
  else "".

Definition daysAgo (filters : SearchFilters) : Z :=
  if String.eqb (timeRange filters) "day" then 1
  else if String.eqb (timeRange filters) "week" then 7
  else if String.eqb (timeRange filters) "month" then 30
  else if String.eqb (timeRange filters) "year" then 365
  else 0.

Definition repository_of_item (item : RepoItem.t) : SearchResult :=
  {| id := "repo-" +:+ pretty (RepoItem.id item);
     title := RepoItem.full_name item;
     type := repository;
     source := RepoItem.full_name item;
     url := RepoItem.html_url item;
     snippet := None;
     description := Some (or_else (RepoItem.description item) "No description available");
     language := Some (or_else (RepoItem.language item) "Unknown");
     stars := RepoItem.stargazers_count item;
     forks := RepoItem.forks_count item;
     watchers := RepoItem.watchers_count item;
     timestamp := RepoItem.updated_at item;
     owner := Some {| login := User.login (RepoItem.owner item);
                      avatar_url := User.avatar_url (RepoItem.owner item);
                      owner_url := Some (User.html_url (RepoItem.owner item)) |};
     topics := Some (default [] (RepoItem.topics item));
     openIssues := RepoItem.open_issues_count item;
     license := Some (RepoItem.name <$> RepoItem.license item);
     path := None;
     lineNumbers := None;
     score := None;
     apiSource := None;
     hasRepoData := false |}.

Section Service.

Context (P : Platform).

Definition fetchGitHubRepositories (query : string) (filters : SearchFilters)
  : Completion (list SearchResult) :=
  try_catch
    (if negb (truthy (trim query)) then
       Throw (Error "Search query cannot be empty")
     else
       let queryString := trim query +:+ language_filter filters in
       let sort :=
         if String.eqb (sortBy filters) "recent" then "updated"
         else if String.eqb (sortBy filters) "relevance" then "score"
         else "stars" in
       let queryString :=
         if negb (String.eqb (timeRange filters) "all") && (0 <? daysAgo filters)
         then queryString +:+ " pushed:>" +:+ Date_days_ago P (daysAgo filters)
         else queryString in
       '(status, statusText, data) ←
         await (get_repositories (network P)
                  [("q", queryString); ("sort", sort); ("order", "desc");
                   ("per_page", "15")]);
       if negb (status =? 200) then
         Throw (Error ("GitHub API request failed: " +:+ pretty status +:+ " " +:+ statusText))
       else
         match data with
         | NoItems => Throw (Error "Invalid response format from GitHub API")
         | Items items => Normal (map repository_of_item items)
         end)
    (fun error => Throw (search_error error)).

Definition contextSize : Z := 2.

(** The state of the snippet loop: the two parallel arrays and
    [lastLineAdded]. *)
Record Snippet : Type := {
  snippetLines : list string;
  snippetNumbers : list Z;
  lastLineAdded : Z
}.

(** [for (let i = a; i <= b; i++) { snippetLines.push(lines[i]);
    lineNumbers.push(i + 1); }] *)
Definition push_lines (lines : list string) (a b : Z) (acc : Snippet) : Snippet :=
  {| snippetLines := snippetLines acc ++ map (line_at lines) (range a b);
     snippetNumbers := snippetNumbers acc ++ map (fun i => i + 1) (range a b);
     lastLineAdded := lastLineAdded acc |}.

Definition push_separator (acc : Snippet) : Snippet :=
  {| snippetLines := snippetLines acc ++ ["..."];
     snippetNumbers := snippetNumbers acc ++ [-1];
     lastLineAdded := lastLineAdded acc |}.

Definition set_lastLineAdded (e : Z) (acc : Snippet) : Snippet :=
  {| snippetLines := snippetLines acc;
     snippetNumbers := snippetNumbers acc;
     lastLineAdded := e |}.

(** One round of [for (const matchedLine of matchingLineIndices)]. *)
Definition snippet_step (lines : list string) (acc : Snippet) (matchedLine : Z)
  : Snippet :=
  let startLine := Z.max 0 (matchedLine - contextSize) in
  let endLine := Z.min (Z.of_nat (length lines) - 1) (matchedLine + contextSize) in
  if startLine <=? lastLineAdded acc + 1 then
    set_lastLineAdded endLine
      (push_lines lines (lastLineAdded acc + 1) endLine acc)
  else
    let acc :=
      if (0 <? length (snippetLines acc))%nat then push_separator acc else acc in
    set_lastLineAdded endLine (push_lines lines startLine endLine acc).

Definition build_snippet (lines : list string) (matchingLineIndices : list Z)
  : Snippet :=
  fold_left (snippet_step lines) matchingLineIndices
    {| snippetLines := []; snippetNumbers := []; lastLineAdded := -1 |}.

(** [query.trim().split(/\s+/).filter(term => term.length > 2)] *)
Definition long_terms (query : string) : list string :=
  filter (fun term => (2 < String.length term)%nat) (split_ws (trim query)).

(** The source of [queryRegex]: every term escaped and parenthesised, joined
    by [|]. *)
Definition queryRegex_source (query : string) : string :=
  join "|" (map (fun term => "(" +:+ escapeRegExp term +:+ ")") (long_terms query)).

(** [lines.forEach((line, index) => { if (queryRegex.test(line))
    matchingLineIndices.push(index); })] for a [queryRegex] without the [g]
    flag, counting from [index]. *)
Fixpoint matching_lines (re : RegExp (engine P)) (lines : list string) (index : Z)
  : list Z :=
  match lines with
  | [] => []
  | line :: rest =>
      if fst (test re line O) then index :: matching_lines re rest (index + 1)
      else matching_lines re rest (index + 1)
  end.

Definition code_result (item : CodeItem.t) (language : string)
    (snippetLines : list string) (lineNumbers : list Z) : SearchResult :=
  let repo := CodeItem.repository item in
  {| id := pretty (CodeItem.id repo) +:+ "-" +:+ CodeItem.sha item;
     title := CodeItem.full_name repo;
     type := code;
     source := CodeItem.full_name repo;
     url := CodeItem.html_url item;
     snippet := Some (join (String newline "") snippetLines);
     description := None;
     language := Some language;
     stars := CodeItem.stargazers_count repo;
     forks := None;
     watchers := None;
     timestamp := or_else (CodeItem.updated_at repo) (Date_now_iso P);
     owner := Some {| login := User.login (CodeItem.owner repo);
                      avatar_url := User.avatar_url (CodeItem.owner repo);
                      owner_url := None |};
     topics := None;
     openIssues := None;
     license := None;
     path := Some (CodeItem.path item);
     lineNumbers := Some lineNumbers;
     score := None;
     apiSource := None;
     hasRepoData := false |}.

(** The URL of the content fetch; a repository name without [/] leaves
    [repo] undefined, which the template prints as [undefined]. *)
Definition contents_url (item : CodeItem.t) : string :=
  let parts := split_char "/" (CodeItem.full_name (CodeItem.repository item)) in
  let owner := nth 0 parts "undefined" in
  let repo := nth 1 parts "undefined" in
  "https://api.github.com/repos/" +:+ owner +:+ "/" +:+ repo +:+ "/contents/"
  +:+ CodeItem.path item.

(** The [try] block of the per-item callback. *)
Definition code_snippet_of_item (query : string) (item : CodeItem.t)
  : Completion SearchResult :=
  '(status, statusText, fileContent) ← await (get_contents (network P) (contents_url item));
  if negb (status =? 200) then
    Throw (Error ("Failed to fetch file content: " +:+ statusText))
  else
    let lines :=
      match fileContent with
      | Text content => split_lines content
      | NotText => []
      end in
    let fileExt :=
      toLowerCase (List.last (split_char "." (CodeItem.path item)) "") in
    let language :=
      or_else (CodeItem.language item) (if truthy fileExt then fileExt else "Unknown") in
    queryRegex ← RegExp_new (engine P) (queryRegex_source query) "i";
    let matchingLineIndices := matching_lines queryRegex lines 0 in
    if (length matchingLineIndices =? 0)%nat then
      let snippetLines := take 10 lines in
      let lineNumbers := map (fun i => i + 1) (range 0 9) in
      Normal (code_result item language snippetLines lineNumbers)
    else
      let acc := build_snippet lines matchingLineIndices in
      Normal (code_result item language (snippetLines acc) (snippetNumbers acc)).

(** The per-item callback: any exception of the [try] block is caught and
    the callback returns [null]. *)
Definition code_result_or_null (query : string) (item : CodeItem.t)
  : option SearchResult :=
  match code_snippet_of_item query item with
  | Normal r => Some r
  | Throw _ => None
  end.

Definition fetchGitHubCodeSnippets (query : string) (filters : SearchFilters)
  : Completion (list SearchResult) :=
  try_catch
    (if negb (truthy (trim query)) then
       Throw (Error "Search query cannot be empty")
     else
       let queryString := trim query +:+ language_filter filters in
       '(status, statusText, data) ←
         await (get_code (network P) [("q", queryString); ("per_page", "15")]);
       if negb (status =? 200) then
         Throw (Error ("GitHub API request failed: " +:+ pretty status +:+ " " +:+ statusText))
       else
         match data with
         | NoItems => Throw (Error "Invalid response format from GitHub API")
         | Items items => Normal (omap (code_result_or_null query) items)
         end)
    (fun error => Throw (search_error error)).

(** [a < b] on numbers *)
Definition Qltb (a b : Q) : bool := negb (Qle_bool b a).

Definition is_repository (t : ResultType) : bool :=
  match t with repository => true | _ => false end.

Definition is_code (t : ResultType) : bool :=
  match t with code => true | _ => false end.

(** [calculateCombinedScore], one definition for each block of the function;
    [score] is the value of the local variable when the block is entered. *)

(** Base score from stars: [if (result.stars)] skips [undefined] and 0. *)
Definition stars_score (result : SearchResult) (score : Q) : Q :=
  match stars result with
  | Some n => if negb (n =? 0) then (score + Qmin (inject_Z n / 100) 50)%Q else score
  | None => score
  end.

Definition type_score (result : SearchResult) (score : Q) : Q :=
  let score := if is_repository (type result) then (score + 10)%Q else score in
  if is_code (type result) && hasRepoData result then (score + 5)%Q else score.

Definition title_score (queryTerms : list string) (result : SearchResult)
    (score : Q) : Q :=
  if truthy (title result) then
    let titleLower := toLowerCase (title result) in
    fold_left
      (fun score term =>
         if includes titleLower term then
           let score := (score + 15)%Q in
           if String.eqb titleLower term then (score + 10)%Q else score
         else score)
      queryTerms score
  else score.

Definition description_score (queryTerms : list string) (result : SearchResult)
    (score : Q) : Q :=
  match description result with
  | Some d =>
      if truthy d then
        let descLower := toLowerCase d in
        fold_left
          (fun score term =>
             if includes descLower term then (score + 5)%Q else score)
          queryTerms score
      else score
  | None => score
  end.

(** The only block that can throw: each term is compiled as it is. *)
Definition snippet_score (queryTerms : list string) (result : SearchResult)
    (score : Q) : Completion Q :=
  match snippet result with
  | Some sn =>
      if truthy sn then
        let snippetLower := toLowerCase sn in
        foldM
          (fun score term =>
             re ← RegExp_new (engine P) term "g";
             let occurrences := Z.of_nat (match_count re snippetLower) in
             Normal (score + Qmin (inject_Z (occurrences * 2)) 20)%Q)
          queryTerms score
      else Normal score
  | None => Normal score
  end.

(** A date that cannot be read makes [daysSinceUpdate] [NaN], and every
    comparison with it false. *)
Definition freshness_score (result : SearchResult) (score : Q) : Q :=
  if truthy (timestamp result) then
    match Date_getTime P (timestamp result) with
    | Some updateDate =>
        let daysSinceUpdate :=
          (inject_Z (Date_now P - updateDate) / inject_Z (1000 * 60 * 60 * 24))%Q in
        if Qltb daysSinceUpdate 7 then (score + 10)%Q
        else if Qltb daysSinceUpdate 30 then (score + 5)%Q
        else if Qltb daysSinceUpdate 90 then (score + 2)%Q
        else score
    | None => score
    end
  else score.

Definition calculateCombinedScore (result : SearchResult) (query : string)
  : Completion Q :=
  let score := 0%Q in
  let score := stars_score result score in
  let score := type_score result score in
  let queryTerms := split_ws (toLowerCase query) in
  let score := title_score queryTerms result score in
  let score := description_score queryTerms result score in
  score ← snippet_score queryTerms result score;
  Normal (freshness_score result score).

Definition apiSources : ApiSource * ApiSource :=
  ({| api_name := "GitHub Code API"; api_url := GITHUB_CODE_API |},
   {| api_name := "GitHub Repositories API"; api_url := GITHUB_REPOS_API |}).

(** [repoResults.forEach(repo => repoDataMap.set(repo.source, repo))] *)
Definition repoDataMap_of (repoResults : list SearchResult)
  : gmap string SearchResult :=
  fold_left (fun m repo => <[source repo := repo]> m) repoResults ∅.

(** The callback of [codeResults.map] that builds [enrichedCodeResults]. *)
Definition enrich (repoDataMap : gmap string SearchResult)
    (codeResult : SearchResult) : SearchResult :=
  if truthy (source codeResult) then
    match repoDataMap !! source codeResult with
    | Some matchingRepo => with_repo_data matchingRepo codeResult
    | None => codeResult
    end
  else codeResult.

(** Everything after the two fetches have settled. *)
Definition combine_results (query : string)
    (repos codes : Completion (list SearchResult))
  : Completion (list SearchResult) :=
  let errors : list string := [] in
  let '(githubRepos, errors) :=
    match repos with
    | Normal value => (value, errors)
    | Throw reason => ([], errors ++ ["Repository search: " +:+ message reason])
    end in
  let '(codeSnippets, errors) :=
    match codes with
    | Normal value => (value, errors)
    | Throw reason => ([], errors ++ ["Code search: " +:+ message reason])
    end in
  if (length githubRepos =? 0)%nat && (length codeSnippets =? 0)%nat then
    if (0 <? length errors)%nat then
      Throw (Error ("Search failed: " +:+ join "; " errors))
    else
      Throw (Error "No results found for your search query. Try different search terms.")
  else
    let repoResults := map (with_apiSource (snd apiSources)) githubRepos in
    let codeResults := map (with_apiSource (fst apiSources)) codeSnippets in
    let combinedResults : list SearchResult := [] in
    let combinedResults :=
      if (0 <? length repoResults)%nat then combinedResults ++ take 3 repoResults
      else combinedResults in
    let repoDataMap := repoDataMap_of repoResults in
    let enrichedCodeResults := map (enrich repoDataMap) codeResults in
    let combinedResults := combinedResults ++ enrichedCodeResults in
    let combinedResults :=
      if (3 <? length repoResults)%nat then combinedResults ++ drop 3 repoResults
      else combinedResults in
    mapM
      (fun result =>
         score ← calculateCombinedScore result query;
         Normal (with_score score result))
      combinedResults.

Definition fetchSearchResults (query : string) (filters : SearchFilters)
  : Completion (list SearchResult) :=
  try_catch
    (if negb (truthy (trim query)) then
       Throw (Error "Search query cannot be empty")
     else
       combine_results query
         (fetchGitHubRepositories query filters)
         (fetchGitHubCodeSnippets query filters))
    (fun error =>
       if truthy (message error) then Throw (Error (message error))
       else Throw (Error "An unexpected error occurred while searching. Please try again.")).

End Service.

(** ** [src/components/ResultsList.tsx] *)

Module ResultsList.

Record SearchOptions : Type := {
  matchWholeWord : bool;
  matchCase : bool;
  useRegex : bool;
  highlightMatchesOnly : bool
}.

(** What [getEnhancedCodeSnippet] puts on screen for one line of a snippet
    with line numbers: the divider of a separator entry, or a numbered line
    with its match flag and its HTML. *)
Inductive Row : Type :=
| SeparatorRow (idx : nat)
| LineRow (idx : nat) (lineNum : option Z) (isMatchingLine : bool) (html : string).

(** The body of the view without line numbers. *)
Inductive InlineBody : Type :=
| PlainText (codeContent : string)
| MatchingLines (rows : list (nat * string))
| NoMatchingLines
| HighlightedText (html : string).

Inductive CodeView : Type :=
| NumberedView (processedLines : list Row) (matchCount : nat)
| InlineView (body : InlineBody).

Definition mark_open : string :=
  "<mark class=" +:+ String (ascii_of_nat 34) ""
  +:+ "bg-yellow-200 dark:bg-yellow-900/50 dark:text-yellow-200 rounded-sm px-0.5"
  +:+ String (ascii_of_nat 34) "" +:+ ">".

Definition mark_close : string := "</mark>".

Section View.

Context (P : Platform) (searchOptions : SearchOptions).

Definition createSearchRegex (query : string)
  : Completion (option (RegExp (engine P))) :=
  if negb (truthy (trim query)) then Normal None
  else
    try_catch
      (let pattern :=
         if useRegex searchOptions then query
         else
           let pattern := escapeRegExp query in
           let pattern :=
             if matchWholeWord searchOptions then "\b" +:+ pattern +:+ "\b"
             else pattern in
           if negb (matchWholeWord searchOptions) then
             let terms :=
               filter (fun t => (0 <? String.length t)%nat) (split_ws pattern) in
             if (1 <? length terms)%nat then "(" +:+ join "|" terms +:+ ")"
             else pattern
           else pattern in
       re ← RegExp_new (engine P) pattern
              (if matchCase searchOptions then "g" else "gi");
       Normal (Some re))
      (fun e => Normal None).

Definition is_separator (lineNumbers : list Z) (idx : nat) : bool :=
  match lineNumbers !! idx with
  | Some n => n =? -1
  | None => false
  end.

(** The callback of [lines.map] in the branch with line numbers, with the
    [lastIndex] of [searchRegex] before and after. *)
Definition process_line (searchRegex : option (RegExp (engine P)))
    (lineNumbers : list Z) (idx : nat) (line : string) (lastIndex : nat)
  : option Row * nat :=
  if is_separator lineNumbers idx then (Some (SeparatorRow idx), lastIndex)
  else
    let '(isMatchingLine, lastIndex) :=
      match searchRegex with
      | Some re => test re line lastIndex
      | None => (false, lastIndex)
      end in
    if highlightMatchesOnly searchOptions && negb isMatchingLine then
      (None, lastIndex)
    else
      match searchRegex with
      | Some re =>
          if isMatchingLine then
            (Some (LineRow idx (lineNumbers !! idx) isMatchingLine
                     (replace re line mark_open mark_close)), O)
          else (Some (LineRow idx (lineNumbers !! idx) isMatchingLine line), lastIndex)
      | None => (Some (LineRow idx (lineNumbers !! idx) isMatchingLine line), lastIndex)
      end.

(** [lines.map(...).filter(Boolean)] from index [idx] on. *)
Fixpoint process_lines (searchRegex : option (RegExp (engine P)))
    (lineNumbers : list Z) (lines : list string) (idx lastIndex : nat)
  : list Row * nat :=
  match lines with
  | [] => ([], lastIndex)
  | line :: rest =>
      let '(row, lastIndex) := process_line searchRegex lineNumbers idx line lastIndex in
      let '(rows, lastIndex) := process_lines searchRegex lineNumbers rest (S idx) lastIndex in
      (match row with Some r => r :: rows | None => rows end, lastIndex)
  end.

(** [lines.filter((line, idx) => lineNumbers[idx] !== -1 &&
    searchRegex.test(line)).length] from index [idx] on. *)
Fixpoint count_matches (re : RegExp (engine P)) (lineNumbers : list Z)
    (lines : list string) (idx lastIndex : nat) : nat * nat :=
  match lines with
  | [] => (O, lastIndex)
  | line :: rest =>
      if is_separator lineNumbers idx then
        count_matches re lineNumbers rest (S idx) lastIndex
      else
        let '(hit, lastIndex) := test re line lastIndex in
        let '(n, lastIndex) := count_matches re lineNumbers rest (S idx) lastIndex in
        (if hit then S n else n, lastIndex)
  end.

(** The callback of [lines.map] in the branch without line numbers. *)
Definition inline_line (re : RegExp (engine P)) (idx : nat) (line : string)
    (lastIndex : nat) : option (nat * string) * nat :=
  let '(hit, lastIndex) := test re line lastIndex in
  if negb hit then (None, lastIndex)
  else (Some (idx, replace re line mark_open mark_close), O).

Fixpoint inline_lines (re : RegExp (engine P)) (lines : list string)
    (idx lastIndex : nat) : list (nat * string) :=
  match lines with
  | [] => []
  | line :: rest =>
      let '(row, lastIndex) := inline_line re idx line lastIndex in
      match row with
      | Some r => r :: inline_lines re rest (S idx) lastIndex
      | None => inline_lines re rest (S idx) lastIndex
      end
  end.

(** [getEnhancedCodeSnippet]: [None] is the [null] of a result without
    snippet. *)
Definition getEnhancedCodeSnippet (result : SearchResult) (query : string)
  : Completion (option CodeView) :=
  match snippet result with
  | None => Normal None
  | Some codeContent =>
      if negb (truthy codeContent) then Normal None
      else
        let lineNumbers := default [] (lineNumbers result) in
        searchRegex ← createSearchRegex query;
        if (0 <? length lineNumbers)%nat then
          let lines := split_lines codeContent in
          let '(processedLines, lastIndex) :=
            process_lines searchRegex lineNumbers lines O O in
          let matchCount :=
            match searchRegex with
            | Some re => fst (count_matches re lineNumbers lines O lastIndex)
            | None => O
            end in
          Normal (Some (NumberedView processedLines matchCount))
        else
          searchRegex ← createSearchRegex query;
          match searchRegex with
          | None => Normal (Some (InlineView (PlainText codeContent)))
          | Some re =>
              if highlightMatchesOnly searchOptions then
                let matchingLines := inline_lines re (split_lines codeContent) O O in
                if (0 <? length matchingLines)%nat then
                  Normal (Some (InlineView (MatchingLines matchingLines)))
                else Normal (Some (InlineView NoMatchingLines))
              else
                Normal (Some (InlineView
                  (HighlightedText (replace re codeContent mark_open mark_close))))
          end
  end.

(** [calculateRepoScore]; [None] is [NaN], which only an unreadable
    [timestamp] produces. *)
Definition calculateRepoScore (result : SearchResult) : option Q :=
  let score := 0%Q in
  let score :=
    match stars result with
    | Some n => if negb (n =? 0) then (score + inject_Z n * 3)%Q else score
    | None => score
    end in
  let score :=
    match forks result with
    | Some n => if negb (n =? 0) then (score + inject_Z n * 2)%Q else score
    | None => score
    end in
  let score :=
    match watchers result with
    | Some n => if negb (n =? 0) then (score + inject_Z n)%Q else score
    | None => score
    end in
  let score :=
    match openIssues result with
    | Some n => (score - Qmin (inject_Z n / 10) 20)%Q
    | None => score
    end in
  score ←
    (if truthy (timestamp result) then
       t ← Date_getTime P (timestamp result);
       let ageInDays :=
         (inject_Z (Date_now P - t) / inject_Z (1000 * 60 * 60 * 24))%Q in
       Some (score + Qmax 0 (50 - ageInDays / 2))%Q
     else Some score);
  Some (Qmax 0 score).

(** The comparator [(a, b) => calculateRepoScore(b) - calculateRepoScore(a)];
    [sort] reads a [NaN] as [+0]. *)
Definition comparator (a b : SearchResult) : Q :=
  match calculateRepoScore b, calculateRepoScore a with
  | Some sb, Some sa => (sb - sa)%Q
  | _, _ => 0%Q
  end.

End View.

(** [xs.sort(cmp)].  The sort of the language is stable, so for a comparator
    that is a consistent order its result is the one of any stable sort; the
    insertion sort below puts [x] after the [y]s it compares greater than. *)
Fixpoint insert_sorted (cmp : SearchResult -> SearchResult -> Q)
    (x : SearchResult) (l : list SearchResult) : list SearchResult :=
  match l with
  | [] => [x]
  | y :: l' => if Qltb 0 (cmp x y) then y :: insert_sorted cmp x l' else x :: l
  end.

Definition Array_sort (cmp : SearchResult -> SearchResult -> Q)
    (l : list SearchResult) : list SearchResult :=
  foldr (insert_sorted cmp) [] l.

(** The order in which the component renders its cards. *)
Definition rendered_results (P : Platform) (results : list SearchResult)
  : list SearchResult :=
  Array_sort (comparator P) results.

End ResultsList.

(** ** [src/components/CodeBlock.tsx] *)

Module CodeBlock.

Definition createHighlightPattern (P : Platform) (query : string)
  : Completion (option (RegExp (engine P))) :=
  if negb (truthy (trim query)) then Normal None
  else
    try_catch
      (re ← RegExp_new (engine P) ("(" +:+ escapeRegExp (trim query) +:+ ")") "gi";
       Normal (Some re))
      (fun e => Normal None).

End CodeBlock.

(** ** The header of the results list ([src/components/ResultsList.tsx]) *)

Module ResultsHeader.

(** The callback of [reduce] in [ApiSourcesInfo]: a source is pushed unless
    one with its [url] is there already. *)
Definition add_source (sources : list ApiSource) (source : ApiSource)
  : list ApiSource :=
  if existsb (fun s => String.eqb (api_url s) (api_url source)) sources
  then sources
  else sources ++ [source].

(** [results.filter(result => result.apiSource).reduce(..., [])] *)
Definition apiSources_of (results : list SearchResult) : list ApiSource :=
  fold_left add_source (omap apiSource results) [].

(** The component renders nothing ([null]) without a source, and the
    number of sources with their list otherwise. *)
Definition ApiSourcesInfo (results : list SearchResult)
  : option (nat * list ApiSource) :=
  let apiSources := apiSources_of results in
  if (length apiSources =? 0)%nat then None
  else Some (length apiSources, apiSources).

(** [ResultsMetrics]: the three numbers it shows. *)
Definition codeCount (results : list SearchResult) : nat :=
  length (List.filter (fun r => is_code (type r)) results).

Definition repoCount (results : list SearchResult) : nat :=
  length (List.filter (fun r => is_repository (type r)) results).

Definition ResultsMetrics (results : list SearchResult) : nat * nat * nat :=
  (codeCount results, repoCount results, length results).

(** What [ResultsList] puts above its cards.  The two components are given
    the [results] array itself and run once the body of [ResultsList] has
    returned; by then [results.sort] has put that array in the order of the
    cards. *)
Definition header (P : Platform) (results : list SearchResult)
  : option (nat * list ApiSource) * (nat * nat * nat) :=
  let results := ResultsList.rendered_results P results in
  (ApiSourcesInfo results, ResultsMetrics results).

End ResultsHeader.

(** ** The date of a card ([src/components/ResultsList.tsx]) *)

Module ResultCard.

(** [formatDate].  Nothing in its [try] block throws, so the [catch] is left
    out.  The quotients are exact rationals and [Math.floor] is [Qfloor];
    the program divides in floating point, which gives the same comparisons
    and the same integer parts for dates within some thousand years of
    now. *)
Definition formatDate (P : Platform) (dateString : string) : string :=
  if negb (truthy dateString) then ""
  else
    match Date_getTime P dateString with
    | None => "Unknown date"
    | Some date =>
        let diffTime := Date_now P - date in
        let diffDays := (inject_Z diffTime / inject_Z (1000 * 60 * 60 * 24))%Q in
        if Qltb diffDays 1 then
          let hours := Qfloor (inject_Z diffTime / inject_Z (1000 * 60 * 60)) in
          if hours <? 1 then
            let minutes := Qfloor (inject_Z diffTime / inject_Z (1000 * 60)) in
            if minutes <=? 1 then "Just now"
            else pretty minutes +:+ " minutes ago"
          else
            pretty hours +:+ " " +:+ (if hours =? 1 then "hour" else "hours") +:+ " ago"
        else if Qltb diffDays 2 then "Yesterday"
        else if Qltb diffDays 7 then
          let days := Qfloor diffDays in
          pretty days +:+ " days ago"
        else if Qltb diffDays 30 then
          let weeks := Qfloor (diffDays / 7) in
          pretty weeks +:+ " " +:+ (if weeks =? 1 then "week" else "weeks") +:+ " ago"
        else if Qltb diffDays 365 then
          let months := Qfloor (diffDays / 30) in
          pretty months +:+ " " +:+ (if months =? 1 then "month" else "months") +:+ " ago"
        else
          let years := Qfloor (diffDays / 365) in
          pretty years +:+ " " +:+ (if years =? 1 then "year" else "years") +:+ " ago"
    end.

End ResultCard.

(** ** The lines of a code block ([src/components/CodeBlock.tsx]) *)

Module CodeBlockLines.

(** [lineHasMatch] for the lines of tokens that the highlighter gives, each
    token by its [content], with the [lastIndex] of [highlightPattern]
    before the first line.  A line is tested as the concatenation of its
    tokens; then every token of the line goes through
    [content.match(highlightPattern)], which leaves the [lastIndex] of a
    global pattern at 0. *)
Fixpoint line_flags {E : RegExpEngine} (highlightPattern : RegExp E)
    (tokens : list (list string)) (lastIndex : nat) : list bool :=
  match tokens with
  | [] => []
  | line :: rest =>
      let lineText := join "" line in
      let '(lineHasMatch, lastIndex) := test highlightPattern lineText lastIndex in
      let lastIndex := if (0 <? length line)%nat then O else lastIndex in
      lineHasMatch :: line_flags highlightPattern rest lastIndex
  end.

(** The flags of the rendered lines: none is set without a pattern. *)
Definition lineHasMatch (P : Platform) (searchQuery : string)
    (tokens : list (list string)) : Completion (list bool) :=
  highlightPattern ← CodeBlock.createHighlightPattern P searchQuery;
  match highlightPattern with
  | Some re => Normal (line_flags re tokens O)
  | None => Normal (map (fun _ => false) tokens)
  end.

End CodeBlockLines.

(** ** [src/App.tsx] *)

(** The string that a [type] property is in the program. *)
Definition type_name (t : ResultType) : string :=
  match t with
  | repository => "repository"
  | code => "code"
  | community => "community"
  end.

Module App.

#[local] Abbreviation result_language := language (only parsing).
#[local] Abbreviation result_type := type (only parsing).

(** The [filters] state of the component. *)
Record Filters : Type := {
  language : string;
  type : string;
  time : string;
  repository : string;
  sort : string
}.

Definition initialFilters : Filters :=
  {| language := "all"; type := "all"; time := "all"; repository := "all";
     sort := "relevance" |}.

(** [handleFilterChange]: the next [filters].  [{ ...prev, [type]: value }]
    with a key that is none of the five adds a property that nothing
    reads. *)
Definition handleFilterChange (key value : string) (prev : Filters) : Filters :=
  if String.eqb key "reset" then initialFilters
  else if String.eqb key "language" then
    {| language := value; type := type prev; time := time prev;
       repository := repository prev; sort := sort prev |}
  else if String.eqb key "type" then
    {| language := language prev; type := value; time := time prev;
       repository := repository prev; sort := sort prev |}
  else if String.eqb key "time" then
    {| language := language prev; type := type prev; time := value;
       repository := repository prev; sort := sort prev |}
  else if String.eqb key "repository" then
    {| language := language prev; type := type prev; time := time prev;
       repository := value; sort := sort prev |}
  else if String.eqb key "sort" then
    {| language := language prev; type := type prev; time := time prev;
       repository := repository prev; sort := value |}
  else prev.

(** The callback of [results.filter] in [applyFilters].  An unreadable
    [timestamp] makes [diffDays] [NaN], for which no comparison holds. *)
Definition keeps (P : Platform) (filters : Filters) (result : SearchResult) : bool :=
  if negb (String.eqb (language filters) "all")
     && negb (match result_language result with
              | Some l => String.eqb (toLowerCase l) (toLowerCase (language filters))
              | None => false
              end)
  then false
  else if negb (String.eqb (type filters) "all")
          && negb (String.eqb (type_name (result_type result)) (type filters))
  then false
  else if negb (String.eqb (repository filters) "all")
          && negb (includes (toLowerCase (source result))
                     (toLowerCase (repository filters)))
  then false
  else if negb (String.eqb (time filters) "all") then
    match Date_getTime P (timestamp result) with
    | None => true
    | Some resultDate =>
        let diffTime := Date_now P - resultDate in
        let diffDays := (inject_Z diffTime / inject_Z (1000 * 60 * 60 * 24))%Q in
        if String.eqb (time filters) "day" then negb (Qltb 1 diffDays)
        else if String.eqb (time filters) "week" then negb (Qltb 7 diffDays)
        else if String.eqb (time filters) "month" then negb (Qltb 30 diffDays)
        else if String.eqb (time filters) "year" then negb (Qltb 365 diffDays)
        else true
    end
  else true.

Definition applyFilters (P : Platform) (filters : Filters)
    (results : list SearchResult) : list SearchResult :=
  List.filter (keeps P filters) results.

(** The component's object seen as the [SearchFilters] of the service.  It
    has no [timeRange] and no [sortBy]; the service only compares these two
    with string literals, and [undefined] differs from each of them, as
    does the string that stands for it here. *)
Definition undefined : string := "undefined".

Definition as_SearchFilters (filters : Filters) : SearchFilters :=
  {| filter_language := language filters;
     timeRange := undefined;
     sortBy := undefined |}.

(** The part of the component's state that a search sets. *)
Record State : Type := {
  query : string;
  results : list SearchResult;
  loading : bool;
  error : option string;
  filters : Filters
}.

(** [handleSearch], from the state before to the state after.  Saving the
    search history has a [try] of its own and sets nothing. *)
Definition handleSearch (P : Platform) (searchQuery : string) (st : State) : State :=
  if negb (truthy searchQuery) || (String.length (trim searchQuery) =? 0)%nat then
    {| query := query st; results := results st; loading := loading st;
       error := Some "Please enter a search query"; filters := filters st |}
  else
    match fetchSearchResults P searchQuery (as_SearchFilters (filters st)) with
    | Normal data =>
        {| query := searchQuery; results := data; loading := false;
           error :=
             if (length data =? 0)%nat then
               Some "No results found. Try different search terms or check your filters."
             else None;
           filters := filters st |}
    | Throw err =>
        {| query := searchQuery; results := []; loading := false;
           error := Some (if truthy (message err) then message err
                          else "Search failed. Please try again.");
           filters := filters st |}
    end.

(** [filteredResults], what the component hands to [ResultsList]. *)
Definition filteredResults (P : Platform) (st : State) : list SearchResult :=
  applyFilters P (filters st) (results st).

End App.

(** ** A concrete engine for a fragment of the pattern language

    [JsFragment] reads patterns made of literal characters, escapes
    ([\b \B \d \D \w \W \s \S \t \n \v \f \r] and escaped punctuation), [.],
    [^], [$], character classes, groups [( )] and [(?: )], alternation and
    the quantifiers [* + ?] with their lazy forms.  It reports the syntax
    errors of that fragment the way the language does.  Braces, lookaround,
    back-references and numeric escapes are outside the fragment; [compile]
    answers [inl] on them too, with a reason of its own.  It is the engine
    on which the definitions above are run on concrete inputs; the general
    statements below do not depend on it. *)

Module JsFragment.

Inductive re : Type :=
| Eps
| Chr (c : ascii)
| Any
| Cls (neg : bool) (ranges : list (ascii * ascii))
| Seq (a b : re)
| Alt (a b : re)
| Star (greedy : bool) (a : re)
| Bol
| Eol
| WordB (neg : bool).

Inductive quant : Type := QStar | QPlus | QOpt.

Definition quantify (q : quant) (greedy : bool) (a : re) : re :=
  match q with
  | QStar => Star greedy a
  | QPlus => Seq a (Star greedy a)
  | QOpt => if greedy then Alt a Eps else Alt Eps a
  end.

(** The last term read in the current alternative. *)
Inductive pending : Type :=
| PNone
| PAtom (a : re)
| PQuant (a : re) (q : quant)
| PLazy (a : re) (q : quant)
| PAssert (a : re).

Record frame : Type := {
  alts : list re;
  terms : list re;
  pend : pending
}.

Definition empty_frame : frame := {| alts := []; terms := []; pend := PNone |}.

Definition committed (f : frame) : list re :=
  match pend f with
  | PNone => terms f
  | PAtom a => a :: terms f
  | PQuant a q => quantify q true a :: terms f
  | PLazy a q => quantify q false a :: terms f
  | PAssert a => a :: terms f
  end.

(** [rev_seq [tn; ...; t1]] is [t1 t2 ... tn]. *)
Definition rev_seq (ts : list re) : re :=
  match ts with
  | [] => Eps
  | t :: ts' => fold_left (fun acc x => Seq x acc) ts' t
  end.

Definition rev_alt (rs : list re) (r : re) : re :=
  fold_left (fun acc x => Alt x acc) rs r.

Definition close_frame (f : frame) : re :=
  rev_alt (alts f) (rev_seq (committed f)).

Definition push_term (p : pending) (f : frame) : frame :=
  {| alts := alts f; terms := committed f; pend := p |}.

Definition next_alt (f : frame) : frame :=
  {| alts := rev_seq (committed f) :: alts f; terms := []; pend := PNone |}.

Inductive mode : Type :=
| MNormal
| MEscape
| MGroupOpen
| MGroupQ
| MClassStart
| MClass (neg : bool) (ranges : list (ascii * ascii)) (lastc : option ascii) (dash : bool)
| MClassEsc (neg : bool) (ranges : list (ascii * ascii)) (lastc : option ascii) (dash : bool).

Definition code_of (c : ascii) : nat := nat_of_ascii c.

Definition digit_ranges : list (ascii * ascii) := [("0", "9")]%char.
Definition word_ranges : list (ascii * ascii) :=
  [("a", "z"); ("A", "Z"); ("0", "9"); ("_", "_")]%char.
Definition space_ranges : list (ascii * ascii) :=
  [(ascii_of_nat 9, ascii_of_nat 13); (" ", " ")]%char.

Definition unsupported : string := "construct outside the modelled fragment".

(** Ranges of a class once its last character and a trailing [-] are
    committed. *)
Definition class_commit (ranges : list (ascii * ascii)) (lastc : option ascii)
    (dash : bool) : list (ascii * ascii) :=
  let ranges := match lastc with Some a => (a, a) :: ranges | None => ranges end in
  if dash then ("-", "-")%char :: ranges else ranges.

(** A literal character inside a class. *)
Definition class_char (neg : bool) (ranges : list (ascii * ascii))
    (lastc : option ascii) (dash : bool) (c : ascii) : string + mode :=
  match lastc, dash with
  | Some a, true =>
      if (code_of c <? code_of a)%nat then inl "Range out of order in character class"
      else inr (MClass neg ((a, c) :: ranges) None false)
  | _, _ => inr (MClass neg (class_commit ranges lastc false) (Some c) false)
  end.

Definition escape_atom (c : ascii) : string + pending :=
  let n := code_of c in
  if Ascii.eqb c "b" then inr (PAssert (WordB false))
  else if Ascii.eqb c "B" then inr (PAssert (WordB true))
  else if Ascii.eqb c "d" then inr (PAtom (Cls false digit_ranges))
  else if Ascii.eqb c "D" then inr (PAtom (Cls true digit_ranges))
  else if Ascii.eqb c "w" then inr (PAtom (Cls false word_ranges))
  else if Ascii.eqb c "W" then inr (PAtom (Cls true word_ranges))
  else if Ascii.eqb c "s" then inr (PAtom (Cls false space_ranges))
  else if Ascii.eqb c "S" then inr (PAtom (Cls true space_ranges))
  else if Ascii.eqb c "t" then inr (PAtom (Chr (ascii_of_nat 9)))
  else if Ascii.eqb c "n" then inr (PAtom (Chr (ascii_of_nat 10)))
  else if Ascii.eqb c "v" then inr (PAtom (Chr (ascii_of_nat 11)))
  else if Ascii.eqb c "f" then inr (PAtom (Chr (ascii_of_nat 12)))
  else if Ascii.eqb c "r" then inr (PAtom (Chr (ascii_of_nat 13)))
  else if ((48 <=? n)%nat && (n <=? 57)%nat)
          || existsb (Ascii.eqb c) (list_ascii_of_string "cxukpP")
       then inl unsupported
  else inr (PAtom (Chr c)).

(** One character in [MNormal]. *)
Definition normal_step (stack : list frame) (cur : frame) (c : ascii)
  : string + (mode * list frame * frame) :=
  let quantifier q :=
    match pend cur with
    | PAtom a =>
        inr (MNormal, stack, {| alts := alts cur; terms := terms cur; pend := PQuant a q |})
    | _ => inl "Nothing to repeat"
    end in
  if Ascii.eqb c "\" then inr (MEscape, stack, cur)
  else if Ascii.eqb c "(" then inr (MGroupOpen, cur :: stack, empty_frame)
  else if Ascii.eqb c ")" then
    match stack with
    | [] => inl "Unmatched ')'"
    | parent :: stack' =>
        inr (MNormal, stack', push_term (PAtom (close_frame cur)) parent)
    end
  else if Ascii.eqb c "|" then inr (MNormal, stack, next_alt cur)
  else if Ascii.eqb c "*" then quantifier QStar
  else if Ascii.eqb c "+" then quantifier QPlus
  else if Ascii.eqb c "?" then
    match pend cur with
    | PQuant a q =>
        inr (MNormal, stack, {| alts := alts cur; terms := terms cur; pend := PLazy a q |})
    | _ => quantifier QOpt
    end
  else if Ascii.eqb c "[" then inr (MClassStart, stack, cur)
  else if Ascii.eqb c "{" then inl unsupported
  else if Ascii.eqb c "." then inr (MNormal, stack, push_term (PAtom Any) cur)
  else if Ascii.eqb c "^" then inr (MNormal, stack, push_term (PAssert Bol) cur)
  else if Ascii.eqb c "$" then inr (MNormal, stack, push_term (PAssert Eol) cur)
  else inr (MNormal, stack, push_term (PAtom (Chr c)) cur).

Definition class_step (stack : list frame) (cur : frame) (neg : bool)
    (ranges : list (ascii * ascii)) (lastc : option ascii) (dash : bool)
    (c : ascii) : string + (mode * list frame * frame) :=
  if Ascii.eqb c "]" then
    inr (MNormal, stack,
         push_term (PAtom (Cls neg (class_commit ranges lastc dash))) cur)
  else if Ascii.eqb c "\" then inr (MClassEsc neg ranges lastc dash, stack, cur)
  else if Ascii.eqb c "-" && negb dash && bool_decide (lastc ≠ None) then
    inr (MClass neg ranges lastc true, stack, cur)
  else
    match class_char neg ranges lastc dash c with
    | inl e => inl e
    | inr m => inr (m, stack, cur)
    end.

Definition class_escape_step (stack : list frame) (cur : frame) (neg : bool)
    (ranges : list (ascii * ascii)) (lastc : option ascii) (dash : bool)
    (c : ascii) : string + (mode * list frame * frame) :=
  let n := code_of c in
  let set rs := inr (MClass neg (rs ++ class_commit ranges lastc dash) None false, stack, cur) in
  let lit d :=
    match class_char neg ranges lastc dash d with
    | inl e => inl e
    | inr m => inr (m, stack, cur)
    end in
  if Ascii.eqb c "d" then set digit_ranges
  else if Ascii.eqb c "w" then set word_ranges
  else if Ascii.eqb c "s" then set space_ranges
  else if Ascii.eqb c "b" then lit (ascii_of_nat 8)
  else if Ascii.eqb c "t" then lit (ascii_of_nat 9)
  else if Ascii.eqb c "n" then lit (ascii_of_nat 10)
  else if Ascii.eqb c "v" then lit (ascii_of_nat 11)
  else if Ascii.eqb c "f" then lit (ascii_of_nat 12)
  else if Ascii.eqb c "r" then lit (ascii_of_nat 13)
  else if ((48 <=? n)%nat && (n <=? 57)%nat)
          || existsb (Ascii.eqb c) (list_ascii_of_string "cxukpPDWS")
       then inl unsupported
  else lit c.

Definition step (m : mode) (stack : list frame) (cur : frame) (c : ascii)
  : string + (mode * list frame * frame) :=
  match m with
  | MNormal => normal_step stack cur c
  | MEscape =>
      match escape_atom c with
      | inl e => inl e
      | inr p => inr (MNormal, stack, push_term p cur)
      end
  | MGroupOpen =>
      if Ascii.eqb c "?" then inr (MGroupQ, stack, cur)
      else normal_step stack cur c
  | MGroupQ =>
      if Ascii.eqb c ":" then inr (MNormal, stack, cur)
      else if existsb (Ascii.eqb c) (list_ascii_of_string "=!<") then inl unsupported
      else inl "Invalid group"
  | MClassStart =>
      if Ascii.eqb c "^" then inr (MClass true [] None false, stack, cur)
      else class_step stack cur false [] None false c
  | MClass neg ranges lastc dash => class_step stack cur neg ranges lastc dash c
  | MClassEsc neg ranges lastc dash => class_escape_step stack cur neg ranges lastc dash c
  end.

Fixpoint parse (m : mode) (stack : list frame) (cur : frame) (s : string)
  : string + re :=
  match s with
  | String c s' =>
      match step m stack cur c with
      | inl e => inl e
      | inr (m', stack', cur') => parse m' stack' cur' s'
      end
  | EmptyString =>
      match m with
      | MEscape => inl "\ at end of pattern"
      | MGroupQ => inl "Invalid group"
      | MClassStart | MClass _ _ _ _ | MClassEsc _ _ _ _ =>
          inl "Unterminated character class"
      | MNormal | MGroupOpen =>
          match stack with
          | [] => inr (close_frame cur)
          | _ :: _ => inl "Unterminated group"
          end
      end
  end.

Definition upper_ascii (c : ascii) : ascii :=
  let n := code_of c in
  if ((97 <=? n)%nat && (n <=? 122)%nat)%bool then ascii_of_nat (n - 32) else c.

Definition same_char (ignoreCase : bool) (c d : ascii) : bool :=
  if ignoreCase then Ascii.eqb (lower_ascii c) (lower_ascii d) else Ascii.eqb c d.

Definition in_range (r : ascii * ascii) (c : ascii) : bool :=
  ((code_of (fst r) <=? code_of c)%nat && (code_of c <=? code_of (snd r))%nat)%bool.

Definition in_ranges (ignoreCase : bool) (ranges : list (ascii * ascii)) (c : ascii)
  : bool :=
  existsb
    (fun r =>
       in_range r c
       || (ignoreCase && (in_range r (lower_ascii c) || in_range r (upper_ascii c))))
    ranges.

Definition is_word_char (c : option ascii) : bool :=
  match c with
  | Some c => in_ranges false word_ranges c
  | None => false
  end.

Definition is_line_terminator (c : ascii) : bool :=
  ((code_of c =? 10)%nat || (code_of c =? 13)%nat)%bool.

Definition char_before (s : string) (i : nat) : option ascii :=
  match i with
  | O => None
  | S j => String.get j s
  end.

(** The backtracking matcher, in continuation-passing style: [matcher r k i]
    matches [r] at [i] and hands every candidate end to [k], in the order of
    the language (greedy before lazy, left alternative first).  A round of a
    star that consumes nothing is refused. *)
Fixpoint matcher (ignoreCase : bool) (s : string) (r : re)
    (k : nat -> option nat) (i : nat) {struct r} : option nat :=
  match r with
  | Eps => k i
  | Chr c =>
      match String.get i s with
      | Some d => if same_char ignoreCase c d then k (S i) else None
      | None => None
      end
  | Any =>
      match String.get i s with
      | Some d => if is_line_terminator d then None else k (S i)
      | None => None
      end
  | Cls neg ranges =>
      match String.get i s with
      | Some d => if xorb neg (in_ranges ignoreCase ranges d) then k (S i) else None
      | None => None
      end
  | Seq a b => matcher ignoreCase s a (matcher ignoreCase s b k) i
  | Alt a b =>
      match matcher ignoreCase s a k i with
      | Some e => Some e
      | None => matcher ignoreCase s b k i
      end
  | Star greedy a =>
      (fix rounds (fuel : nat) (i : nat) {struct fuel} : option nat :=
         match fuel with
         | O => k i
         | S fuel' =>
             let again :=
               matcher ignoreCase s a
                 (fun j => if (i <? j)%nat then rounds fuel' j else None) i in
             if greedy then
               match again with
               | Some e => Some e
               | None => k i
               end
             else
               match k i with
               | Some e => Some e
               | None => again
               end
         end) (S (String.length s)) i
  | Bol => if (i =? 0)%nat then k i else None
  | Eol => if (i =? String.length s)%nat then k i else None
  | WordB neg =>
      if xorb neg (xorb (is_word_char (char_before s i)) (is_word_char (String.get i s)))
      then k i else None
  end.

Record compiled : Type := {
  c_re : re;
  c_ignoreCase : bool
}.

Definition fragment_compile (source : string) (ignoreCase : bool)
  : string + compiled :=
  match parse MNormal [] empty_frame source with
  | inl reason =>
      inl ("Invalid regular expression: /" +:+ source +:+ "/: " +:+ reason)
  | inr r => inr {| c_re := r; c_ignoreCase := ignoreCase |}
  end.

Definition fragment_match_at (p : compiled) (s : string) (i : nat) : option nat :=
  matcher (c_ignoreCase p) s (c_re p) Some i.

Definition Engine : RegExpEngine :=
  {| pattern := compiled;
     compile := fragment_compile;
     match_at := fragment_match_at |}.

End JsFragment.

(** ** A concrete clock

    Dates in the format of the API, [YYYY-MM-DDTHH:MM:SSZ], and in the one of
    [toISOString], [YYYY-MM-DDTHH:MM:SS.mmmZ], in UTC; any other text is an
    invalid date here. *)

Module Clock.

Definition days_from_civil (y m d : Z) : Z :=
  let y := if m <=? 2 then y - 1 else y in
  let era := y / 400 in
  let yoe := y - era * 400 in
  let doy := (153 * (if 2 <? m then m - 3 else m + 9) + 2) / 5 + d - 1 in
  let doe := yoe * 365 + yoe / 4 - yoe / 100 + doy in
  era * 146097 + doe - 719468.

Definition civil_from_days (z : Z) : Z * Z * Z :=
  let z := z + 719468 in
  let era := z / 146097 in
  let doe := z - era * 146097 in
  let yoe := (doe - doe / 1460 + doe / 36524 - doe / 146096) / 365 in
  let doy := doe - (365 * yoe + yoe / 4 - yoe / 100) in
  let mp := (5 * doy + 2) / 153 in
  let d := doy - (153 * mp + 2) / 5 + 1 in
  let m := if mp <? 10 then mp + 3 else mp - 9 in
  (yoe + era * 400 + (if m <=? 2 then 1 else 0), m, d).

Fixpoint digits (s : string) (acc : Z) : option Z :=
  match s with
  | EmptyString => Some acc
  | String c s' =>
      let n := Z.of_nat (nat_of_ascii c) in
      if (48 <=? n) && (n <=? 57) then digits s' (acc * 10 + (n - 48)) else None
  end.

Definition field (s : string) (pos len : nat) : option Z :=
  if (pos + len <=? String.length s)%nat then digits (substring pos len s) 0 else None.

Definition sep (s : string) (pos : nat) (c : ascii) : option unit :=
  match String.get pos s with
  | Some d => if Ascii.eqb c d then Some tt else None
  | None => None
  end.

Definition getTime (s : string) : option Z :=
  y ← field s 0 4; _ ← sep s 4 "-";
  m ← field s 5 2; _ ← sep s 7 "-";
  d ← field s 8 2; _ ← sep s 10 "T";
  hh ← field s 11 2; _ ← sep s 13 ":";
  mm ← field s 14 2; _ ← sep s 16 ":";
  ss ← field s 17 2;
  ms ← (if (String.length s =? 20)%nat then _ ← sep s 19 "Z"; Some 0
        else if (String.length s =? 24)%nat then
          _ ← sep s 19 "."; _ ← sep s 23 "Z"; field s 20 3
        else None);
  let days := days_from_civil y m d in
  if bool_decide (civil_from_days days = (y, m, d))
     && (hh <? 24) && (mm <? 60) && (ss <? 60)
  then Some (((days * 24 + hh) * 60 + mm) * 60 * 1000 + ss * 1000 + ms)
  else None.

Definition pad (width : nat) (n : Z) : string :=
  let t : string := pretty n in
  String.concat "" (replicate (width - String.length t) "0") +:+ t.

Definition isoDate (ms : Z) : string :=
  let '(y, m, d) := civil_from_days (ms / 86400000) in
  pad 4 y +:+ "-" +:+ pad 2 m +:+ "-" +:+ pad 2 d.

Definition toISOString (ms : Z) : string :=
  let r := ms mod 86400000 in
  isoDate ms +:+ "T" +:+ pad 2 (r / 3600000) +:+ ":" +:+ pad 2 (r / 60000 mod 60)
  +:+ ":" +:+ pad 2 (r / 1000 mod 60) +:+ "." +:+ pad 3 (r mod 1000) +:+ "Z".

End Clock.

(** The platform of the runs: the engine and the clock above, a given
    network and a given instant. *)
Definition run_platform (net : Network) (now : Z) : Platform :=
  {| engine := JsFragment.Engine;
     network := net;
     Date_getTime := Clock.getTime;
     Date_now := now;
     Date_now_iso := Clock.toISOString now;
     Date_days_ago := fun n => Clock.isoDate (now - n * 86400000) |}.

(** ** Vocabulary of the statements *)

(** The branches of the shared [catch] block. *)
Inductive FailureKind : Type :=
| KAuthentication | KRateLimit | KInvalidQuery | KApi | KNetwork | KOther.

Definition failure_kind (error : JsError) : FailureKind :=
  match error with
  | AxiosError (Some (status, _)) _ _ =>
      if status =? 401 then KAuthentication
      else if status =? 403 then KRateLimit
      else if status =? 422 then KInvalidQuery
      else KApi
  | AxiosError None (Some c) _ =>
      if String.eqb c "ENOTFOUND" || String.eqb c "ECONNREFUSED" then KNetwork
      else KOther
  | _ => KOther
  end.

Definition kind_prefix (k : FailureKind) : string :=
  match k with
  | KAuthentication => "GitHub API au"
  | KRateLimit => "GitHub API ra"
  | KInvalidQuery => "Invalid searc"
  | KApi => "GitHub API er"
  | KNetwork => "Network error"
  | KOther => "Search failed"
  end.

Definition no_results_message : string :=
  "No results found for your search query. Try different search terms.".

(** The rows of a snippet with line numbers that is shown in full and
    without highlighting: one row for every line of the text, from index
    [idx] on; the divider for a separator entry, and any other line as it
    is, with its number and not flagged. *)
Fixpoint plain_rows (numbers : list Z) (lines : list string) (idx : nat)
  : list ResultsList.Row :=
  match lines with
  | [] => []
  | line :: rest =>
      (if ResultsList.is_separator numbers idx then ResultsList.SeparatorRow idx
       else ResultsList.LineRow idx (numbers !! idx) false line)
      :: plain_rows numbers rest (S idx)
  end.

(** The dividers alone: the rows of a snippet of [count] lines, from index
    [idx] on, none of whose content lines is shown. *)
Definition separator_rows (numbers : list Z) (idx count : nat) : list ResultsList.Row :=
  ResultsList.SeparatorRow
  <$> List.filter (ResultsList.is_separator numbers) (seq idx count).

(** The view shows the snippet [codeContent] in full and without
    highlighting: with line numbers, every line of the text has its row, no
    row is flagged or marked up and no match is counted; without line
    numbers the text is shown as it is. *)
Definition rendered_plain (codeContent : string) (numbers : list Z)
    (view : ResultsList.CodeView) : Prop :=
  match view with
  | ResultsList.NumberedView rows matchCount =>
      matchCount = O ∧ rows = plain_rows numbers (split_lines codeContent) O
  | ResultsList.InlineView body => body = ResultsList.PlainText codeContent
  end.

(** No row of the view is a line of the snippet. *)
Definition renders_no_line (view : ResultsList.CodeView) : Prop :=
  match view with
  | ResultsList.NumberedView rows _ =>
      Forall (fun row => match row with
                         | ResultsList.SeparatorRow _ => True
                         | ResultsList.LineRow _ _ _ _ => False
                         end) rows
  | ResultsList.InlineView _ => False
  end.

(** The content fetch of [item] fails: the request is rejected or answered
    with a status other than 200. *)
Definition content_fetch_fails (P : Platform) (item : CodeItem.t) : Prop :=
  match get_contents (network P) (contents_url item) with
  | Rejected _ => True
  | Fulfilled status _ _ => status ≠ 200
  end.

(** Whether [s] has a match of [re] at all: the answer of [re.test(s)] when
    the search starts at index 0. *)
Definition matches {E : RegExpEngine} (re : RegExp E) (s : string) : bool :=
  bool_decide (exec_from E (re_pattern re) s O ≠ None).

(** The rows that remain when only the content line [k] is kept: the
    separators, in place, and the line [k] with its highlighting [html]. *)
Definition rows_keeping (lineNumbers : list Z) (k : nat) (html : string)
    (from count : nat) : list ResultsList.Row :=
  omap (fun i =>
          if ResultsList.is_separator lineNumbers i then
            Some (ResultsList.SeparatorRow i)
          else if (i =? k)%nat then
            Some (ResultsList.LineRow k (lineNumbers !! k) true html)
          else None)
       (seq from count).

(** In [lines], read from index [idx] on, the content lines that match are
    the line [k] alone, and that line is [line]. *)
Definition single_match {E : RegExpEngine} (re : RegExp E) (numbers : list Z)
    (k : nat) (line : string) (lines : list string) (idx : nat) : Prop :=
  ∀ j l, lines !! j = Some l →
         ResultsList.is_separator numbers (idx + j) = false →
         (matches re l = true ↔ (idx + j)%nat = k) ∧ ((idx + j)%nat = k → l = line).

(** Two outcomes of the scorer in order: the same exception, or two scores
    of which the first is at most the second. *)
Definition score_le (c1 c2 : Completion Q) : Prop :=
  match c1, c2 with
  | Normal a, Normal b => (a <= b)%Q
  | Throw e1, Throw e2 => e1 = e2
  | _, _ => False
  end.

(** The number that a [stars] property stands for in the score: nothing for
    [undefined], as for 0. *)
Definition stars_value (s : option Z) : Z := default 0 s.

(** Number of separator entries in a [lineNumbers] array. *)
Definition count_separators (numbers : list Z) : nat :=
  length (filter (fun n => n =? -1) numbers).

(** The repository result that the lookup table holds for [src] once every
    repository has been entered: the last one with that source. *)
Definition repository_for (src : string) (repos : list SearchResult)
  : option SearchResult :=
  last (filter (fun r => source r = src) repos).

(** [a] may stand before [b]: both repository scores are numbers and the
    one of [a] is at least the one of [b]. *)
Definition repo_score_ge (P : Platform) (a b : SearchResult) : Prop :=
  match ResultsList.calculateRepoScore P a, ResultsList.calculateRepoScore P b with
  | Some x, Some y => (y <= x)%Q
  | _, _ => False
  end.

(** What a settled fetch contributes to the merge: its value, or nothing. *)
Definition values (c : Completion (list SearchResult)) : list SearchResult :=
  match c with
  | Normal v => v
  | Throw _ => []
  end.

(** Every term of the query, as the scorer splits it, is a pattern that
    [new RegExp] accepts. *)
Definition terms_compile (P : Platform) (query : string) : Prop :=
  ∀ term, term ∈ split_ws (toLowerCase query) →
          ∃ re, RegExp_new (engine P) term "g" = Normal re.

(** The character [c] occurs in [s]. *)
Fixpoint contains_char (c : ascii) (s : string) : bool :=
  match s with
  | EmptyString => false
  | String d s' => Ascii.eqb d c || contains_char c s'
  end.

(** The invariant of the snippet loop: the two arrays have the same length,
    no collected line holds a line break, [lastLineAdded] is an index or
    [-1], and an entry [-1] sits on a separator line. *)
Definition snippet_invariant (acc : Snippet) : Prop :=
  length (snippetNumbers acc) = length (snippetLines acc) ∧
  Forall (fun l => contains_char newline l = false) (snippetLines acc) ∧
  -1 ≤ lastLineAdded acc ∧
  ∀ j, snippetNumbers acc !! j = Some (-1) → snippetLines acc !! j = Some "...".

(** The entries of a [lineNumbers] array that number a line. *)
Definition content_numbers (numbers : list Z) : list Z :=
  filter (fun n => n ≠ -1) numbers.

(** Number of pairs of consecutive matches more than 5 lines apart. *)
Fixpoint far_pairs (ms : list Z) : nat :=
  match ms with
  | [] => O
  | m1 :: rest =>
      match rest with
      | [] => O
      | m2 :: _ => if 5 <? m2 - m1 then S (far_pairs rest) else far_pairs rest
      end
  end.

(** The state of the snippet loop after the round of the match [m], for
    matches taken in increasing order: [lastLineAdded] is the end of the
    window of [m] and numbers the last entry; the numbers of lines increase;
    the lines from [m] to [lastLineAdded] are there; and a separator stands
    between two numbers that differ by 2 at least. *)
Definition snippet_order (lines : list string) (m : Z) (acc : Snippet) : Prop :=
  let numbers := snippetNumbers acc in
  length numbers = length (snippetLines acc) ∧
  lastLineAdded acc = Z.min (Z.of_nat (length lines) - 1) (m + 2) ∧
  last numbers = Some (lastLineAdded acc + 1) ∧
  StronglySorted Z.lt (content_numbers numbers) ∧
  Forall (fun n => n ≤ lastLineAdded acc + 1) numbers ∧
  (∀ i, m ≤ i ≤ lastLineAdded acc → i + 1 ∈ numbers) ∧
  (∀ j, numbers !! j = Some (-1) →
        ∃ a b, (0 < j)%nat ∧ numbers !! (j - 1)%nat = Some a ∧
               numbers !! S j = Some b ∧ 1 ≤ a ∧ a + 2 ≤ b).

(** Every numbered entry of the snippet loop holds the line of the file
    that has this number. *)
Definition snippet_content (lines : list string) (acc : Snippet) : Prop :=
  length (snippetNumbers acc) = length (snippetLines acc) ∧
  -1 ≤ lastLineAdded acc ∧
  ∀ j n, snippetNumbers acc !! j = Some n → n ≠ -1 →
         1 ≤ n ≤ Z.of_nat (length lines) ∧
         snippetLines acc !! j = lines !! Z.to_nat (n - 1).

(** The rows of a snippet with line numbers, line by line and without any
    state: a separator entry gives its divider; a content line that matches
    gives a flagged row with its matches marked; any other content line is
    left out in match-only mode and shown as it is otherwise. *)
Fixpoint rows_by_match {E : RegExpEngine} (matchesOnly : bool) (re : RegExp E)
    (numbers : list Z) (lines : list string) (idx : nat) : list ResultsList.Row :=
  match lines with
  | [] => []
  | line :: rest =>
      let rows := rows_by_match matchesOnly re numbers rest (S idx) in
      if ResultsList.is_separator numbers idx then ResultsList.SeparatorRow idx :: rows
      else if matches re line then
        ResultsList.LineRow idx (numbers !! idx) true
          (replace re line ResultsList.mark_open ResultsList.mark_close) :: rows
      else if matchesOnly then rows
      else ResultsList.LineRow idx (numbers !! idx) false line :: rows
  end.

(** Number of rows flagged as matching. *)
Definition is_flagged (row : ResultsList.Row) : bool :=
  match row with
  | ResultsList.LineRow _ _ isMatchingLine _ => isMatchingLine
  | ResultsList.SeparatorRow _ => false
  end.

Definition flagged_rows (rows : list ResultsList.Row) : nat :=
  length (List.filter is_flagged rows).

(** The lines of a snippet without line numbers that match, each with its
    index and with its matches marked. *)
Fixpoint lines_by_match {E : RegExpEngine} (re : RegExp E) (lines : list string)
    (idx : nat) : list (nat * string) :=
  match lines with
  | [] => []
  | line :: rest =>
      if matches re line then
        (idx, replace re line ResultsList.mark_open ResultsList.mark_close)
        :: lines_by_match re rest (S idx)
      else lines_by_match re rest (S idx)
  end.

(** The messages of the shared [catch] block that are fixed sentences. *)
Definition fixed_failure_messages : list string :=
  ["GitHub API authentication failed. Please check your API token.";
   "GitHub API rate limit exceeded. Please try again later.";
   "Invalid search query. Please check your search terms.";
   "Network error. Please check your internet connection."].

(** The same result up to the properties that the merge sets: [apiSource],
    [score], and the repository data of an enriched code result. *)
Definition same_entry (x y : SearchResult) : Prop :=
  id y = id x ∧ type y = type x ∧ title y = title x ∧ source y = source x ∧
  url y = url x ∧ snippet y = snippet x ∧ lineNumbers y = lineNumbers x ∧
  timestamp y = timestamp x.

(** What the type of a result adds to its composite score. *)
Definition type_bonus (result : SearchResult) : Q := type_score result 0.

(** The number of terms of a query, as the scorer splits it. *)
Definition term_count (query : string) : Q :=
  inject_Z (Z.of_nat (length (split_ws (toLowerCase query)))).

(** The popularity of a result as the repository score weighs it. *)
Definition popularity (result : SearchResult) : Q :=
  (inject_Z (stars_value (stars result)) * 3
   + inject_Z (stars_value (forks result)) * 2
   + inject_Z (stars_value (watchers result)))%Q.

(** [n] units ago. *)
Definition ago (n : Z) (unit : string) : string :=
  pretty n +:+ " " +:+ unit +:+ " ago".

(** A minute, an hour and a day in milliseconds, as [formatDate] writes
    them. *)
Definition minute_ms : Z := 1000 * 60.
Definition hour_ms : Z := 1000 * 60 * 60.
Definition day_ms : Z := 1000 * 60 * 60 * 24.

(** ** Concrete runs

    Inputs on which the definitions are evaluated: a network given by its
    three answers, at a fixed instant. *)

Module Runs.

(** 2025-01-15T00:00:00Z *)
Definition now : Z := 1736899200000.

Definition not_found : Settled ContentData :=
  Rejected (AxiosError (Some (404, Some "Not Found")) (Some "ERR_BAD_REQUEST")
              "Request failed with status code 404").

Fixpoint lookup_url (files : list (string * Settled ContentData)) (u : string)
  : Settled ContentData :=
  match files with
  | [] => not_found
  | (u', r) :: files' => if String.eqb u u' then r else lookup_url files' u
  end.

Definition net (repos : Settled (SearchData RepoItem.t))
    (codes : Settled (SearchData CodeItem.t))
    (files : list (string * Settled ContentData)) : Network :=
  {| get_repositories := fun _ => repos;
     get_code := fun _ => codes;
     get_contents := lookup_url files |}.

Definition platform (repos : Settled (SearchData RepoItem.t))
    (codes : Settled (SearchData CodeItem.t))
    (files : list (string * Settled ContentData)) : Platform :=
  run_platform (net repos codes files) now.

Definition user (name : string) : User.t :=
  {| User.login := name;
     User.avatar_url := "https://avatars.githubusercontent.com/" +:+ name;
     User.html_url := "https://github.com/" +:+ name |}.

Definition repo_item (n : Z) (owner name : string) (stars forks : Z)
    (updated : string) : RepoItem.t :=
  {| RepoItem.id := n;
     RepoItem.full_name := owner +:+ "/" +:+ name;
     RepoItem.html_url := "https://github.com/" +:+ owner +:+ "/" +:+ name;
     RepoItem.description := None;
     RepoItem.language := Some "TypeScript";
     RepoItem.stargazers_count := Some stars;
     RepoItem.forks_count := Some forks;
     RepoItem.watchers_count := Some stars;
     RepoItem.updated_at := updated;
     RepoItem.owner := user owner;
     RepoItem.topics := Some ["search"];
     RepoItem.open_issues_count := Some 0;
     RepoItem.license := Some {| RepoItem.name := "MIT License" |} |}.

Definition code_item (n : Z) (owner name file : string) : CodeItem.t :=
  {| CodeItem.repository :=
       {| CodeItem.id := n;
          CodeItem.full_name := owner +:+ "/" +:+ name;
          CodeItem.updated_at := Some "2024-06-01T12:00:00Z";
          CodeItem.stargazers_count := None;
          CodeItem.owner := user owner |};
     CodeItem.path := file;
     CodeItem.sha := "3b18e512dba79e4c8300dd08aeb37f8e728b8dad";
     CodeItem.html_url :=
       "https://github.com/" +:+ owner +:+ "/" +:+ name +:+ "/blob/main/" +:+ file;
     CodeItem.language := None |}.

Definition ok {D} (d : D) : Settled D := Fulfilled 200 "OK" d.

Definition lines_text (ls : list string) : string := join (String newline "") ls.

Definition unreachable {D} : Settled D :=
  Rejected (AxiosError None (Some "ENOTFOUND") "getaddrinfo ENOTFOUND api.github.com").

(** No network at all. *)
Definition offline : Platform := platform unreachable unreachable [].

(** The code search finds [src/a.ts] and [src/b.ts]; the content of the
    second cannot be fetched. *)
Definition hello_a : CodeItem.t := code_item 1 "octocat" "hello" "src/a.ts".
Definition hello_b : CodeItem.t := code_item 1 "octocat" "hello" "src/b.ts".
Definition one_missing : Platform :=
  platform (ok (Items []))
    (ok (Items [hello_a; hello_b]))
    [("https://api.github.com/repos/octocat/hello/contents/src/a.ts",
      ok (Text (lines_text ["export const greeting = 'hello';"; "export default greeting;"])))].

Definition regex_options : ResultsList.SearchOptions :=
  {| ResultsList.matchWholeWord := false;
     ResultsList.matchCase := false;
     ResultsList.useRegex := true;
     ResultsList.highlightMatchesOnly := true |}.

(** Regex mode with every line shown. *)
Definition regex_every_line : ResultsList.SearchOptions :=
  {| ResultsList.matchWholeWord := false;
     ResultsList.matchCase := false;
     ResultsList.useRegex := true;
     ResultsList.highlightMatchesOnly := false |}.

Definition default_options : ResultsList.SearchOptions :=
  {| ResultsList.matchWholeWord := false;
     ResultsList.matchCase := false;
     ResultsList.useRegex := false;
     ResultsList.highlightMatchesOnly := true |}.

(** A code result with five numbered lines; only the third holds [needle],
    twice. *)
Definition five_lines : SearchResult :=
  {| id := "1-3b18e512"; title := "octocat/hello"; type := code;
     source := "octocat/hello"; url := "https://github.com/octocat/hello";
     snippet := Some (lines_text ["alpha"; "beta"; "needle and needle"; "delta"; "epsilon"]);
     description := None; language := Some "ts"; stars := None; forks := None;
     watchers := None; timestamp := "2024-06-01T12:00:00Z"; owner := None;
     topics := None; openIssues := None; license := None;
     path := Some "src/a.ts"; lineNumbers := Some [10; 11; 12; 13; 14];
     score := None; apiSource := None; hasRepoData := false |}.

(** [/needle/gi] *)
Definition needle_regex : RegExp JsFragment.Engine :=
  Build_RegExp JsFragment.Engine
    {| JsFragment.c_re :=
         JsFragment.rev_seq (rev (map JsFragment.Chr (list_ascii_of_string "needle")));
       JsFragment.c_ignoreCase := true |}
    true.

Definition hello_url (file : string) : string :=
  "https://api.github.com/repos/octocat/hello/contents/" +:+ file.

(** A query that is not a pattern: the code search finds one C++ file. *)
Definition counter_cpp : CodeItem.t := code_item 1 "octocat" "hello" "counter.cpp".
Definition cpp : Platform :=
  platform (ok (Items []))
    (ok (Items [counter_cpp]))
    [(hello_url "counter.cpp",
      ok (Text (lines_text ["int c = 0;"; "c++;"; "return c;"])))].

(** A file of three lines, none of which holds the query [zzz]. *)
Definition short_file : Platform :=
  platform (ok (Items []))
    (ok (Items [hello_a]))
    [(hello_url "src/a.ts", ok (Text (lines_text ["alpha"; "beta"; "gamma"])))].

(** Ten lines with [needle] on lines 2 and 7 (indices 1 and 6), and twelve
    lines with [needle] on lines 2 and 8 (indices 1 and 7). *)
Definition ten_lines : list string :=
  ["l1"; "needle one"; "l3"; "l4"; "l5"; "l6"; "needle two"; "l8"; "l9"; "l10"].
Definition twelve_lines : list string :=
  ["l1"; "needle one"; "l3"; "l4"; "l5"; "l6"; "l7"; "needle two"; "l9"; "l10";
   "l11"; "l12"].
Definition five_apart : Platform :=
  platform (ok (Items [])) (ok (Items [hello_a]))
    [(hello_url "src/a.ts", ok (Text (lines_text ten_lines)))].
Definition six_apart : Platform :=
  platform (ok (Items [])) (ok (Items [hello_a]))
    [(hello_url "src/a.ts", ok (Text (lines_text twelve_lines)))].

Definition greeting_file : Settled ContentData :=
  ok (Text (lines_text ["export const greeting = 'hello';"; "export default greeting;"])).

(** One repository and a code hit in it. *)
Definition enriched : Platform :=
  platform
    (ok (Items [repo_item 1 "octocat" "hello" 42 7 "2024-06-01T12:00:00Z"]))
    (ok (Items [hello_a]))
    [(hello_url "src/a.ts", greeting_file)].

(** The repository search answers with two entries of the same full name. *)
Definition twice_listed : Platform :=
  platform
    (ok (Items [repo_item 1 "octocat" "hello" 1 0 "2024-06-01T12:00:00Z";
                repo_item 1 "octocat" "hello" 2 0 "2024-06-02T12:00:00Z"]))
    (ok (Items [hello_a]))
    [(hello_url "src/a.ts", greeting_file)].

(** A repository and a code hit whose full names are both empty. *)
Definition nameless_repo : RepoItem.t :=
  {| RepoItem.id := 2; RepoItem.full_name := ""; RepoItem.html_url := "";
     RepoItem.description := None; RepoItem.language := None;
     RepoItem.stargazers_count := Some 5; RepoItem.forks_count := Some 0;
     RepoItem.watchers_count := Some 5;
     RepoItem.updated_at := "2024-06-01T12:00:00Z";
     RepoItem.owner := user "ghost"; RepoItem.topics := None;
     RepoItem.open_issues_count := Some 0; RepoItem.license := None |}.
Definition nameless_code : CodeItem.t :=
  {| CodeItem.repository :=
       {| CodeItem.id := 2; CodeItem.full_name := "";
          CodeItem.updated_at := Some "2024-06-01T12:00:00Z";
          CodeItem.stargazers_count := None; CodeItem.owner := user "ghost" |};
     CodeItem.path := "a.ts"; CodeItem.sha := "0a1b2c"; CodeItem.html_url := "";
     CodeItem.language := None |}.
Definition nameless : Platform :=
  platform (ok (Items [nameless_repo])) (ok (Items [nameless_code]))
    [("https://api.github.com/repos//undefined/contents/a.ts", greeting_file)].

(** Two repositories: the first matches the query [hello] in its title, the
    second has more stars. *)
Definition two_repos : Platform :=
  platform
    (ok (Items [repo_item 1 "octocat" "hello" 100 10 "2020-01-01T00:00:00Z";
                repo_item 2 "torvalds" "linux" 200 10 "2020-01-01T00:00:00Z"]))
    (ok (Items []))
    [].

(** [/(needle)/i], the [queryRegex] of the query [needle] *)
Definition needle_i : RegExp JsFragment.Engine :=
  Build_RegExp JsFragment.Engine
    {| JsFragment.c_re :=
         JsFragment.rev_seq (rev (map JsFragment.Chr (list_ascii_of_string "needle")));
       JsFragment.c_ignoreCase := true |}
    false.

End Runs.

(** More inputs, for the statements on the rest of the code. *)

Module MoreRuns.

(** Seven lines with [needle] on line 4 (index 3). *)
Definition seven_lines : list string :=
  ["l1"; "l2"; "l3"; "the needle"; "l5"; "l6"; "l7"].
Definition one_match : Platform :=
  Runs.platform (Runs.ok (Items [])) (Runs.ok (Items [Runs.hello_a]))
    [(Runs.hello_url "src/a.ts", Runs.ok (Text (Runs.lines_text seven_lines)))].

(** [/(zzz)/i], the [queryRegex] of the query [zzz] *)
Definition zzz_i : RegExp JsFragment.Engine :=
  Build_RegExp JsFragment.Engine
    {| JsFragment.c_re :=
         JsFragment.rev_seq (rev (map JsFragment.Chr (list_ascii_of_string "zzz")));
       JsFragment.c_ignoreCase := true |}
    false.

(** The repository search cannot be reached; the code search finds nothing. *)
Definition repositories_unreachable : Platform :=
  Runs.platform Runs.unreachable (Runs.ok (Items [])) [].

(** Two snippet lines that both hold [needle], the first one far to the
    right. *)
Definition two_needles : SearchResult :=
  {| id := "1-3b18e512"; title := "octocat/hello"; type := code;
     source := "octocat/hello"; url := "https://github.com/octocat/hello";
     snippet := Some (Runs.lines_text ["a long line with a needle"; "needle"]);
     description := None; language := Some "ts"; stars := None; forks := None;
     watchers := None; timestamp := "2024-06-01T12:00:00Z"; owner := None;
     topics := None; openIssues := None; license := None;
     path := Some "src/a.ts"; lineNumbers := Some [1; 2];
     score := None; apiSource := None; hasRepoData := false |}.

(** The five lines of [Runs.five_lines] without line numbers. *)
Definition unnumbered : SearchResult :=
  {| id := "1-3b18e512"; title := "octocat/hello"; type := code;
     source := "octocat/hello"; url := "https://github.com/octocat/hello";
     snippet := snippet Runs.five_lines;
     description := None; language := Some "ts"; stars := None; forks := None;
     watchers := None; timestamp := "2024-06-01T12:00:00Z"; owner := None;
     topics := None; openIssues := None; license := None;
     path := Some "src/a.ts"; lineNumbers := None;
     score := None; apiSource := None; hasRepoData := false |}.

(** The two repositories of [Runs.two_repos]. *)
Definition hello_repository : SearchResult :=
  repository_of_item (Runs.repo_item 1 "octocat" "hello" 100 10 "2020-01-01T00:00:00Z").
Definition linux_repository : SearchResult :=
  repository_of_item (Runs.repo_item 2 "torvalds" "linux" 200 10 "2020-01-01T00:00:00Z").

(** The component before any search. *)
Definition idle : App.State :=
  {| App.query := ""; App.results := []; App.loading := false; App.error := None;
     App.filters := App.initialFilters |}.

(** A repository updated two days before [Runs.now]. *)
Definition two_days_old : SearchResult :=
  repository_of_item (Runs.repo_item 3 "octocat" "fresh" 5 1 "2025-01-13T00:00:00Z").

(** The repository search cannot be reached; the code search finds a file. *)
Definition code_only : Platform :=
  Runs.platform Runs.unreachable (Runs.ok (Items [Runs.hello_a]))
    [(Runs.hello_url "src/a.ts", Runs.greeting_file)].

(** A repository and a code hit in it whose entry carries no date, so that
    the code result is dated now. *)
Definition undated_code : CodeItem.t :=
  {| CodeItem.repository :=
       {| CodeItem.id := 1; CodeItem.full_name := "octocat/hello";
          CodeItem.updated_at := None;
          CodeItem.stargazers_count := None; CodeItem.owner := Runs.user "octocat" |};
     CodeItem.path := "src/a.ts";
     CodeItem.sha := "3b18e512dba79e4c8300dd08aeb37f8e728b8dad";
     CodeItem.html_url := "https://github.com/octocat/hello/blob/main/src/a.ts";
     CodeItem.language := None |}.
Definition undated : Platform :=
  Runs.platform
    (Runs.ok (Items [Runs.repo_item 1 "octocat" "hello" 42 7 "2024-06-01T12:00:00Z"]))
    (Runs.ok (Items [undated_code]))
    [(Runs.hello_url "src/a.ts", Runs.greeting_file)].
End MoreRuns.

(** * Properties *)

(** ** The failure taxonomy of the fetchers *)

Lemma search_error_prefix error :
  substring 0 13 (message (search_error error)) = kind_prefix (failure_kind error).
Proof.
  destruct error as [m|m|[[status dm]|] [c|] m]; simpl; try reflexivity.
  - destruct (status =? 401); [reflexivity|].
    destruct (status =? 403); [reflexivity|].
    destruct (status =? 422); reflexivity.
  - destruct (status =? 401); [reflexivity|].
    destruct (status =? 403); [reflexivity|].
    destruct (status =? 422); reflexivity.
  - destruct (String.eqb c "ENOTFOUND" || String.eqb c "ECONNREFUSED"); reflexivity.
Qed.

Lemma search_error_distinct e1 e2 :
  failure_kind e1 ≠ failure_kind e2 →
  message (search_error e1) ≠ message (search_error e2).
Proof.
  intros Hk Hm. apply Hk.
  assert (Hp : kind_prefix (failure_kind e1) = kind_prefix (failure_kind e2))
    by (rewrite <- !search_error_prefix; congruence).
  destruct (failure_kind e1), (failure_kind e2); simpl in Hp; congruence.
Qed.

Lemma fetchGitHubRepositories_throws P query filters e :
  fetchGitHubRepositories P query filters = Throw e →
  ∃ e0, e = search_error e0.
Proof.
  unfold fetchGitHubRepositories, try_catch. intros H.
  match type of H with
  | match ?b with _ => _ end = _ => destruct b as [v|e0]
  end; [discriminate|].
  exists e0. congruence.
Qed.

Lemma fetchGitHubCodeSnippets_throws P query filters e :
  fetchGitHubCodeSnippets P query filters = Throw e →
  ∃ e0, e = search_error e0.
Proof.
  unfold fetchGitHubCodeSnippets, try_catch. intros H.
  match type of H with
  | match ?b with _ => _ end = _ => destruct b as [v|e0]
  end; [discriminate|].
  exists e0. congruence.
Qed.

(** C2.  When both searches fail, or both return no item, [fetchSearchResults]
    rejects with an [Error] whose message is not empty: the empty-query
    message for a blank query; otherwise, when both searches failed, "Search
    failed:" followed by the message of each of them, and these messages
    differ from one kind of failure to another (authentication, rate limit,
    invalid query, other API status, network, anything else); when both
    returned an empty list, the no-results message. *)
Theorem fetchSearchResults_rejects_without_results P query filters :
  let repos := fetchGitHubRepositories P query filters in
  let codes := fetchGitHubCodeSnippets P query filters in
  ((∃ e1 e2, repos = Throw e1 ∧ codes = Throw e2) ∨
   (repos = Normal [] ∧ codes = Normal [])) →
  ∃ msg,
    fetchSearchResults P query filters = Throw (Error msg) ∧
    truthy msg = true ∧
    (truthy (trim query) = false → msg = "Search query cannot be empty") ∧
    (truthy (trim query) = true →
     (repos = Normal [] → codes = Normal [] → msg = no_results_message) ∧
     (∀ e1 e2, repos = Throw e1 → codes = Throw e2 →
        msg = "Search failed: Repository search: " +:+ message e1
              +:+ "; Code search: " +:+ message e2 ∧
        ∃ c1 c2, e1 = search_error c1 ∧ e2 = search_error c2 ∧
          ∀ c1', failure_kind c1' ≠ failure_kind c1 →
                 message (search_error c1') ≠ message e1)).
Proof.
  intros repos codes Hcase.
  unfold fetchSearchResults.
  destruct (truthy (trim query)) eqn:Hq; simpl.
  - fold repos codes.
    destruct Hcase as [(e1 & e2 & H1 & H2)|[H1 H2]].
    + rewrite H1, H2. unfold combine_results; simpl.
      eexists; split; [reflexivity|].
      split; [reflexivity|].
      split; [discriminate|].
      intros _. split; [discriminate|].
      intros e1' e2' [= <-] [= <-]. split; [reflexivity|].
      destruct (fetchGitHubRepositories_throws _ _ _ _ H1) as [c1 ->].
      destruct (fetchGitHubCodeSnippets_throws _ _ _ _ H2) as [c2 ->].
      exists c1, c2. repeat split.
      intros c1' Hk. by apply search_error_distinct.
    + rewrite H1, H2. unfold combine_results; simpl.
      eexists; split; [reflexivity|].
      split; [reflexivity|].
      split; [discriminate|].
      intros _. split; [reflexivity|]. discriminate.
  - eexists; split; [reflexivity|].
    split; [reflexivity|].
    split; [reflexivity|discriminate].
Qed.

(** ** Building the highlight matcher *)

Lemma process_lines_without_matcher P opts numbers lines idx lastIndex :
  ResultsList.process_lines P opts None numbers lines idx lastIndex
  = (if ResultsList.highlightMatchesOnly opts
     then separator_rows numbers idx (length lines)
     else plain_rows numbers lines idx,
     lastIndex).
Proof.
  revert idx. induction lines as [|line rest IH]; intros idx.
  - by destruct (ResultsList.highlightMatchesOnly opts).
  - cbn [ResultsList.process_lines]. unfold ResultsList.process_line, separator_rows.
    cbn [length seq List.filter plain_rows].
    destruct (ResultsList.is_separator numbers idx);
      destruct (ResultsList.highlightMatchesOnly opts) eqn:Hh;
      cbn [andb negb]; rewrite IH, ?Hh; reflexivity.
Qed.

Lemma separator_rows_render_no_line numbers idx count matchCount :
  renders_no_line (ResultsList.NumberedView (separator_rows numbers idx count) matchCount).
Proof.
  unfold renders_no_line, separator_rows. apply Forall_fmap, Forall_forall. done.
Qed.

(** C7, as the code has it.  Building the matcher returns normally for every
    query and every combination of options, in the results list and in the
    code block alike.  When [useRegex] is set and the query is a pattern
    that [new RegExp] rejects, [createSearchRegex] returns [null] and every
    snippet is then rendered without error.  With [highlightMatchesOnly]
    unset, or for a snippet without line numbers, the text is shown in full
    and without highlighting.  With [highlightMatchesOnly] set, a snippet
    with line numbers shows its dividers and none of its lines, since
    without a matcher no line matches, and counts no match. *)
Theorem createSearchRegex_never_throws P opts query :
  (∃ r, ResultsList.createSearchRegex P opts query = Normal r) ∧
  (∃ r, CodeBlock.createHighlightPattern P query = Normal r) ∧
  (ResultsList.useRegex opts = true →
   truthy (trim query) = true →
   (∃ e, RegExp_new (engine P) query
           (if ResultsList.matchCase opts then "g" else "gi") = Throw e) →
   ResultsList.createSearchRegex P opts query = Normal None ∧
   ∀ result codeContent,
     snippet result = Some codeContent →
     truthy codeContent = true →
     let numbers := default [] (lineNumbers result) in
     let lines := split_lines codeContent in
     ∃ view,
       ResultsList.getEnhancedCodeSnippet P opts result query = Normal (Some view) ∧
       (ResultsList.highlightMatchesOnly opts = false ∨ numbers = [] →
        rendered_plain codeContent numbers view) ∧
       (ResultsList.highlightMatchesOnly opts = true → numbers ≠ [] →
        view = ResultsList.NumberedView (separator_rows numbers O (length lines)) O ∧
        renders_no_line view)).
Proof.
  split; [|split].
  - unfold ResultsList.createSearchRegex.
    destruct (negb (truthy (trim query))); [by eexists|].
    match goal with
    | |- ∃ r, try_catch ?b _ = _ => destruct b as [r|e]
    end; by eexists.
  - unfold CodeBlock.createHighlightPattern.
    destruct (negb (truthy (trim query))); [by eexists|].
    match goal with
    | |- ∃ r, try_catch ?b _ = _ => destruct b as [r|e]
    end; by eexists.
  - intros Hre Hq [e He].
    assert (Hnull : ResultsList.createSearchRegex P opts query = Normal None).
    { unfold ResultsList.createSearchRegex. rewrite Hq, Hre. simpl.
      rewrite He. reflexivity. }
    split; [exact Hnull|].
    intros result codeContent Hsn Hc numbers lines.
    unfold ResultsList.getEnhancedCodeSnippet.
    rewrite Hsn, Hc, Hnull. simpl. fold numbers. fold lines.
    rewrite process_lines_without_matcher.
    destruct numbers as [|n numbers'] eqn:Hn; simpl.
    + eexists. split; [reflexivity|]. split; [done|]. by intros _ ?.
    + destruct (ResultsList.highlightMatchesOnly opts) eqn:Hh.
      * eexists. split; [reflexivity|]. split; [by intros [?|?]|].
        intros _ _. split; [done|]. apply separator_rows_render_no_line.
      * eexists. split; [reflexivity|]. split; [done|]. done.
Qed.

(** ** A failed content fetch *)

Lemma failed_fetch_gives_null P query item :
  content_fetch_fails P item → code_result_or_null P query item = None.
Proof.
  unfold content_fetch_fails, code_result_or_null, code_snippet_of_item.
  destruct (get_contents (network P) (contents_url item)) as [st txt d|e]; simpl.
  - intros Hst. destruct (Z.eqb_spec st 200); [done|]. reflexivity.
  - reflexivity.
Qed.

(** C10.  When the code search itself succeeds, a hit whose content fetch
    fails does not make [fetchGitHubCodeSnippets] fail: the call returns
    normally, the failed hit contributes no entry at all, and the entries of
    the hits before and after it are the ones they have without it. *)
Theorem failed_content_fetch_is_omitted P query filters statusText items
    before bad after :
  truthy (trim query) = true →
  get_code (network P)
    [("q", trim query +:+ language_filter filters); ("per_page", "15")]
  = Fulfilled 200 statusText (Items items) →
  items = before ++ bad :: after →
  content_fetch_fails P bad →
  code_result_or_null P query bad = None ∧
  fetchGitHubCodeSnippets P query filters
  = Normal (omap (code_result_or_null P query) before
            ++ omap (code_result_or_null P query) after).
Proof.
  intros Hq Hget -> Hbad.
  pose proof (failed_fetch_gives_null P query bad Hbad) as Hnull.
  split; [exact Hnull|].
  unfold fetchGitHubCodeSnippets. rewrite Hq. simpl. rewrite Hget. simpl.
  rewrite omap_app. simpl. rewrite Hnull. reflexivity.
Qed.

(** ** The search loop and the [lastIndex] of a global [RegExp] *)

Section SearchLoop.

Context (E : RegExpEngine).

Lemma search_from_None (p : pattern E) s fuel i :
  search_from E p s fuel i = None ↔
  ∀ j, (i ≤ j < i + fuel)%nat → match_at E p s j = None.
Proof.
  revert i. induction fuel as [|fuel IH]; intros i; simpl.
  - split; [intros _ j Hj; lia|done].
  - destruct (match_at E p s i) as [e|] eqn:Hi.
    + split; [done|]. intros H. rewrite H in Hi; [done|lia].
    + rewrite IH. split.
      * intros H j Hj. destruct (decide (j = i)) as [->|]; [done|]. apply H. lia.
      * intros H j Hj. apply H. lia.
Qed.

(** A string without a match from its start has none from a later index. *)
Lemma exec_from_None_later (p : pattern E) s i :
  exec_from E p s O = None → exec_from E p s i = None.
Proof.
  unfold exec_from.
  assert (H0 : (String.length s <? 0)%nat = false) by (apply Nat.ltb_ge; lia).
  rewrite H0.
  destruct (String.length s <? i)%nat eqn:Hi; [done|].
  apply Nat.ltb_ge in Hi.
  rewrite !search_from_None. intros H j Hj. apply H. lia.
Qed.

Lemma test_from_start (re : RegExp E) s lastIndex :
  re_global re = false ∨ lastIndex = O →
  fst (test re s lastIndex) = matches re s.
Proof.
  unfold test, matches. intros Hst.
  destruct (re_global re) eqn:Hg.
  - destruct Hst as [Hf| ->]; [done|].
    destruct (exec_from E (re_pattern re) s O) as [[a e]|]; reflexivity.
  - destruct (exec_from E (re_pattern re) s O) as [[a e]|]; reflexivity.
Qed.

Lemma test_global_no_match (re : RegExp E) s lastIndex :
  re_global re = true → matches re s = false →
  test re s lastIndex = (false, O).
Proof.
  unfold test, matches. intros -> Hm.
  apply bool_decide_eq_false in Hm.
  assert (H0 : exec_from E (re_pattern re) s O = None).
  { destruct (exec_from E (re_pattern re) s O); [|done]. by destruct Hm. }
  by rewrite (exec_from_None_later _ _ lastIndex H0).
Qed.

Lemma test_global_match (re : RegExp E) s :
  re_global re = true → matches re s = true →
  ∃ e, test re s O = (true, e).
Proof.
  unfold test, matches. intros -> Hm.
  apply bool_decide_eq_true in Hm.
  destruct (exec_from E (re_pattern re) s O) as [[a e]|]; [by eexists|done].
Qed.

Lemma RegExp_new_global source flags (re : RegExp E) :
  RegExp_new E source flags = Normal re → re_global re = has_flag flags "g".
Proof.
  unfold RegExp_new. destruct (compile E source (has_flag flags "i")); [done|].
  by intros [= <-].
Qed.

End SearchLoop.

(** ** Match-only rendering of a snippet with line numbers *)

Section MatchOnly.

Context (P : Platform) (opts : ResultsList.SearchOptions).
Context (re : RegExp (engine P)) (numbers : list Z) (k : nat) (line : string).
Hypothesis only_matches : ResultsList.highlightMatchesOnly opts = true.
Hypothesis global : re_global re = true.
Hypothesis content_k : ResultsList.is_separator numbers k = false.

#[local] Abbreviation only_k := (single_match re numbers k line).

Lemma single_match_tail l0 lines idx :
  only_k (l0 :: lines) idx → only_k lines (S idx).
Proof.
  intros H j l Hl Hs.
  replace (S idx + j)%nat with (idx + S j)%nat in * by lia.
  by apply (H (S j)).
Qed.

Lemma process_lines_single_match lines idx :
  only_k lines idx →
  ResultsList.process_lines P opts (Some re) numbers lines idx O
  = (rows_keeping numbers k (replace re line ResultsList.mark_open ResultsList.mark_close)
       idx (length lines), O).
Proof.
  revert idx. induction lines as [|l0 lines IH]; intros idx H; [reflexivity|].
  pose proof (IH _ (single_match_tail _ _ _ H)) as IH'.
  unfold rows_keeping in *. simpl.
  unfold ResultsList.process_line.
  destruct (ResultsList.is_separator numbers idx) eqn:Hsep.
  - rewrite IH'. reflexivity.
  - destruct (H O l0 eq_refl) as [Hiff Hline];
      [by rewrite Nat.add_0_r|]. rewrite Nat.add_0_r in Hiff, Hline.
    destruct (matches re l0) eqn:Hm.
    + destruct (test_global_match _ re l0 global Hm) as [e He].
      rewrite He, only_matches. simpl.
      assert (idx = k) as -> by (by apply Hiff).
      rewrite Nat.eqb_refl, IH', (Hline eq_refl). reflexivity.
    + rewrite (test_global_no_match _ re l0 O global Hm), only_matches. simpl.
      destruct (Nat.eqb_spec idx k) as [Hk|Hk].
      * apply Hiff in Hk. congruence.
      * rewrite IH'. reflexivity.
Qed.

Lemma count_matches_none lines idx lastIndex :
  (∀ j l, lines !! j = Some l →
          ResultsList.is_separator numbers (idx + j) = false →
          matches re l = false) →
  fst (ResultsList.count_matches P re numbers lines idx lastIndex) = O.
Proof.
  revert idx lastIndex. induction lines as [|l0 lines IH]; intros idx li H; [reflexivity|].
  assert (IH' : ∀ li', fst (ResultsList.count_matches P re numbers lines (S idx) li') = O).
  { intros li'. apply IH. intros j l Hl Hs.
    replace (S idx + j)%nat with (idx + S j)%nat in * by lia.
    by apply (H (S j)). }
  simpl. destruct (ResultsList.is_separator numbers idx) eqn:Hsep; [apply IH'|].
  rewrite (test_global_no_match _ re l0 li global);
    [|apply (H O); [done|by rewrite Nat.add_0_r]].
  specialize (IH' O).
  destruct (ResultsList.count_matches P re numbers lines (S idx) O). exact IH'.
Qed.

Lemma count_matches_single_match lines idx :
  only_k lines idx →
  (idx ≤ k < idx + length lines)%nat →
  fst (ResultsList.count_matches P re numbers lines idx O) = 1%nat.
Proof.
  revert idx. induction lines as [|l0 lines IH]; intros idx H Hk; [simpl in Hk; lia|].
  pose proof (single_match_tail _ _ _ H) as Htail.
  simpl in Hk |- *.
  destruct (ResultsList.is_separator numbers idx) eqn:Hsep.
  - apply IH; [done|]. destruct (decide (idx = k)) as [->|]; [congruence|lia].
  - destruct (H O l0 eq_refl) as [Hiff _];
      [by rewrite Nat.add_0_r|]. rewrite Nat.add_0_r in Hiff.
    destruct (matches re l0) eqn:Hm.
    + destruct (test_global_match _ re l0 global Hm) as [e He]. rewrite He.
      assert (idx = k) as -> by (by apply Hiff).
      pose proof (count_matches_none lines (S k) e) as Hnone.
      destruct (ResultsList.count_matches P re numbers lines (S k) e) as [n li].
      simpl in *. rewrite Hnone; [done|].
      intros j l Hl Hs. destruct (Htail j l Hl Hs) as [Hiff' _].
      destruct (matches re l); [|done]. destruct Hiff' as [Hiff' _].
      specialize (Hiff' eq_refl). lia.
    + rewrite (test_global_no_match _ re l0 O global Hm).
      assert (idx ≠ k) by (intros ->; destruct Hiff as [_ Hiff]; by specialize (Hiff eq_refl)).
      specialize (IH _ Htail ltac:(lia)).
      destruct (ResultsList.count_matches P re numbers lines (S idx) O). exact IH.
Qed.

End MatchOnly.

Lemma createSearchRegex_global P opts query re :
  ResultsList.createSearchRegex P opts query = Normal (Some re) →
  re_global re = true.
Proof.
  unfold ResultsList.createSearchRegex.
  destruct (negb (truthy (trim query))); [done|].
  match goal with
  | |- try_catch (?b ≫= _) _ = _ → _ => destruct b as [r|e] eqn:Hnew
  end; simpl; [|done].
  intros [= <-]. rewrite (RegExp_new_global _ _ _ _ Hnew).
  by destruct (ResultsList.matchCase opts).
Qed.

(** C6.  With [highlightMatchesOnly] set, take a snippet with line numbers
    in which exactly one content line, the line at index [k], matches the
    active search regex (five content lines of which the third matches, for
    one).  The rendered rows are then the separator markers of the snippet,
    in place, and that one content line; and the match count is 1: it counts
    the matching lines, however many occurrences the line holds. *)
Theorem highlightMatchesOnly_keeps_the_matching_line
    P opts result query codeContent numbers re k line :
  ResultsList.highlightMatchesOnly opts = true →
  snippet result = Some codeContent →
  truthy codeContent = true →
  lineNumbers result = Some numbers →
  numbers ≠ [] →
  ResultsList.createSearchRegex P opts query = Normal (Some re) →
  split_lines codeContent !! k = Some line →
  ResultsList.is_separator numbers k = false →
  (∀ i l, split_lines codeContent !! i = Some l →
          ResultsList.is_separator numbers i = false →
          (matches re l = true ↔ i = k)) →
  ResultsList.getEnhancedCodeSnippet P opts result query
  = Normal (Some (ResultsList.NumberedView
      (rows_keeping numbers k
         (replace re line ResultsList.mark_open ResultsList.mark_close)
         O (length (split_lines codeContent)))
      1%nat)).
Proof.
  intros Honly Hsn Hc Hln Hne Hre Hk Hsep Huniq.
  pose proof (createSearchRegex_global _ _ _ _ Hre) as Hg.
  assert (Hsingle : single_match re numbers k line (split_lines codeContent) O).
  { intros j l Hl Hs. simpl in *. split; [by apply Huniq|].
    intros ->. congruence. }
  unfold ResultsList.getEnhancedCodeSnippet.
  rewrite Hsn, Hc, Hln, Hre. simpl.
  destruct numbers as [|n0 numbers']; [done|]. simpl.
  rewrite (process_lines_single_match P opts re (n0 :: numbers') k line Honly Hg _ _ Hsingle).
  rewrite (count_matches_single_match P re (n0 :: numbers') k line Hg Hsep _ _ Hsingle).
  - reflexivity.
  - apply lookup_lt_Some in Hk. lia.
Qed.

(** ** Monotonicity of the composite score in [stars] *)

Section Monotone.

Context (P : Platform).

Lemma fold_left_score_mono (f : Q → string → Q) (terms : list string) (a b : Q) :
  (∀ x y t, (x <= y)%Q → (f x t <= f y t)%Q) →
  (a <= b)%Q → (fold_left f terms a <= fold_left f terms b)%Q.
Proof.
  intros Hf. revert a b. induction terms as [|t terms IH]; intros a b Hab; simpl.
  - exact Hab.
  - apply IH. by apply Hf.
Qed.

Lemma foldM_score_mono (f : Q → string → Completion Q) (terms : list string) (a b : Q) :
  (∀ x y t, (x <= y)%Q → score_le (f x t) (f y t)) →
  (a <= b)%Q → score_le (foldM f terms a) (foldM f terms b).
Proof.
  intros Hf. revert a b. induction terms as [|t terms IH]; intros a b Hab; simpl.
  - exact Hab.
  - specialize (Hf a b t Hab). unfold bind.
    destruct (f a t) as [x|e1], (f b t) as [y|e2]; simpl in Hf; try done.
    by apply IH.
Qed.

Lemma stars_score_mono result (s1 s2 : option Z) :
  stars_value s1 ≤ stars_value s2 →
  (stars_score (with_stars s1 result) 0 <= stars_score (with_stars s2 result) 0)%Q.
Proof.
  unfold stars_score, stars_value. simpl. intros H.
  assert (Hdiv : ∀ n : Z, (inject_Z n / 100 == inject_Z n * (1 # 100))%Q)
    by (intros n; reflexivity).
  assert (Hpos : ∀ n : Z, 0 < n → (0 <= 0 + Qmin (inject_Z n / 100) 50)%Q).
  { intros n Hn. rewrite Qplus_0_l. apply Q.min_glb; [|done].
    rewrite Hdiv. assert (0 <= inject_Z n)%Q
      by (change 0%Q with (inject_Z 0); rewrite <- Zle_Qle; lia).
    lra. }
  assert (Hneg : ∀ n : Z, n < 0 → (0 + Qmin (inject_Z n / 100) 50 <= 0)%Q).
  { intros n Hn. rewrite Qplus_0_l. eapply Qle_trans; [apply Q.le_min_l|].
    rewrite Hdiv. assert (inject_Z n <= 0)%Q
      by (change 0%Q with (inject_Z 0); rewrite <- Zle_Qle; lia).
    lra. }
  assert (Hboth : ∀ n m : Z, n ≤ m →
            (0 + Qmin (inject_Z n / 100) 50 <= 0 + Qmin (inject_Z m / 100) 50)%Q).
  { intros n m Hnm. apply Qplus_le_r. apply Q.min_le_compat_r.
    rewrite !Hdiv. assert (inject_Z n <= inject_Z m)%Q by (by rewrite <- Zle_Qle). lra. }
  destruct s1 as [n|], s2 as [m|]; simpl in H.
  - destruct (Z.eqb_spec n 0) as [->|Hn], (Z.eqb_spec m 0) as [->|Hm]; simpl.
    + apply Qle_refl.
    + apply Hpos. lia.
    + apply Hneg. lia.
    + by apply Hboth.
  - destruct (Z.eqb_spec n 0) as [->|Hn]; simpl; [apply Qle_refl|apply Hneg; lia].
  - destruct (Z.eqb_spec m 0) as [->|Hm]; simpl; [apply Qle_refl|apply Hpos; lia].
  - apply Qle_refl.
Qed.

Lemma type_score_mono result (a b : Q) :
  (a <= b)%Q → (type_score result a <= type_score result b)%Q.
Proof.
  unfold type_score. intros H.
  destruct (is_repository (type result)), (is_code (type result) && hasRepoData result);
    lra.
Qed.

Lemma title_score_mono terms result (a b : Q) :
  (a <= b)%Q → (title_score terms result a <= title_score terms result b)%Q.
Proof.
  unfold title_score. intros H. destruct (truthy (title result)); [|done].
  apply fold_left_score_mono; [|done].
  intros x y t Hxy.
  destruct (includes _ t); [|done]. destruct (String.eqb _ t); lra.
Qed.

Lemma description_score_mono terms result (a b : Q) :
  (a <= b)%Q → (description_score terms result a <= description_score terms result b)%Q.
Proof.
  unfold description_score. intros H.
  destruct (description result) as [d|]; [|done]. destruct (truthy d); [|done].
  apply fold_left_score_mono; [|done].
  intros x y t Hxy. destruct (includes _ t); lra.
Qed.

Lemma snippet_score_mono terms result (a b : Q) :
  (a <= b)%Q →
  score_le (snippet_score P terms result a) (snippet_score P terms result b).
Proof.
  unfold snippet_score. intros H.
  destruct (snippet result) as [sn|]; [|done]. destruct (truthy sn); [|done].
  apply foldM_score_mono; [|done].
  intros x y t Hxy. simpl. unfold mbind, Completion_bind, bind.
  destruct (RegExp_new (engine P) t "g") as [re|e]; simpl; [lra|done].
Qed.

Lemma freshness_score_mono result (a b : Q) :
  (a <= b)%Q → (freshness_score P result a <= freshness_score P result b)%Q.
Proof.
  unfold freshness_score. intros H.
  destruct (truthy (timestamp result)); [|done].
  destruct (Date_getTime P (timestamp result)) as [t|]; [|done].
  simpl. repeat match goal with |- context [Qltb ?x ?y] => destruct (Qltb x y) end; lra.
Qed.

End Monotone.

(** C9.  With the query and every other property of the result fixed, the
    composite score does not decrease when [stars] grows ([undefined] counts
    as 0, which adds nothing either); a query on which the scorer throws
    makes it throw the same exception for every [stars]. *)
Theorem calculateCombinedScore_monotone_in_stars P result query (s1 s2 : option Z) :
  stars_value s1 ≤ stars_value s2 →
  score_le (calculateCombinedScore P (with_stars s1 result) query)
           (calculateCombinedScore P (with_stars s2 result) query).
Proof.
  intros H. unfold calculateCombinedScore.
  set (terms := split_ws (toLowerCase query)).
  pose proof (stars_score_mono result s1 s2 H) as H0.
  apply (type_score_mono result) in H0.
  apply (title_score_mono terms result) in H0.
  apply (description_score_mono terms result) in H0.
  apply (snippet_score_mono P terms result) in H0.
  change (type_score (with_stars s1 result)) with (type_score result).
  change (type_score (with_stars s2 result)) with (type_score result).
  change (title_score terms (with_stars s1 result)) with (title_score terms result).
  change (title_score terms (with_stars s2 result)) with (title_score terms result).
  change (description_score terms (with_stars s1 result))
    with (description_score terms result).
  change (description_score terms (with_stars s2 result))
    with (description_score terms result).
  change (snippet_score P terms (with_stars s1 result)) with (snippet_score P terms result).
  change (snippet_score P terms (with_stars s2 result)) with (snippet_score P terms result).
  unfold mbind, Completion_bind, bind.
  destruct (snippet_score P terms result _) as [x|e1],
           (snippet_score P terms result _) as [y|e2]; simpl in H0 |- *; try done.
  by apply (freshness_score_mono P result).
Qed.

(** ** The snippet builder *)

Lemma range_length a b : length (range a b) = Z.to_nat (b - a + 1).
Proof. unfold range. by rewrite length_map, length_seq. Qed.

Lemma range_elem a b x : x ∈ range a b → a ≤ x ≤ b.
Proof.
  unfold range. rewrite list_elem_of_fmap. intros (k & -> & Hk).
  apply elem_of_seq in Hk. lia.
Qed.

Lemma numbers_of_range_positive a b :
  0 ≤ a → Forall (fun n => 0 < n) (map (fun i => i + 1) (range a b)).
Proof.
  intros Ha. apply Forall_forall. intros n Hn.
  apply list_elem_of_fmap in Hn as (i & -> & Hi).
  apply range_elem in Hi. lia.
Qed.

Lemma count_separators_app l1 l2 :
  count_separators (l1 ++ l2) = (count_separators l1 + count_separators l2)%nat.
Proof. unfold count_separators. by rewrite filter_app, length_app. Qed.

Lemma count_separators_positive l :
  Forall (fun n => 0 < n) l → count_separators l = O.
Proof.
  unfold count_separators. induction 1 as [|n l Hn _ IH]; [done|].
  rewrite filter_cons. destruct (decide _) as [Hd|Hd]; [|exact IH].
  apply Is_true_true, Z.eqb_eq in Hd. lia.
Qed.

Lemma matching_lines_bounds P re lines idx m :
  m ∈ matching_lines P re lines idx → idx ≤ m < idx + Z.of_nat (length lines).
Proof.
  revert idx. induction lines as [|l lines IH]; intros idx; simpl.
  - by intros ?%elem_of_nil.
  - destruct (fst (test re l O)).
    + intros [->|Hm]%elem_of_cons; [lia|]. apply IH in Hm. lia.
    + intros Hm. apply IH in Hm. lia.
Qed.

Lemma split_char_without c s :
  contains_char c s = false → split_char c s = [s].
Proof.
  induction s as [|d s IH]; simpl; [done|].
  intros [Hd Hs]%orb_false_elim. rewrite Hd, (IH Hs). reflexivity.
Qed.

Lemma split_char_app c s t :
  contains_char c s = false →
  split_char c (s +:+ String c t) = s :: split_char c t.
Proof.
  induction s as [|d s IH]; simpl.
  - intros _. by rewrite Ascii.eqb_refl.
  - intros [Hd Hs]%orb_false_elim. rewrite Hd, (IH Hs). reflexivity.
Qed.

Lemma split_char_pieces c s :
  Forall (fun l => contains_char c l = false) (split_char c s).
Proof.
  induction s as [|d s IH]; simpl; [by repeat constructor|].
  destruct (Ascii.eqb d c) eqn:Hd; [by constructor|].
  destruct (split_char c s) as [|h t]; [by repeat constructor; simpl; rewrite Hd|].
  apply Forall_cons in IH as [Hh Ht]. constructor; [|done]. simpl. by rewrite Hd, Hh.
Qed.

Lemma split_lines_join ls :
  ls ≠ [] →
  Forall (fun l => contains_char newline l = false) ls →
  split_lines (join (String newline "") ls) = ls.
Proof.
  unfold split_lines. induction ls as [|l ls IH]; [done|]. intros _ Hall.
  apply Forall_cons in Hall as [Hl Hls].
  destruct ls as [|l' ls'].
  - simpl. by apply split_char_without.
  - change (join (String newline "") (l :: l' :: ls'))
      with (l +:+ String newline (join (String newline "") (l' :: ls'))).
    rewrite split_char_app by done. by rewrite IH.
Qed.

Lemma line_at_without_newline lines i :
  Forall (fun l => contains_char newline l = false) lines →
  contains_char newline (line_at lines i) = false.
Proof.
  intros Hall. unfold line_at. destruct (i <? 0); [done|].
  destruct (lines !! Z.to_nat i) as [l|] eqn:Hl; [|done]. simpl.
  by apply (Forall_lookup_1 _ _ _ _ Hall Hl).
Qed.

Lemma push_lines_invariant lines a b acc :
  Forall (fun l => contains_char newline l = false) lines →
  0 ≤ a →
  snippet_invariant acc → snippet_invariant (push_lines lines a b acc).
Proof.
  intros Hlines Ha (Hlen & Hnl & Hlast & Hsep).
  unfold snippet_invariant, push_lines. simpl.
  split; [by rewrite !length_app, !length_map, Hlen|].
  split.
  { apply Forall_app. split; [done|]. apply Forall_forall. intros l Hl.
    apply list_elem_of_fmap in Hl as (i & -> & _). by apply line_at_without_newline. }
  split; [done|].
  intros j Hj. destruct (decide (j < length (snippetNumbers acc))%nat) as [Hlt|Hge].
  - rewrite lookup_app_l in Hj by done. rewrite lookup_app_l by lia. by apply Hsep.
  - rewrite lookup_app_r in Hj by lia.
    apply list_elem_of_lookup_2, list_elem_of_fmap in Hj as (i & Hi & Hr).
    apply range_elem in Hr. lia.
Qed.

Lemma push_separator_invariant acc :
  snippet_invariant acc → snippet_invariant (push_separator acc).
Proof.
  intros (Hlen & Hnl & Hlast & Hsep).
  unfold snippet_invariant, push_separator. simpl.
  split; [by rewrite !length_app, Hlen|].
  split; [apply Forall_app; split; [done|by repeat constructor]|].
  split; [done|].
  intros j Hj. destruct (decide (j < length (snippetNumbers acc))%nat) as [Hlt|Hge].
  - rewrite lookup_app_l in Hj by done. rewrite lookup_app_l by lia. by apply Hsep.
  - rewrite lookup_app_r in Hj by lia. rewrite lookup_app_r by lia.
    rewrite <- Hlen. destruct (j - length (snippetNumbers acc))%nat; [done|].
    by destruct n.
Qed.

Lemma snippet_step_invariant lines acc m :
  Forall (fun l => contains_char newline l = false) lines →
  0 ≤ m →
  snippet_invariant acc → snippet_invariant (snippet_step lines acc m).
Proof.
  intros Hlines Hm Hacc.
  assert (Hset : ∀ e acc', -1 ≤ e → snippet_invariant acc' →
                            snippet_invariant (set_lastLineAdded e acc')).
  { intros e acc' He (H1 & H2 & _ & H4). by repeat split. }
  unfold snippet_step, contextSize.
  destruct (_ <=? _).
  - apply Hset; [lia|]. apply push_lines_invariant; [done| |done].
    destruct Hacc as (_ & _ & Hlast & _). lia.
  - apply Hset; [lia|]. apply push_lines_invariant; [done|lia|].
    destruct (0 <? _)%nat; [by apply push_separator_invariant|done].
Qed.

Lemma build_snippet_invariant lines ms :
  Forall (fun l => contains_char newline l = false) lines →
  Forall (fun m => 0 ≤ m) ms →
  snippet_invariant (build_snippet lines ms).
Proof.
  intros Hlines Hms. unfold build_snippet.
  assert (H : ∀ acc, snippet_invariant acc →
                     snippet_invariant (fold_left (snippet_step lines) ms acc)).
  { induction Hms as [|m ms Hm _ IH]; intros acc Hacc; [done|].
    simpl. apply IH. by apply snippet_step_invariant. }
  apply H. by repeat split.
Qed.

Lemma snippet_step_grows lines acc m :
  (length (snippetLines acc) ≤ length (snippetLines (snippet_step lines acc m)))%nat.
Proof.
  unfold snippet_step. destruct (_ <=? _); [|destruct (0 <? _)%nat]; simpl;
    rewrite ?length_app; simpl; lia.
Qed.

Lemma build_snippet_nonempty lines m ms :
  0 ≤ m < Z.of_nat (length lines) →
  snippetLines (build_snippet lines (m :: ms)) ≠ [].
Proof.
  intros Hm. unfold build_snippet. simpl.
  assert (Hfirst : (0 < length (snippetLines (snippet_step lines
            {| snippetLines := []; snippetNumbers := []; lastLineAdded := -1 |} m)))%nat).
  { unfold snippet_step, contextSize. simpl.
    destruct (_ <=? _); simpl; rewrite length_map, range_length; lia. }
  assert (H : ∀ acc, (0 < length (snippetLines acc))%nat →
            (0 < length (snippetLines (fold_left (snippet_step lines) ms acc)))%nat).
  { induction ms as [|m' ms IH]; intros acc Hacc; [done|].
    simpl. apply IH. pose proof (snippet_step_grows lines acc m'). lia. }
  specialize (H _ Hfirst). intros Hnil. rewrite Hnil in H. simpl in H. lia.
Qed.

(** X26.  The snippet of matched lines.  When some line of the file matches,
    the snippet has as many lines as [lineNumbers] has entries, and every
    entry [-1] stands at the place of a separator line and of no line of the
    file. *)
Lemma matched_snippet_keeps_the_invariant P query item statusText content re :
  get_contents (network P) (contents_url item)
  = Fulfilled 200 statusText (Text content) →
  RegExp_new (engine P) (queryRegex_source query) "i" = Normal re →
  matching_lines P re (split_lines content) 0 ≠ [] →
  ∃ r sn numbers,
    code_snippet_of_item P query item = Normal r ∧
    snippet r = Some sn ∧
    lineNumbers r = Some numbers ∧
    length numbers = length (split_lines sn) ∧
    ∀ j, numbers !! j = Some (-1) → split_lines sn !! j = Some "...".
Proof.
  intros Hget Hre Hms.
  unfold code_snippet_of_item. rewrite Hget. simpl. rewrite Hre. simpl.
  destruct (matching_lines P re (split_lines content) 0) as [|m ms] eqn:Hml; [done|].
  simpl.
  assert (Hbounds : Forall (fun m => 0 ≤ m) (m :: ms)).
  { apply Forall_forall. intros x Hx. rewrite <- Hml in Hx.
    apply matching_lines_bounds in Hx. lia. }
  assert (Hm : 0 ≤ m < Z.of_nat (length (split_lines content))).
  { assert (Hin : m ∈ matching_lines P re (split_lines content) 0)
      by (rewrite Hml; constructor).
    apply matching_lines_bounds in Hin. lia. }
  destruct (build_snippet_invariant (split_lines content) (m :: ms)
              (split_char_pieces _ _) Hbounds) as (Hlen & Hnl & _ & Hsep).
  pose proof (build_snippet_nonempty (split_lines content) m ms Hm) as Hne.
  do 3 eexists. split; [reflexivity|]. simpl.
  split; [reflexivity|]. split; [reflexivity|].
  rewrite split_lines_join by done. split; [exact Hlen|exact Hsep].
Qed.

(** Two matches whose windows leave a gap: the first window, one separator,
    the second window. *)
Lemma build_snippet_two_windows lines m1 m2 :
  0 ≤ m1 → m1 + 5 < m2 → m2 < Z.of_nat (length lines) →
  let a1 := Z.max 0 (m1 - 2) in
  let b2 := Z.min (Z.of_nat (length lines) - 1) (m2 + 2) in
  build_snippet lines [m1; m2]
  = {| snippetLines :=
         map (line_at lines) (range a1 (m1 + 2)) ++ ["..."]
         ++ map (line_at lines) (range (m2 - 2) b2);
       snippetNumbers :=
         map (fun i => i + 1) (range a1 (m1 + 2)) ++ [-1]
         ++ map (fun i => i + 1) (range (m2 - 2) b2);
       lastLineAdded := b2 |}.
Proof.
  intros H0 Hgap Hlen a1 b2. unfold build_snippet. simpl.
  assert (Hfirst :
    snippet_step lines
      {| snippetLines := []; snippetNumbers := []; lastLineAdded := -1 |} m1
    = {| snippetLines := map (line_at lines) (range a1 (m1 + 2));
         snippetNumbers := map (fun i => i + 1) (range a1 (m1 + 2));
         lastLineAdded := m1 + 2 |}).
  { unfold snippet_step, contextSize, push_lines, set_lastLineAdded. simpl.
    replace (Z.min (Z.of_nat (length lines) - 1) (m1 + 2)) with (m1 + 2) by lia.
    change (-1 + 1) with 0.
    destruct (Z.leb_spec (Z.max 0 (m1 - 2)) 0) as [Hle|Hgt]; simpl.
    - replace a1 with 0 by lia. reflexivity.
    - reflexivity. }
  rewrite Hfirst.
  unfold snippet_step, contextSize, push_lines, push_separator, set_lastLineAdded. simpl.
  replace (Z.max 0 (m2 - 2)) with (m2 - 2) by lia.
  destruct (Z.leb_spec (m2 - 2) (m1 + 2 + 1)) as [Hle|Hgt]; [lia|].
  assert (Hne : (0 <? length (map (line_at lines) (range a1 (m1 + 2))))%nat = true).
  { apply Nat.ltb_lt. rewrite length_map, range_length. lia. }
  rewrite Hne. simpl. fold b2. by rewrite <- !app_assoc.
Qed.

(** C5, as the code has it.  For a file with exactly two matching lines more
    than 5 lines apart, the [lineNumbers] of the snippet are the numbers of
    the first match's context window, one [-1], and the numbers of the second
    match's context window; [-1] occurs exactly once. *)
Theorem snippet_of_two_distant_matches P query item statusText content re m1 m2 :
  get_contents (network P) (contents_url item)
  = Fulfilled 200 statusText (Text content) →
  RegExp_new (engine P) (queryRegex_source query) "i" = Normal re →
  matching_lines P re (split_lines content) 0 = [m1; m2] →
  m2 - m1 > 5 →
  let last := Z.of_nat (length (split_lines content)) - 1 in
  let window1 := map (fun i => i + 1) (range (Z.max 0 (m1 - 2)) (m1 + 2)) in
  let window2 := map (fun i => i + 1) (range (m2 - 2) (Z.min last (m2 + 2))) in
  ∃ r,
    code_snippet_of_item P query item = Normal r ∧
    lineNumbers r = Some (window1 ++ [-1] ++ window2) ∧
    count_separators window1 = O ∧
    count_separators window2 = O ∧
    count_separators (window1 ++ [-1] ++ window2) = 1%nat.
Proof.
  intros Hget Hre Hms Hgap last window1 window2.
  assert (Hb1 : 0 ≤ m1 < 0 + Z.of_nat (length (split_lines content))).
  { apply (matching_lines_bounds P re). rewrite Hms. constructor. }
  assert (Hb2 : 0 ≤ m2 < 0 + Z.of_nat (length (split_lines content))).
  { apply (matching_lines_bounds P re). rewrite Hms. do 2 constructor. }
  assert (Hw1 : count_separators window1 = O).
  { apply count_separators_positive, numbers_of_range_positive. lia. }
  assert (Hw2 : count_separators window2 = O).
  { apply count_separators_positive, numbers_of_range_positive. lia. }
  assert (Hcount : count_separators (window1 ++ [-1] ++ window2) = 1%nat).
  { rewrite !count_separators_app, Hw1, Hw2. reflexivity. }
  unfold code_snippet_of_item. rewrite Hget. simpl. rewrite Hre. simpl.
  rewrite Hms. simpl.
  rewrite build_snippet_two_windows by lia.
  eexists. split; [reflexivity|].
  split; [reflexivity|]. split; [exact Hw1|]. split; [exact Hw2|exact Hcount].
Qed.

(** ** Enrichment *)

Lemma fold_insert_lookup (repos : list SearchResult) (m : gmap string SearchResult) src :
  fold_left (fun m repo => <[source repo := repo]> m) repos m !! src
  = match repository_for src repos with
    | Some r => Some r
    | None => m !! src
    end.
Proof.
  unfold repository_for.
  induction repos as [|r repos IH] using rev_ind; [done|].
  rewrite fold_left_app, filter_app. simpl.
  rewrite filter_cons, filter_nil.
  destruct (decide (source r = src)) as [Heq|Hne].
  - rewrite last_snoc, Heq. apply lookup_insert_eq.
  - rewrite app_nil_r, lookup_insert_ne by done. exact IH.
Qed.

Lemma repoDataMap_of_lookup repos src :
  repoDataMap_of repos !! src = repository_for src repos.
Proof.
  unfold repoDataMap_of. rewrite fold_insert_lookup.
  by destruct (repository_for src repos).
Qed.

Lemma repository_for_fmap (f : SearchResult → SearchResult) repos src :
  (∀ r, source (f r) = source r) →
  repository_for src (map f repos) = f <$> repository_for src repos.
Proof.
  intros Hf. unfold repository_for.
  induction repos as [|r repos IH] using rev_ind; [done|].
  rewrite map_app, !filter_app. simpl. rewrite !filter_cons, !filter_nil, Hf.
  destruct (decide (source r = src)).
  - by rewrite !last_snoc.
  - by rewrite !app_nil_r.
Qed.

Lemma repository_for_is_Some repos r :
  r ∈ repos → is_Some (repository_for (source r) repos).
Proof.
  intros Hr. unfold repository_for.
  assert (Hin : r ∈ filter (fun r' => source r' = source r) repos)
    by (by apply list_elem_of_filter).
  destruct (filter (fun r' => source r' = source r) repos) as [|x l] using rev_ind.
  - by apply elem_of_nil in Hin.
  - rewrite last_snoc. by eexists.
Qed.

Lemma repository_for_elem repos src r :
  repository_for src repos = Some r → r ∈ repos ∧ source r = src.
Proof.
  unfold repository_for. intros H.
  apply last_Some in H as [l Hl].
  assert (Hin : r ∈ filter (fun r' => source r' = src) repos)
    by (rewrite Hl; set_solver).
  by apply list_elem_of_filter in Hin as [? ?].
Qed.

Lemma mapM_lookup {A B} (f : A → Completion B) xs ys j x :
  mapM f xs = Normal ys → xs !! j = Some x →
  ∃ y, ys !! j = Some y ∧ f x = Normal y.
Proof.
  revert ys j. induction xs as [|x0 xs IH]; intros ys j Hm Hx; [done|].
  simpl in Hm. unfold bind in Hm.
  destruct (f x0) as [y0|] eqn:Hf0; [|done].
  destruct (mapM f xs) as [ys'|] eqn:Hm'; [|done].
  injection Hm as <-.
  destruct j as [|j]; simpl in *.
  - injection Hx as <-. by exists y0.
  - by apply (IH ys' j).
Qed.

Lemma fetchSearchResults_Normal P query filters results :
  fetchSearchResults P query filters = Normal results →
  combine_results P query (fetchGitHubRepositories P query filters)
    (fetchGitHubCodeSnippets P query filters) = Normal results.
Proof.
  unfold fetchSearchResults, try_catch.
  destruct (negb (truthy (trim query))).
  - done.
  - destruct (combine_results _ _ _ _) as [v|e]; [done|].
    by destruct (truthy (message e)).
Qed.

(** The merge order and the scoring once both fetches returned and one of
    them returned something. *)
Lemma combine_results_Normal P query repos codes :
  repos ≠ [] ∨ codes ≠ [] →
  let repoResults := map (with_apiSource (snd apiSources)) repos in
  let enriched :=
    map (enrich (repoDataMap_of repoResults))
        (map (with_apiSource (fst apiSources)) codes) in
  combine_results P query (Normal repos) (Normal codes)
  = mapM (fun result =>
            score ← calculateCombinedScore P result query;
            Normal (with_score score result))
         (take 3 repoResults ++ enriched ++ drop 3 repoResults).
Proof.
  intros Hne repoResults enriched.
  unfold combine_results. cbv beta iota zeta.
  assert (Hcond : (length repos =? 0)%nat && (length codes =? 0)%nat = false).
  { destruct repos, codes; simpl; try done. by destruct Hne. }
  rewrite Hcond. fold repoResults. fold enriched.
  f_equal.
  assert (Htake : (if (0 <? length repoResults)%nat then [] ++ take 3 repoResults else [])
                  = take 3 repoResults).
  { destruct repoResults; reflexivity. }
  rewrite Htake.
  destruct (3 <? length repoResults)%nat eqn:H3.
  - by rewrite <- app_assoc.
  - apply Nat.ltb_ge in H3. rewrite (drop_ge repoResults 3) by done.
    by rewrite app_nil_r.
Qed.

(** What the lookup table gives, whatever the repository search answered: a
    code result with a non-empty [source] that is the source of some fetched
    repository result comes out of [fetchSearchResults], right after the
    first three repositories, with the [stars], [forks], [watchers],
    [openIssues], [license] and [topics] of the last fetched repository
    result that has this source; it is otherwise the code result it was. *)
Lemma enrichment_copies_repository_metadata
    P query filters repos codes results i c :
  fetchGitHubRepositories P query filters = Normal repos →
  fetchGitHubCodeSnippets P query filters = Normal codes →
  fetchSearchResults P query filters = Normal results →
  codes !! i = Some c →
  source c ≠ "" →
  (∃ r, r ∈ repos ∧ source r = source c) →
  ∃ r merged,
    repository_for (source c) repos = Some r ∧
    r ∈ repos ∧ source r = source c ∧
    results !! (length (take 3 repos) + i)%nat = Some merged ∧
    stars merged = stars r ∧
    forks merged = forks r ∧
    watchers merged = watchers r ∧
    openIssues merged = openIssues r ∧
    license merged = license r ∧
    topics merged = topics r ∧
    id merged = id c ∧ type merged = type c ∧ snippet merged = snippet c ∧
    lineNumbers merged = lineNumbers c.
Proof.
  intros Hrepos Hcodes Hres Hc Hsrc (r0 & Hr0 & Hs0).
  apply fetchSearchResults_Normal in Hres. rewrite Hrepos, Hcodes in Hres.
  destruct (repository_for_is_Some repos r0 Hr0) as [r Hr]. rewrite Hs0 in Hr.
  exists r.
  rewrite combine_results_Normal in Hres
    by (left; intros ->; by apply elem_of_nil in Hr0).
  cbv zeta in Hres.
  set (repoResults := map (with_apiSource (snd apiSources)) repos) in *.
  assert (Hi : (take 3 repoResults
                ++ map (enrich (repoDataMap_of repoResults))
                       (map (with_apiSource (fst apiSources)) codes)
                ++ drop 3 repoResults)
               !! (length (take 3 repos) + i)%nat
               = Some (enrich (repoDataMap_of repoResults)
                         (with_apiSource (fst apiSources) c))).
  { assert (Ht : length (take 3 repoResults) = length (take 3 repos))
      by (unfold repoResults; by rewrite !length_take, length_map).
    rewrite lookup_app_r by lia. rewrite Ht, Nat.add_comm, Nat.add_sub.
    rewrite lookup_app_l.
    - by rewrite !list_lookup_fmap, Hc.
    - rewrite !length_map. by apply lookup_lt_Some in Hc. }
  destruct (mapM_lookup _ _ _ _ _ Hres Hi) as (merged & Hmerged & Hscore).
  exists merged. split; [exact Hr|].
  destruct (repository_for_elem _ _ _ Hr) as [Hin Hsame].
  split; [exact Hin|]. split; [exact Hsame|]. split; [exact Hmerged|].
  unfold mbind, Completion_bind, bind in Hscore.
  destruct (calculateCombinedScore P _ query) as [sc|]; [|done].
  injection Hscore as <-.
  unfold enrich. simpl.
  assert (Htruthy : truthy (source c) = true) by (by destruct (source c)).
  rewrite Htruthy, repoDataMap_of_lookup.
  unfold repoResults. rewrite repository_for_fmap by done. rewrite Hr. simpl.
  repeat split; reflexivity.
Qed.

Lemma same_source_same_repository (repos : list SearchResult) r r' :
  NoDup (source <$> repos) → r ∈ repos → r' ∈ repos → source r = source r' → r = r'.
Proof.
  intros Hnd Hr Hr' Heq.
  apply list_elem_of_lookup in Hr as [i Hi].
  apply list_elem_of_lookup in Hr' as [j Hj].
  assert (Hij : i = j).
  { apply (NoDup_lookup (source <$> repos) i j (source r) Hnd).
    - by rewrite list_lookup_fmap, Hi.
    - by rewrite list_lookup_fmap, Hj, Heq. }
  subst j. rewrite Hi in Hj. by injection Hj.
Qed.

(** C3.  The full names in an answer of the repository search are those of
    distinct repositories, each of the form owner/name, so the fetched
    repository results have distinct sources, none of them empty.  Then a
    code result whose [source] is the source of a fetched repository result
    [r] comes out of [fetchSearchResults], right after the first three
    repositories, with the [stars], [forks], [watchers], [openIssues],
    [license] and [topics] of [r]; it is otherwise the code result it
    was. *)
Theorem enrichment_copies_the_values_of_the_repository
    P query filters repos codes results i c r :
  fetchGitHubRepositories P query filters = Normal repos →
  fetchGitHubCodeSnippets P query filters = Normal codes →
  fetchSearchResults P query filters = Normal results →
  NoDup (source <$> repos) →
  codes !! i = Some c →
  source c ≠ "" →
  r ∈ repos →
  source r = source c →
  ∃ merged,
    results !! (length (take 3 repos) + i)%nat = Some merged ∧
    stars merged = stars r ∧
    forks merged = forks r ∧
    watchers merged = watchers r ∧
    openIssues merged = openIssues r ∧
    license merged = license r ∧
    topics merged = topics r ∧
    id merged = id c ∧ type merged = type c ∧ snippet merged = snippet c ∧
    lineNumbers merged = lineNumbers c.
Proof.
  intros Hrepos Hcodes Hres Hnd Hc Hsrc Hr Hsame.
  destruct (enrichment_copies_repository_metadata P query filters repos codes results i c
              Hrepos Hcodes Hres Hc Hsrc)
    as (r' & merged & _ & Hr' & Hsame' & Hrest); [by exists r|].
  assert (Heq : r' = r).
  { apply (same_source_same_repository repos); [done..|]. by rewrite Hsame', Hsame. }
  subst r'. by exists merged.
Qed.

(** ** Scoring after the merge *)

Lemma foldM_Normal {A S} (f : S → A → Completion S) (xs : list A) (s : S) :
  (∀ x s, x ∈ xs → ∃ s', f s x = Normal s') → ∃ s', foldM f xs s = Normal s'.
Proof.
  revert s. induction xs as [|x xs IH]; intros s H; simpl; [by eexists|].
  destruct (H x s) as [s' Hs']; [constructor|]. rewrite Hs'. simpl.
  apply IH. intros y t Hy. apply H. by constructor.
Qed.

Lemma mapM_Normal {A B} (f : A → Completion B) (xs : list A) :
  (∀ x, x ∈ xs → ∃ y, f x = Normal y) →
  ∃ ys, mapM f xs = Normal ys ∧ length ys = length xs.
Proof.
  induction xs as [|x xs IH]; intros H; simpl; [by eexists|].
  destruct (H x) as [y Hy]; [constructor|]. rewrite Hy. simpl.
  destruct IH as (ys & Hys & Hlen); [intros z Hz; apply H; by constructor|].
  rewrite Hys. simpl. eexists. split; [reflexivity|]. simpl. by rewrite Hlen.
Qed.

Lemma calculateCombinedScore_Normal P result query :
  terms_compile P query → ∃ sc, calculateCombinedScore P result query = Normal sc.
Proof.
  intros Hterms. unfold calculateCombinedScore.
  match goal with
  | |- ∃ sc, (snippet_score P ?ts result ?s0 ≫= _) = _ =>
      assert (Hsn : ∃ s', snippet_score P ts result s0 = Normal s')
  end.
  { unfold snippet_score. destruct (snippet result) as [sn|]; [|by eexists].
    destruct (truthy sn); [|by eexists].
    apply foldM_Normal. intros term s Hterm.
    destruct (Hterms term Hterm) as [re Hre]. rewrite Hre. by eexists. }
  destruct Hsn as [s' Hs']. rewrite Hs'. by eexists.
Qed.

Lemma combine_results_values P query repos codes :
  values repos ≠ [] ∨ values codes ≠ [] →
  combine_results P query repos codes
  = combine_results P query (Normal (values repos)) (Normal (values codes)).
Proof.
  intros Hne. unfold combine_results.
  destruct repos as [repos|e1], codes as [codes|e2]; simpl in *; try reflexivity.
  - destruct repos; [by destruct Hne|reflexivity].
  - destruct codes; [by destruct Hne|reflexivity].
  - by destruct Hne.
Qed.

(** X27.  Partial-failure tolerance.  For a non-blank query all of whose
    terms are patterns that [new RegExp] accepts, [fetchSearchResults]
    returns, with one entry for each result of the two fetches, as soon as
    one fetch returned a result; a fetch that failed counts for nothing. *)
Lemma fetchSearchResults_returns_when_terms_compile P query filters :
  truthy (trim query) = true →
  values (fetchGitHubRepositories P query filters) ≠ []
  ∨ values (fetchGitHubCodeSnippets P query filters) ≠ [] →
  terms_compile P query →
  ∃ results,
    fetchSearchResults P query filters = Normal results ∧
    results ≠ [] ∧
    length results
    = (length (values (fetchGitHubRepositories P query filters))
       + length (values (fetchGitHubCodeSnippets P query filters)))%nat.
Proof.
  intros Hq Hne Hterms. unfold fetchSearchResults. rewrite Hq. simpl.
  rewrite combine_results_values, combine_results_Normal by done. cbv zeta.
  match goal with
  | |- ∃ results, try_catch (mapM ?f ?xs) _ = _ ∧ _ =>
      destruct (mapM_Normal f xs) as (ys & Hys & Hlen)
  end.
  { intros x _. destruct (calculateCombinedScore_Normal P x query Hterms) as [sc Hsc].
    rewrite Hsc. by eexists. }
  rewrite Hys. simpl. exists ys. split; [reflexivity|].
  assert (Hl : length ys
               = (length (values (fetchGitHubRepositories P query filters))
                  + length (values (fetchGitHubCodeSnippets P query filters)))%nat).
  { rewrite Hlen, !length_app, !length_map, length_take, length_drop, length_map. lia. }
  split; [|exact Hl].
  intros ->. simpl in Hl.
  destruct Hne as [Hne|Hne]; apply Hne, nil_length_inv; lia.
Qed.

Lemma foldM_Throw {A S} (f : S → A → Completion S) (xs : list A) (x : A) :
  x ∈ xs → (∀ s, ∃ e, f s x = Throw e) → ∀ s, ∃ e, foldM f xs s = Throw e.
Proof.
  intros Hx Hf. induction Hx as [x xs|x y xs Hx IH]; intros s; simpl.
  - destruct (Hf s) as [e He]. rewrite He. by eexists.
  - destruct (f s y) as [s'|e]; simpl; [by apply IH|by eexists].
Qed.

Lemma mapM_Throw {A B} (f : A → Completion B) (xs : list A) (x : A) :
  x ∈ xs → (∃ e, f x = Throw e) → ∃ e, mapM f xs = Throw e.
Proof.
  intros Hx [e He]. induction Hx as [x xs|x y xs Hx IH]; simpl.
  - rewrite He. by eexists.
  - destruct (f y) as [v|e']; simpl; [|by eexists].
    destruct (IH He) as [e'' ->]. by eexists.
Qed.

Lemma calculateCombinedScore_Throw P result query sn term msg :
  snippet result = Some sn → truthy sn = true →
  term ∈ split_ws (toLowerCase query) →
  compile (engine P) term false = inl msg →
  ∃ e, calculateCombinedScore P result query = Throw e.
Proof.
  intros Hsn Htruthy Hterm Hcompile. unfold calculateCombinedScore.
  match goal with
  | |- ∃ e, (snippet_score P ?ts result ?s0 ≫= _) = _ =>
      assert (Hthrow : ∃ e, snippet_score P ts result s0 = Throw e)
  end.
  { unfold snippet_score. rewrite Hsn, Htruthy.
    apply (foldM_Throw _ _ term Hterm). intros s.
    unfold RegExp_new. change (has_flag "g" "i") with false.
    rewrite Hcompile. by eexists. }
  destruct Hthrow as [e ->]. by eexists.
Qed.

(** X28.  The reach of the unescaped term.  On every platform, when a term
    of the query is a pattern that [new RegExp] rejects and the code search
    returned a result with a non-empty snippet, [fetchSearchResults]
    rejects, whatever the two searches returned. *)
Lemma fetchSearchResults_throws_when_a_term_does_not_compile
    P query filters codes c sn term msg :
  truthy (trim query) = true →
  fetchGitHubCodeSnippets P query filters = Normal codes →
  c ∈ codes → snippet c = Some sn → truthy sn = true →
  term ∈ split_ws (toLowerCase query) →
  compile (engine P) term false = inl msg →
  ∃ m, fetchSearchResults P query filters = Throw (Error m).
Proof.
  intros Hq Hcodes Hc Hsn Htruthy Hterm Hcompile.
  unfold fetchSearchResults. rewrite Hq. simpl.
  rewrite combine_results_values, combine_results_Normal;
    try (right; rewrite Hcodes; simpl; intros ->; by apply elem_of_nil in Hc).
  cbv zeta. rewrite Hcodes. simpl.
  match goal with
  | |- ∃ m, try_catch (mapM ?f (?l1 ++ map ?g (map ?h codes) ++ ?l3)) _ = _ =>
      destruct (mapM_Throw f (l1 ++ map g (map h codes) ++ l3) (g (h c))) as [e He]
  end.
  - apply elem_of_app. right. apply elem_of_app. left.
    by do 2 apply list_elem_of_fmap_2.
  - match goal with
    | |- ∃ e, (calculateCombinedScore P ?r query ≫= _) = _ =>
        destruct (calculateCombinedScore_Throw P r query sn term msg) as [e He]
    end; try done.
    + unfold enrich. simpl. destruct (truthy (source c)); [|done].
      by destruct (_ !! source c).
    + rewrite He. by eexists.
  - rewrite He. simpl. destruct (truthy (message e)); by eexists.
Qed.

(** ** The order of the rendered list *)

Section RenderedOrder.

Context (P : Platform).

#[local] Instance repo_score_ge_trans : Transitive (repo_score_ge P).
Proof.
  intros a b c. unfold repo_score_ge.
  destruct (ResultsList.calculateRepoScore P a), (ResultsList.calculateRepoScore P b),
    (ResultsList.calculateRepoScore P c); try done.
  intros H1 H2. by eapply Qle_trans.
Qed.

Lemma insert_sorted_perm cmp x l : ResultsList.insert_sorted cmp x l ≡ₚ x :: l.
Proof.
  induction l as [|y l IH]; simpl; [done|].
  destruct (Qltb 0 (cmp x y)); [|done].
  rewrite IH. apply Permutation_swap.
Qed.

Lemma Array_sort_perm cmp l : ResultsList.Array_sort cmp l ≡ₚ l.
Proof.
  induction l as [|x l IH]; simpl; [done|].
  rewrite insert_sorted_perm. by rewrite IH.
Qed.

Lemma comparator_positive a b x y :
  ResultsList.calculateRepoScore P a = Some x →
  ResultsList.calculateRepoScore P b = Some y →
  Qltb 0 (ResultsList.comparator P a b) = true ↔ (x < y)%Q.
Proof.
  intros Ha Hb. unfold ResultsList.comparator, Qltb. rewrite Ha, Hb.
  rewrite negb_true_iff, <- not_true_iff_false, Qle_bool_iff. split; intros H; lra.
Qed.

Lemma insert_sorted_HdRel x y l :
  repo_score_ge P y x → HdRel (repo_score_ge P) y l →
  HdRel (repo_score_ge P) y (ResultsList.insert_sorted (ResultsList.comparator P) x l).
Proof.
  intros Hyx Hl. destruct l as [|z l]; simpl; [by constructor|].
  destruct (Qltb 0 _); constructor; [|done]. by inversion Hl.
Qed.

Lemma insert_sorted_Sorted x l :
  is_Some (ResultsList.calculateRepoScore P x) →
  Forall (fun r => is_Some (ResultsList.calculateRepoScore P r)) l →
  Sorted (repo_score_ge P) l →
  Sorted (repo_score_ge P) (ResultsList.insert_sorted (ResultsList.comparator P) x l).
Proof.
  intros [sx Hx] Hdef Hs. induction Hs as [|y l Hs IH Hhd]; simpl.
  - by repeat constructor.
  - apply Forall_cons in Hdef as [[sy Hy] Hdef].
    destruct (Qltb 0 (ResultsList.comparator P x y)) eqn:Hcmp.
    + apply (comparator_positive x y sx sy Hx Hy) in Hcmp.
      constructor; [by apply IH|].
      apply insert_sorted_HdRel; [|done].
      unfold repo_score_ge. rewrite Hx, Hy. lra.
    + constructor; [by constructor|]. constructor.
      unfold repo_score_ge. rewrite Hx, Hy.
      apply not_true_iff_false in Hcmp.
      rewrite (comparator_positive x y sx sy Hx Hy) in Hcmp. lra.
Qed.

Lemma Array_sort_Sorted l :
  Forall (fun r => is_Some (ResultsList.calculateRepoScore P r)) l →
  Sorted (repo_score_ge P) (ResultsList.Array_sort (ResultsList.comparator P) l).
Proof.
  induction 1 as [|x l Hx Hl IH]; simpl; [constructor|].
  apply insert_sorted_Sorted; [done| |done].
  by rewrite Array_sort_perm.
Qed.

End RenderedOrder.

(** C8, as the code has it.  The list rendered by the UI holds the results it
    was given, in non-increasing order of [calculateRepoScore] (for results
    whose [timestamp] is a date, so that this score is a number).  The
    composite score stored in the [score] property has no part in it:
    [calculateRepoScore] is the same whatever that property holds. *)
Theorem rendered_results_sorted_by_repo_score P results :
  Forall (fun r => is_Some (ResultsList.calculateRepoScore P r)) results →
  ResultsList.rendered_results P results ≡ₚ results ∧
  StronglySorted (repo_score_ge P) (ResultsList.rendered_results P results) ∧
  ∀ r sc, ResultsList.calculateRepoScore P (with_score sc r)
          = ResultsList.calculateRepoScore P r.
Proof.
  intros Hdef. split; [apply Array_sort_perm|]. split; [|done].
  apply Sorted_StronglySorted; [apply repo_score_ge_trans|].
  by apply Array_sort_Sorted.
Qed.

(** ** Runs of the primitives *)

Example split_ws_run : split_ws " react  hooks " = [""; "react"; "hooks"; ""].
Proof. reflexivity. Qed.

Example trim_run : trim "  react hooks  " = "react hooks".
Proof. reflexivity. Qed.

Example escapeRegExp_run : escapeRegExp "c++ (x)" = "c\+\+ \(x\)".
Proof. reflexivity. Qed.

Example queryRegex_source_run :
  queryRegex_source "react hooks js" = "(react)|(hooks)".
Proof. vm_compute. reflexivity. Qed.

Example rejected_patterns_run :
  map (fun source => JsFragment.fragment_compile source false) ["c++"; "("; "[a"; "*"]
  = [inl "Invalid regular expression: /c++/: Nothing to repeat";
     inl "Invalid regular expression: /(/: Unterminated group";
     inl "Invalid regular expression: /[a/: Unterminated character class";
     inl "Invalid regular expression: /*/: Nothing to repeat"].
Proof. vm_compute. reflexivity. Qed.

(** Whole-word mode: [cat] in [concatenate cat] matches the second occurrence
    only. *)
Example whole_word_run :
  match ResultsList.createSearchRegex Runs.offline
          {| ResultsList.matchWholeWord := true; ResultsList.matchCase := false;
             ResultsList.useRegex := false; ResultsList.highlightMatchesOnly := true |}
          "cat" with
  | Normal (Some re) => match_all re "concatenate cat"
  | _ => []
  end = [(12, 15)%nat].
Proof. vm_compute. reflexivity. Qed.

(** A global [RegExp] remembers where its last match ended. *)
Example lastIndex_run :
  test Runs.needle_regex "a needle" 0 = (true, 8%nat) ∧
  test Runs.needle_regex "needle" 8 = (false, 0%nat) ∧
  test Runs.needle_regex "needle" 0 = (true, 6%nat).
Proof. repeat split; vm_compute; reflexivity. Qed.

Example match_all_run :
  match RegExp_new JsFragment.Engine "a*" "g" with
  | Normal re => match_all re "baaac"
  | Throw _ => []
  end = [(0, 0); (1, 4); (4, 4); (5, 5)]%nat.
Proof. vm_compute. reflexivity. Qed.

Example getTime_run :
  Clock.getTime "2024-01-15T10:30:00Z" = Some 1705314600000 ∧
  Clock.getTime "yesterday" = None ∧
  Clock.toISOString 1705314600123 = "2024-01-15T10:30:00.123Z".
Proof. repeat split; vm_compute; reflexivity. Qed.

(** ** Runs of the statements above *)

(** Without network both fetches fail and the search is rejected with a
    message. *)
Lemma fetchSearchResults_rejects_offline :
  (∃ e1 e2,
     fetchGitHubRepositories Runs.offline "react hooks" defaultSearchFilters = Throw e1 ∧
     fetchGitHubCodeSnippets Runs.offline "react hooks" defaultSearchFilters = Throw e2) ∧
  ∃ msg,
    fetchSearchResults Runs.offline "react hooks" defaultSearchFilters = Throw (Error msg) ∧
    truthy msg = true.
Proof.
  assert (H : ∃ e1 e2,
     fetchGitHubRepositories Runs.offline "react hooks" defaultSearchFilters = Throw e1 ∧
     fetchGitHubCodeSnippets Runs.offline "react hooks" defaultSearchFilters = Throw e2)
    by (do 2 eexists; split; vm_compute; reflexivity).
  split; [exact H|].
  destruct (fetchSearchResults_rejects_without_results
              Runs.offline "react hooks" defaultSearchFilters (or_introl H))
    as (msg & Hthrow & Hmsg & _).
  exists msg. split; assumption.
Defined.

(** In regex mode the query [c++] is not a pattern: no matcher, no
    exception, and with every line shown the five lines are rendered as
    they are. *)
Lemma createSearchRegex_swallows_bad_pattern :
  (ResultsList.useRegex Runs.regex_every_line = true ∧
   truthy (trim "c++") = true ∧
   ∃ e, RegExp_new (engine Runs.offline) "c++" "gi" = Throw e) ∧
  ResultsList.createSearchRegex Runs.offline Runs.regex_every_line "c++" = Normal None ∧
  ResultsList.getEnhancedCodeSnippet Runs.offline Runs.regex_every_line
    Runs.five_lines "c++"
  = Normal (Some (ResultsList.NumberedView
      [ResultsList.LineRow 0 (Some 10) false "alpha";
       ResultsList.LineRow 1 (Some 11) false "beta";
       ResultsList.LineRow 2 (Some 12) false "needle and needle";
       ResultsList.LineRow 3 (Some 13) false "delta";
       ResultsList.LineRow 4 (Some 14) false "epsilon"]
      O)).
Proof.
  assert (H1 : ResultsList.useRegex Runs.regex_every_line = true) by reflexivity.
  assert (H2 : truthy (trim "c++") = true) by reflexivity.
  assert (H3 : ∃ e, RegExp_new (engine Runs.offline) "c++" "gi" = Throw e)
    by (eexists; reflexivity).
  destruct (proj2 (proj2 (createSearchRegex_never_throws Runs.offline
                            Runs.regex_every_line "c++")) H1 H2 H3) as [Hnull Hview].
  split; [by repeat split|]. split; [exact Hnull|].
  destruct (Hview Runs.five_lines _ eq_refl eq_refl) as (view & Hv & Hplain & _).
  specialize (Hplain (or_introl eq_refl)).
  rewrite Hv. do 2 f_equal.
  destruct view as [rows matchCount|body]; [|vm_compute in Hv; discriminate Hv].
  destruct Hplain as [-> ->]. vm_compute. reflexivity.
Defined.

(** C7 at the query [c++] in regex mode with only the matching lines shown:
    there is no matcher, no line matches, and none of the five lines of the
    snippet is rendered. *)
Lemma invalid_pattern_hides_the_numbered_lines :
  ResultsList.useRegex Runs.regex_options = true ∧
  ResultsList.createSearchRegex Runs.offline Runs.regex_options "c++" = Normal None ∧
  ∃ codeContent numbers view,
    snippet Runs.five_lines = Some codeContent ∧
    lineNumbers Runs.five_lines = Some numbers ∧
    length (split_lines codeContent) = 5%nat ∧
    ResultsList.getEnhancedCodeSnippet Runs.offline Runs.regex_options
      Runs.five_lines "c++" = Normal (Some view) ∧
    view = ResultsList.NumberedView [] O ∧
    ¬ rendered_plain codeContent numbers view.
Proof.
  split; [reflexivity|]. split; [reflexivity|].
  do 3 eexists. split; [reflexivity|]. split; [reflexivity|].
  split; [vm_compute; reflexivity|].
  split; [vm_compute; reflexivity|].
  split; [reflexivity|].
  intros [_ H]. vm_compute in H. discriminate H.
Defined.

(** Two hits, the content of the second cannot be fetched: one result. *)
Lemma failed_content_fetch_is_omitted_run :
  content_fetch_fails Runs.one_missing Runs.hello_b ∧
  ∃ r, fetchGitHubCodeSnippets Runs.one_missing "greeting" defaultSearchFilters
       = Normal [r].
Proof.
  assert (Hbad : content_fetch_fails Runs.one_missing Runs.hello_b)
    by (vm_compute; exact I).
  split; [exact Hbad|].
  destruct (failed_content_fetch_is_omitted Runs.one_missing "greeting"
              defaultSearchFilters "OK" [Runs.hello_a; Runs.hello_b]
              [Runs.hello_a] Runs.hello_b [] eq_refl eq_refl eq_refl Hbad) as [_ H].
  rewrite H. vm_compute. eexists. reflexivity.
Defined.

(** Five numbered lines of which the third holds the query twice: one row,
    both occurrences marked, one match counted. *)
Lemma highlightMatchesOnly_five_lines :
  ResultsList.getEnhancedCodeSnippet Runs.offline Runs.default_options
    Runs.five_lines "needle"
  = Normal (Some (ResultsList.NumberedView
      [ResultsList.LineRow 2 (Some 12) true
         (ResultsList.mark_open +:+ "needle" +:+ ResultsList.mark_close +:+ " and "
          +:+ ResultsList.mark_open +:+ "needle" +:+ ResultsList.mark_close)]
      1%nat)).
Proof.
  rewrite (highlightMatchesOnly_keeps_the_matching_line
             Runs.offline Runs.default_options Runs.five_lines "needle"
             (Runs.lines_text ["alpha"; "beta"; "needle and needle"; "delta"; "epsilon"])
             [10; 11; 12; 13; 14] Runs.needle_regex 2 "needle and needle").
  - vm_compute. reflexivity.
  - reflexivity.
  - reflexivity.
  - reflexivity.
  - reflexivity.
  - discriminate.
  - reflexivity.
  - reflexivity.
  - reflexivity.
  - intros i l Hl _.
    do 5 (destruct i as [|i]; [injection Hl as <-; vm_compute; split; (done || lia)|]).
    vm_compute in Hl. discriminate.
Defined.

(** C1 at the query [c++].  The code search returns one result, whose snippet
    holds the query; scoring that result compiles the query term as it is,
    [new RegExp] throws, and [fetchSearchResults] rejects. *)
Theorem fetchSearchResults_throws_on_unescaped_term :
  fetchGitHubRepositories Runs.cpp "c++" defaultSearchFilters = Normal [] ∧
  (∃ r, fetchGitHubCodeSnippets Runs.cpp "c++" defaultSearchFilters = Normal [r] ∧
        snippet r = Some (Runs.lines_text ["int c = 0;"; "c++;"; "return c;"])) ∧
  fetchSearchResults Runs.cpp "c++" defaultSearchFilters
  = Throw (Error "Invalid regular expression: /c++/: Nothing to repeat").
Proof.
  split; [vm_compute; reflexivity|].
  split; [eexists; split; vm_compute; reflexivity|].
  vm_compute. reflexivity.
Qed.

(** C4 at a file of three lines without a match.  The fallback snippet has
    the three lines of the file and ten line numbers. *)
Theorem fallback_snippet_has_ten_numbers_for_three_lines :
  ∃ r sn numbers,
    fetchGitHubCodeSnippets Runs.short_file "zzz" defaultSearchFilters = Normal [r] ∧
    snippet r = Some sn ∧
    lineNumbers r = Some numbers ∧
    length (split_lines sn) = 3%nat ∧
    length numbers = 10%nat.
Proof.
  do 3 eexists. split; [vm_compute; reflexivity|].
  repeat split; reflexivity.
Qed.

(** Matches on lines 2 and 7 of ten: the windows 1-4 and 5-9 touch and are
    merged; there is no separator. *)
Lemma snippet_of_matches_five_apart_has_no_separator :
  get_contents (network Runs.five_apart) (contents_url Runs.hello_a)
  = Fulfilled 200 "OK" (Text (Runs.lines_text Runs.ten_lines)) ∧
  RegExp_new (engine Runs.five_apart) (queryRegex_source "needle") "i"
  = Normal Runs.needle_i ∧
  matching_lines Runs.five_apart Runs.needle_i
    (split_lines (Runs.lines_text Runs.ten_lines)) 0 = [1; 6] ∧
  6 - 1 > 4 ∧
  ∃ r, code_snippet_of_item Runs.five_apart "needle" Runs.hello_a = Normal r ∧
       lineNumbers r = Some [1; 2; 3; 4; 5; 6; 7; 8; 9] ∧
       count_separators [1; 2; 3; 4; 5; 6; 7; 8; 9] = O.
Proof.
  split; [vm_compute; reflexivity|].
  split; [reflexivity|].
  split; [vm_compute; reflexivity|].
  split; [reflexivity|].
  eexists. split; [vm_compute; reflexivity|].
  split; [reflexivity|vm_compute; reflexivity].
Defined.

(** Matches on lines 2 and 8 of twelve: windows 1-4 and 6-10, one
    separator. *)
Lemma snippet_of_matches_six_apart :
  ∃ r, code_snippet_of_item Runs.six_apart "needle" Runs.hello_a = Normal r ∧
       lineNumbers r = Some ([1; 2; 3; 4] ++ [-1] ++ [6; 7; 8; 9; 10]).
Proof.
  destruct (snippet_of_two_distant_matches Runs.six_apart "needle" Runs.hello_a
              "OK" (Runs.lines_text Runs.twelve_lines) Runs.needle_i 1 7)
    as (r & Hr & Hn & _).
  - vm_compute. reflexivity.
  - reflexivity.
  - vm_compute. reflexivity.
  - reflexivity.
  - exists r. split; [exact Hr|]. rewrite Hn. vm_compute. reflexivity.
Defined.

(** Outside the two hypotheses on the sources.  Were a repository listed
    twice, with 1 and then 2 stars, the code hit would get 2, not the 1 of
    the first entry; and were a repository and a code hit to have the empty
    full name, the code hit would not be enriched. *)
Lemma enrichment_misses_first_duplicate_and_empty_source :
  (∃ repos codes results r c merged,
     fetchGitHubRepositories Runs.twice_listed "greeting" defaultSearchFilters
     = Normal repos ∧
     fetchGitHubCodeSnippets Runs.twice_listed "greeting" defaultSearchFilters
     = Normal codes ∧
     fetchSearchResults Runs.twice_listed "greeting" defaultSearchFilters
     = Normal results ∧
     codes !! O = Some c ∧ repos !! O = Some r ∧ source c = source r ∧
     results !! (length (take 3 repos) + 0)%nat = Some merged ∧
     id merged = id c ∧
     stars r = Some 1 ∧ stars merged = Some 2) ∧
  (∃ repos codes results r c merged,
     fetchGitHubRepositories Runs.nameless "greeting" defaultSearchFilters
     = Normal repos ∧
     fetchGitHubCodeSnippets Runs.nameless "greeting" defaultSearchFilters
     = Normal codes ∧
     fetchSearchResults Runs.nameless "greeting" defaultSearchFilters
     = Normal results ∧
     codes !! O = Some c ∧ repos !! O = Some r ∧ source c = source r ∧
     results !! (length (take 3 repos) + 0)%nat = Some merged ∧
     id merged = id c ∧
     stars r = Some 5 ∧ stars merged = None).
Proof.
  split.
  - do 6 eexists.
    split; [vm_compute; reflexivity|].
    split; [vm_compute; reflexivity|].
    split; [vm_compute; reflexivity|].
    repeat split; reflexivity.
  - do 6 eexists.
    split; [vm_compute; reflexivity|].
    split; [vm_compute; reflexivity|].
    split; [vm_compute; reflexivity|].
    repeat split; reflexivity.
Defined.

(** One repository with 42 stars and a code hit in it. *)
Lemma enrichment_run :
  ∃ repos codes results c r merged,
    fetchGitHubRepositories Runs.enriched "greeting" defaultSearchFilters = Normal repos ∧
    fetchGitHubCodeSnippets Runs.enriched "greeting" defaultSearchFilters = Normal codes ∧
    fetchSearchResults Runs.enriched "greeting" defaultSearchFilters = Normal results ∧
    NoDup (source <$> repos) ∧
    codes !! O = Some c ∧
    source c ≠ "" ∧
    r ∈ repos ∧ source r = source c ∧
    results !! (length (take 3 repos) + 0)%nat = Some merged ∧
    stars merged = stars r ∧ stars r = Some 42.
Proof.
  destruct (fetchGitHubRepositories Runs.enriched "greeting" defaultSearchFilters)
    as [repos|e] eqn:Hrepos; [|vm_compute in Hrepos; discriminate Hrepos].
  destruct (fetchGitHubCodeSnippets Runs.enriched "greeting" defaultSearchFilters)
    as [codes|e] eqn:Hcodes; [|vm_compute in Hcodes; discriminate Hcodes].
  destruct (fetchSearchResults Runs.enriched "greeting" defaultSearchFilters)
    as [results|e] eqn:Hres; [|vm_compute in Hres; discriminate Hres].
  pose proof Hrepos as Erepos. vm_compute in Erepos. injection Erepos as Erepos.
  pose proof Hcodes as Ecodes. vm_compute in Ecodes. injection Ecodes as Ecodes.
  destruct codes as [|c codes']; [discriminate Ecodes|].
  destruct repos as [|r repos']; [discriminate Erepos|].
  destruct repos' as [|r2 repos'']; [|discriminate Erepos].
  assert (Hsrc : source c = "octocat/hello") by (injection Ecodes as <- _; reflexivity).
  assert (Hsrc' : source r = "octocat/hello") by (injection Erepos as <-; reflexivity).
  assert (Hstars : stars r = Some 42) by (injection Erepos as <-; reflexivity).
  assert (Hnd : NoDup (source <$> [r])) by apply NoDup_singleton.
  assert (Hne : source c ≠ "") by (rewrite Hsrc; discriminate).
  assert (Hin : r ∈ [r]) by apply list_elem_of_here.
  assert (Hsame : source r = source c) by (by rewrite Hsrc, Hsrc').
  destruct (enrichment_copies_the_values_of_the_repository Runs.enriched "greeting"
              defaultSearchFilters [r] (c :: codes') results O c r
              Hrepos Hcodes Hres Hnd eq_refl Hne Hin Hsame)
    as (merged & Hm & Hst & _).
  exists [r], (c :: codes'), results, c, r, merged.
  repeat (split; [first [reflexivity|assumption]|]). assumption.
Defined.

(** Query [hello]: [torvalds/linux] (200 stars, composite score 12) is
    rendered before [octocat/hello] (100 stars, composite score 26). *)
Lemma rendered_results_not_sorted_by_composite_score :
  ∃ results a b sa sb,
    fetchSearchResults Runs.two_repos "hello" defaultSearchFilters = Normal results ∧
    ResultsList.rendered_results Runs.two_repos results = [a; b] ∧
    score a = Some sa ∧ score b = Some sb ∧ (sa < sb)%Q.
Proof.
  do 5 eexists.
  split; [vm_compute; reflexivity|].
  split; [vm_compute; reflexivity|].
  split; [reflexivity|]. split; [reflexivity|].
  vm_compute. reflexivity.
Defined.

(** The same two repositories are rendered in the order of their repository
    scores, 820 and 420. *)
Lemma rendered_results_run :
  ∃ results,
    fetchSearchResults Runs.two_repos "hello" defaultSearchFilters = Normal results ∧
    Forall (fun r => is_Some (ResultsList.calculateRepoScore Runs.two_repos r)) results ∧
    StronglySorted (repo_score_ge Runs.two_repos)
      (ResultsList.rendered_results Runs.two_repos results) ∧
    id <$> ResultsList.rendered_results Runs.two_repos results = ["repo-2"; "repo-1"].
Proof.
  eexists. split; [vm_compute; reflexivity|].
  match goal with
  | |- Forall ?Q ?l ∧ _ =>
      assert (Hdef : Forall Q l)
        by (repeat constructor; vm_compute; eexists; reflexivity)
  end.
  split; [exact Hdef|].
  split; [exact (proj1 (proj2 (rendered_results_sorted_by_repo_score _ _ Hdef)))|].
  vm_compute. reflexivity.
Defined.

(** The same result with 100 and with 20000 stars. *)
Lemma calculateCombinedScore_monotone_run :
  stars_value (Some 100) ≤ stars_value (Some 20000) ∧
  score_le
    (calculateCombinedScore Runs.offline (with_stars (Some 100) Runs.five_lines) "needle")
    (calculateCombinedScore Runs.offline (with_stars (Some 20000) Runs.five_lines) "needle").
Proof.
  assert (H : stars_value (Some 100) ≤ stars_value (Some 20000)) by (simpl; lia).
  split; [exact H|].
  exact (calculateCombinedScore_monotone_in_stars Runs.offline Runs.five_lines "needle"
           (Some 100) (Some 20000) H).
Defined.

(** * Further properties

    What the code shows beyond the statements above, about the same files
    and the component that calls them. *)

(** ** The windows of the snippet builder *)

Lemma range_nil a b : b < a → range a b = [].
Proof. intros H. unfold range. replace (Z.to_nat (b - a + 1)) with O by lia. done. Qed.

Lemma range_cons a b : a ≤ b → range a b = a :: range (a + 1) b.
Proof.
  intros H. unfold range.
  replace (Z.to_nat (b - a + 1)) with (S (Z.to_nat (b - (a + 1) + 1))) by lia.
  simpl. f_equal; [lia|].
  rewrite <- seq_shift, map_map. apply map_ext. intros k. lia.
Qed.

Lemma range_app a b c :
  a ≤ b + 1 → b ≤ c → range a b ++ range (b + 1) c = range a c.
Proof.
  intros Hab Hbc. unfold range.
  replace (Z.to_nat (c - a + 1)) with (Z.to_nat (b - a + 1) + Z.to_nat (c - (b + 1) + 1))%nat by lia.
  rewrite seq_app, map_app. f_equal. simpl.
  apply list_eq. intros i. rewrite !list_lookup_fmap.
  destruct (decide (i < Z.to_nat (c - (b + 1) + 1))%nat) as [Hi|Hi].
  - rewrite !lookup_seq_lt by done. simpl. f_equal. lia.
  - rewrite !lookup_seq_ge by lia. done.
Qed.

Lemma range_In a b x : a ≤ x ≤ b → x ∈ range a b.
Proof.
  intros H. unfold range. apply list_elem_of_fmap. exists (Z.to_nat (x - a)).
  split; [lia|]. apply elem_of_seq. lia.
Qed.

Lemma range_last a b : a ≤ b → last (range a b) = Some b.
Proof.
  intros H. unfold range.
  replace (Z.to_nat (b - a + 1)) with (Z.to_nat (b - a) + 1)%nat by lia.
  rewrite seq_app, map_app. simpl. rewrite last_snoc. f_equal. lia.
Qed.

Lemma numbers_of_range_last a b :
  a ≤ b → last (map (fun i => i + 1) (range a b)) = Some (b + 1).
Proof.
  intros H. change (last ((fun i => i + 1) <$> range a b) = Some (b + 1)).
  by rewrite fmap_last, range_last.
Qed.

Lemma range_head a b : a ≤ b → range a b !! O = Some a.
Proof. intros H. by rewrite range_cons. Qed.

Lemma numbers_of_range_sorted a b :
  StronglySorted Z.lt (map (fun i => i + 1) (range a b)).
Proof.
  remember (Z.to_nat (b - a + 1)) as n eqn:Hn. revert a Hn.
  induction n as [|n IH]; intros a Hn.
  - rewrite range_nil by lia. constructor.
  - rewrite range_cons by lia. simpl. constructor; [apply IH; lia|].
    apply Forall_forall. intros x Hx.
    apply list_elem_of_fmap in Hx as (i & -> & Hi). apply range_elem in Hi. lia.
Qed.

Lemma StronglySorted_lt_app (l1 l2 : list Z) :
  StronglySorted Z.lt l1 → StronglySorted Z.lt l2 →
  (∀ x y, x ∈ l1 → y ∈ l2 → x < y) →
  StronglySorted Z.lt (l1 ++ l2).
Proof.
  intros H1 H2 H. induction H1 as [|x l1 Hs IH Hx]; simpl; [done|].
  constructor.
  - apply IH. intros a b Ha Hb. apply H; [by right|done].
  - apply Forall_app. split; [done|].
    apply Forall_forall. intros y Hy. apply H; [by left|done].
Qed.

Lemma content_numbers_app l1 l2 :
  content_numbers (l1 ++ l2) = content_numbers l1 ++ content_numbers l2.
Proof. apply filter_app. Qed.

Lemma content_numbers_positive l :
  Forall (fun n => 0 < n) l → content_numbers l = l.
Proof.
  unfold content_numbers. induction 1 as [|n l Hn _ IH]; [done|].
  rewrite filter_cons. destruct (decide _) as [_|Hd]; [by rewrite IH|]. lia.
Qed.

Lemma content_numbers_elem n l : n ∈ content_numbers l ↔ n ≠ -1 ∧ n ∈ l.
Proof. unfold content_numbers. by rewrite list_elem_of_filter. Qed.

(** The first round of the loop: the window of the first match. *)
Lemma snippet_step_first lines m :
  0 ≤ m < Z.of_nat (length lines) →
  let a := Z.max 0 (m - 2) in
  let e := Z.min (Z.of_nat (length lines) - 1) (m + 2) in
  snippet_step lines
    {| snippetLines := []; snippetNumbers := []; lastLineAdded := -1 |} m
  = {| snippetLines := map (line_at lines) (range a e);
       snippetNumbers := map (fun i => i + 1) (range a e);
       lastLineAdded := e |}.
Proof.
  intros Hm a e.
  unfold snippet_step, contextSize, push_lines, set_lastLineAdded. simpl.
  change (-1 + 1) with 0. fold e.
  destruct (Z.leb_spec (Z.max 0 (m - 2)) 0) as [Hle|Hgt]; simpl.
  - replace a with 0 by lia. reflexivity.
  - reflexivity.
Qed.

(** A later round, for the next match in increasing order: the window is
    appended to the last one when the two matches are at most 5 lines apart,
    and follows a separator otherwise. *)
Lemma snippet_step_next lines m0 acc m :
  snippet_order lines m0 acc →
  0 ≤ m0 → m0 < m < Z.of_nat (length lines) →
  let s := Z.max 0 (m - 2) in
  let e := Z.min (Z.of_nat (length lines) - 1) (m + 2) in
  snippet_step lines acc m
  = if m - m0 <=? 5 then
      {| snippetLines := snippetLines acc
                         ++ map (line_at lines) (range (lastLineAdded acc + 1) e);
         snippetNumbers := snippetNumbers acc
                           ++ map (fun i => i + 1) (range (lastLineAdded acc + 1) e);
         lastLineAdded := e |}
    else
      {| snippetLines := (snippetLines acc ++ ["..."])
                         ++ map (line_at lines) (range s e);
         snippetNumbers := (snippetNumbers acc ++ [-1])
                           ++ map (fun i => i + 1) (range s e);
         lastLineAdded := e |}.
Proof.
  intros (Hlen & HL & Hlast & _) Hm0 Hm s e.
  unfold snippet_step, contextSize, push_lines, push_separator, set_lastLineAdded.
  fold s e.
  destruct (Z.leb_spec s (lastLineAdded acc + 1)) as [Hle|Hgt];
    destruct (Z.leb_spec (m - m0) 5) as [Hc|Hf]; try reflexivity; try lia.
  assert (Hne : (0 <? length (snippetLines acc))%nat = true).
  { apply Nat.ltb_lt. rewrite <- Hlen.
    destruct (snippetNumbers acc); [discriminate|simpl; lia]. }
  rewrite Hne. reflexivity.
Qed.

Lemma snippet_order_first lines m :
  0 ≤ m < Z.of_nat (length lines) →
  snippet_order lines m
    (snippet_step lines
       {| snippetLines := []; snippetNumbers := []; lastLineAdded := -1 |} m).
Proof.
  intros Hm. rewrite snippet_step_first by done.
  set (a := Z.max 0 (m - 2)). set (e := Z.min (Z.of_nat (length lines) - 1) (m + 2)).
  unfold snippet_order. simpl.
  split; [by rewrite !length_map|]. split; [done|].
  split.
  { by rewrite numbers_of_range_last by lia. }
  split.
  { rewrite content_numbers_positive by (apply numbers_of_range_positive; lia).
    apply numbers_of_range_sorted. }
  split.
  { apply Forall_forall. intros n Hn.
    apply list_elem_of_fmap in Hn as (i & -> & Hi). apply range_elem in Hi. lia. }
  split.
  { intros i Hi. apply list_elem_of_fmap. exists i. split; [done|]. apply range_In. lia. }
  intros j Hj. apply list_elem_of_lookup_2, list_elem_of_fmap in Hj as (i & Hi & Hr).
  apply range_elem in Hr. lia.
Qed.

Lemma snippet_order_next lines m0 acc m :
  snippet_order lines m0 acc →
  0 ≤ m0 → m0 < m < Z.of_nat (length lines) →
  snippet_order lines m (snippet_step lines acc m).
Proof.
  intros Hord Hm0 Hm. rewrite (snippet_step_next lines m0) by done.
  destruct Hord as (Hlen & HL & Hlast & Hsorted & Hle & Hcover & Hgap).
  set (L := lastLineAdded acc) in *.
  set (s := Z.max 0 (m - 2)). set (e := Z.min (Z.of_nat (length lines) - 1) (m + 2)).
  assert (HLe : L ≤ e) by lia.
  destruct (Z.leb_spec (m - m0) 5) as [Hc|Hf]; unfold snippet_order; simpl.
  - (* the window is appended *)
    split; [by rewrite !length_app, !length_map, Hlen|]. split; [done|].
    split.
    { destruct (decide (L = e)) as [->|Hne].
      - rewrite range_nil by lia. simpl. by rewrite app_nil_r.
      - by rewrite last_app, numbers_of_range_last by lia. }
    split.
    { rewrite content_numbers_app.
      rewrite (content_numbers_positive (map _ _))
        by (apply numbers_of_range_positive; lia).
      apply StronglySorted_lt_app; [done|apply numbers_of_range_sorted|].
      intros x y [_ Hx]%content_numbers_elem Hy.
      apply list_elem_of_fmap in Hy as (i & -> & Hi). apply range_elem in Hi.
      rewrite Forall_forall in Hle. specialize (Hle _ Hx). simpl in Hle. lia. }
    split.
    { apply Forall_app. split.
      - eapply Forall_impl; [exact Hle|]. simpl. intros; lia.
      - apply Forall_forall. intros n Hn.
        apply list_elem_of_fmap in Hn as (i & -> & Hi). apply range_elem in Hi. lia. }
    split.
    { intros i Hi. apply elem_of_app.
      destruct (decide (i ≤ L)) as [HiL|HiL].
      - left. apply Hcover. lia.
      - right. apply list_elem_of_fmap. exists i. split; [done|]. apply range_In. lia. }
    intros j Hj.
    destruct (decide (j < length (snippetNumbers acc))%nat) as [Hlt|Hge].
    + rewrite lookup_app_l in Hj by done.
      destruct (Hgap j Hj) as (a & b & Hj0 & Ha & Hb & Hab).
      exists a, b. split; [done|].
      rewrite !lookup_app_l
        by (first [apply lookup_lt_Some in Hb; lia | lia]).
      done.
    + rewrite lookup_app_r in Hj by lia.
      apply list_elem_of_lookup_2, list_elem_of_fmap in Hj as (i & Hi & Hr).
      apply range_elem in Hr. lia.
  - (* the window follows a separator *)
    assert (Hs : L + 2 ≤ s) by lia.
    split; [by rewrite !length_app, !length_map, Hlen|]. split; [done|].
    split.
    { by rewrite last_app, numbers_of_range_last by lia. }
    split.
    { rewrite !content_numbers_app.
      rewrite (content_numbers_positive (map _ _))
        by (apply numbers_of_range_positive; lia).
      change (content_numbers [-1]) with (@nil Z). rewrite app_nil_r.
      apply StronglySorted_lt_app; [done|apply numbers_of_range_sorted|].
      intros x y [_ Hx]%content_numbers_elem Hy.
      apply list_elem_of_fmap in Hy as (i & -> & Hi). apply range_elem in Hi.
      rewrite Forall_forall in Hle. specialize (Hle _ Hx). simpl in Hle. lia. }
    split.
    { repeat (apply Forall_app; split).
      - eapply Forall_impl; [exact Hle|]. simpl. intros; lia.
      - repeat constructor. lia.
      - apply Forall_forall. intros n Hn.
        apply list_elem_of_fmap in Hn as (i & -> & Hi). apply range_elem in Hi. lia. }
    split.
    { intros i Hi. apply elem_of_app. right.
      apply list_elem_of_fmap. exists i. split; [done|]. apply range_In. lia. }
    intros j Hj. rewrite <- app_assoc in Hj |- *.
    destruct (decide (j < length (snippetNumbers acc))%nat) as [Hlt|Hge].
    + rewrite lookup_app_l in Hj by done.
      destruct (Hgap j Hj) as (a & b & Hj0 & Ha & Hb & Hab).
      exists a, b. split; [done|].
      rewrite !lookup_app_l
        by (first [apply lookup_lt_Some in Hb; lia | lia]).
      done.
    + rewrite lookup_app_r in Hj by lia.
      destruct (j - length (snippetNumbers acc))%nat as [|k] eqn:Hk.
      * assert (j = length (snippetNumbers acc)) as -> by lia.
        assert (Hpos : (0 < length (snippetNumbers acc))%nat).
        { destruct (snippetNumbers acc); [discriminate|simpl; lia]. }
        exists (L + 1), (s + 1). split; [done|].
        split.
        { rewrite lookup_app_l by lia. rewrite <- Hlast, last_lookup.
          f_equal. lia. }
        split.
        { rewrite lookup_app_r by lia.
          replace (S (length (snippetNumbers acc)) - length (snippetNumbers acc))%nat
            with 1%nat by lia.
          simpl. rewrite list_lookup_fmap, range_head by lia. done. }
        lia.
      * simpl in Hj.
        apply list_elem_of_lookup_2, list_elem_of_fmap in Hj as (i & Hi & Hr).
        apply range_elem in Hr. lia.
Qed.

Lemma matching_lines_sorted P re lines idx :
  StronglySorted Z.lt (matching_lines P re lines idx).
Proof.
  revert idx. induction lines as [|l lines IH]; intros idx; simpl; [constructor|].
  destruct (fst (test re l O)); [|apply IH].
  constructor; [apply IH|]. apply Forall_forall. intros m Hm.
  apply matching_lines_bounds in Hm. lia.
Qed.

(** The rounds after the first, for matches in increasing order. *)
Lemma snippet_order_fold lines ms : ∀ m0 acc,
  snippet_order lines m0 acc →
  0 ≤ m0 →
  StronglySorted Z.lt (m0 :: ms) →
  Forall (fun m => m < Z.of_nat (length lines)) ms →
  let acc' := fold_left (snippet_step lines) ms acc in
  (∃ m', snippet_order lines m' acc') ∧
  (∃ more, snippetNumbers acc' = snippetNumbers acc ++ more) ∧
  (∀ m, m ∈ ms → m + 1 ∈ snippetNumbers acc') ∧
  count_separators (snippetNumbers acc')
  = (count_separators (snippetNumbers acc) + far_pairs (m0 :: ms))%nat.
Proof.
  induction ms as [|m ms IH]; intros m0 acc Hord Hm0 Hsorted Hlt acc'.
  - subst acc'. simpl. split; [by exists m0|]. split; [by exists []; rewrite app_nil_r|].
    split; [by intros ? ?%elem_of_nil|lia].
  - apply StronglySorted_inv in Hsorted as [Hsorted Hall].
    apply Forall_cons in Hall as [Hm0m _]. apply Forall_cons in Hlt as [Hm Hlt].
    pose proof (snippet_order_next lines m0 acc m Hord Hm0 (conj Hm0m Hm)) as Hord'.
    pose proof (snippet_step_next lines m0 acc m Hord Hm0 (conj Hm0m Hm)) as Hstep.
    simpl in Hstep.
    destruct (IH m (snippet_step lines acc m) Hord' ltac:(lia) Hsorted Hlt)
      as (Hfinal & (more & Hmore) & Hin & Hcount).
    subst acc'. simpl fold_left.
    assert (Hpre : ∃ more1, snippetNumbers (snippet_step lines acc m)
                            = snippetNumbers acc ++ more1 ∧
                            count_separators more1
                            = if 5 <? m - m0 then 1%nat else O).
    { rewrite Hstep. destruct (Z.leb_spec (m - m0) 5) as [Hc|Hf]; simpl.
      - eexists. split; [reflexivity|].
        destruct (Z.ltb_spec 5 (m - m0)); [lia|].
        destruct Hord as (_ & HL & _).
        apply count_separators_positive, numbers_of_range_positive. lia.
      - eexists. split; [by rewrite <- app_assoc|].
        destruct (Z.ltb_spec 5 (m - m0)); [|lia].
        rewrite count_separators_app.
        rewrite (count_separators_positive (map _ _))
          by (apply numbers_of_range_positive; lia).
        reflexivity. }
    destruct Hpre as (more1 & Hmore1 & Hcount1).
    split; [exact Hfinal|].
    split; [exists (more1 ++ more); by rewrite Hmore, Hmore1, app_assoc|].
    split.
    { intros x [->|Hx]%elem_of_cons; [|by apply Hin].
      rewrite Hmore. apply elem_of_app. left.
      destruct Hord' as (_ & HL' & _ & _ & _ & Hcover & _).
      apply Hcover. lia. }
    rewrite Hcount, Hmore1, count_separators_app, Hcount1.
    simpl far_pairs. destruct ms as [|m' ms']; destruct (5 <? m - m0); simpl; lia.
Qed.

(** The whole loop, for matches in increasing order. *)
Lemma build_snippet_order lines m ms :
  0 ≤ m →
  StronglySorted Z.lt (m :: ms) →
  Forall (fun m => m < Z.of_nat (length lines)) (m :: ms) →
  let acc := build_snippet lines (m :: ms) in
  (∃ m', snippet_order lines m' acc) ∧
  (∀ x, x ∈ m :: ms → x + 1 ∈ snippetNumbers acc) ∧
  count_separators (snippetNumbers acc) = far_pairs (m :: ms).
Proof.
  intros Hm Hsorted Hlt acc.
  apply Forall_cons in Hlt as [Hmlt Hlt].
  pose proof (snippet_order_first lines m (conj Hm Hmlt)) as Hfirst.
  destruct (snippet_order_fold lines ms m _ Hfirst Hm Hsorted Hlt)
    as (Hfinal & (more & Hmore) & Hin & Hcount).
  split; [exact Hfinal|]. split.
  - intros x [->|Hx]%elem_of_cons; [|by apply Hin].
    unfold acc, build_snippet. simpl. rewrite Hmore. apply elem_of_app. left.
    destruct Hfirst as (_ & HL & _ & _ & _ & Hcover & _). apply Hcover. lia.
  - unfold acc, build_snippet. simpl fold_left. rewrite Hcount.
    rewrite snippet_step_first by done. simpl snippetNumbers.
    rewrite count_separators_positive by (apply numbers_of_range_positive; lia).
    reflexivity.
Qed.

(** The result built from a file in which some line matches. *)
Lemma matched_snippet_of_item P query item statusText content re :
  get_contents (network P) (contents_url item)
  = Fulfilled 200 statusText (Text content) →
  RegExp_new (engine P) (queryRegex_source query) "i" = Normal re →
  matching_lines P re (split_lines content) 0 ≠ [] →
  let acc := build_snippet (split_lines content)
               (matching_lines P re (split_lines content) 0) in
  ∃ r, code_snippet_of_item P query item = Normal r ∧
       snippet r = Some (join (String newline "") (snippetLines acc)) ∧
       lineNumbers r = Some (snippetNumbers acc) ∧
       split_lines (join (String newline "") (snippetLines acc)) = snippetLines acc.
Proof.
  intros Hget Hre Hms acc. subst acc.
  unfold code_snippet_of_item. rewrite Hget. simpl. rewrite Hre. simpl.
  destruct (matching_lines P re (split_lines content) 0) as [|m ms] eqn:Hml; [done|].
  simpl.
  assert (Hbounds : Forall (fun m => 0 ≤ m) (m :: ms)).
  { apply Forall_forall. intros x Hx. rewrite <- Hml in Hx.
    apply matching_lines_bounds in Hx. lia. }
  assert (Hm : 0 ≤ m < Z.of_nat (length (split_lines content))).
  { assert (Hin : m ∈ matching_lines P re (split_lines content) 0)
      by (rewrite Hml; constructor).
    apply matching_lines_bounds in Hin. lia. }
  destruct (build_snippet_invariant (split_lines content) (m :: ms)
              (split_char_pieces _ _) Hbounds) as (Hlen & Hnl & _ & Hsep).
  pose proof (build_snippet_nonempty (split_lines content) m ms Hm) as Hne.
  eexists. split; [reflexivity|]. simpl.
  split; [reflexivity|]. split; [reflexivity|].
  by rewrite split_lines_join.
Qed.

Lemma matching_lines_order P re lines :
  matching_lines P re lines 0 ≠ [] →
  ∃ m ms, matching_lines P re lines 0 = m :: ms ∧ 0 ≤ m ∧
          StronglySorted Z.lt (m :: ms) ∧
          Forall (fun m => m < Z.of_nat (length lines)) (m :: ms).
Proof.
  intros Hne. pose proof (matching_lines_sorted P re lines 0) as Hs.
  assert (Hb : Forall (fun m => 0 ≤ m < Z.of_nat (length lines))
                 (matching_lines P re lines 0)).
  { apply Forall_forall. intros x Hx. apply matching_lines_bounds in Hx. lia. }
  destruct (matching_lines P re lines 0) as [|m ms]; [done|].
  exists m, ms. split; [done|]. split; [apply Forall_cons in Hb as [? _]; lia|].
  split; [done|]. eapply Forall_impl; [exact Hb|]. simpl. intros; lia.
Qed.

(** X1.  In the snippet built from a file in which some line matches, the
    line numbers increase strictly from top to bottom (the separator
    entries [-1] apart), and the number of every matching line of the file
    is among them: no matching line is left out or shown twice. *)
Theorem snippet_numbers_increase_and_cover P query item statusText content re :
  get_contents (network P) (contents_url item)
  = Fulfilled 200 statusText (Text content) →
  RegExp_new (engine P) (queryRegex_source query) "i" = Normal re →
  matching_lines P re (split_lines content) 0 ≠ [] →
  ∃ r numbers,
    code_snippet_of_item P query item = Normal r ∧
    lineNumbers r = Some numbers ∧
    StronglySorted Z.lt (content_numbers numbers) ∧
    ∀ m, m ∈ matching_lines P re (split_lines content) 0 → m + 1 ∈ numbers.
Proof.
  intros Hget Hre Hms.
  destruct (matched_snippet_of_item P query item statusText content re Hget Hre Hms)
    as (r & Hr & _ & Hnum & _).
  destruct (matching_lines_order P re _ Hms) as (m & ms & Heq & Hm & Hsorted & Hlt).
  rewrite Heq in Hnum.
  destruct (build_snippet_order _ m ms Hm Hsorted Hlt) as ((m' & Hord) & Hin & _).
  exists r, (snippetNumbers (build_snippet (split_lines content) (m :: ms))).
  split; [done|]. split; [done|]. split.
  - by destruct Hord as (_ & _ & _ & Hs & _).
  - rewrite Heq. exact Hin.
Qed.

(** X2.  In the [lineNumbers] of such a snippet an entry [-1] is never the
    first or the last one: it stands between the numbers of two lines of the
    file, and these differ by 2 at least, so that a separator always stands
    for lines that were left out. *)
Theorem snippet_separator_marks_a_gap P query item statusText content re :
  get_contents (network P) (contents_url item)
  = Fulfilled 200 statusText (Text content) →
  RegExp_new (engine P) (queryRegex_source query) "i" = Normal re →
  matching_lines P re (split_lines content) 0 ≠ [] →
  ∃ r numbers,
    code_snippet_of_item P query item = Normal r ∧
    lineNumbers r = Some numbers ∧
    ∀ j, numbers !! j = Some (-1) →
         ∃ a b, (0 < j)%nat ∧ numbers !! (j - 1)%nat = Some a ∧
                numbers !! S j = Some b ∧ 1 ≤ a ∧ a + 2 ≤ b.
Proof.
  intros Hget Hre Hms.
  destruct (matched_snippet_of_item P query item statusText content re Hget Hre Hms)
    as (r & Hr & _ & Hnum & _).
  destruct (matching_lines_order P re _ Hms) as (m & ms & Heq & Hm & Hsorted & Hlt).
  rewrite Heq in Hnum.
  destruct (build_snippet_order _ m ms Hm Hsorted Hlt) as ((m' & Hord) & _ & _).
  exists r, (snippetNumbers (build_snippet (split_lines content) (m :: ms))).
  split; [done|]. split; [done|].
  by destruct Hord as (_ & _ & _ & _ & _ & _ & Hgap).
Qed.

(** X3.  The snippet has as many separators as there are pairs of
    consecutive matching lines more than 5 lines apart: the windows of two
    matches at most 5 lines apart are merged, those of two matches further
    apart are separated. *)
Theorem snippet_separator_count P query item statusText content re :
  get_contents (network P) (contents_url item)
  = Fulfilled 200 statusText (Text content) →
  RegExp_new (engine P) (queryRegex_source query) "i" = Normal re →
  matching_lines P re (split_lines content) 0 ≠ [] →
  ∃ r numbers,
    code_snippet_of_item P query item = Normal r ∧
    lineNumbers r = Some numbers ∧
    count_separators numbers
    = far_pairs (matching_lines P re (split_lines content) 0).
Proof.
  intros Hget Hre Hms.
  destruct (matched_snippet_of_item P query item statusText content re Hget Hre Hms)
    as (r & Hr & _ & Hnum & _).
  destruct (matching_lines_order P re _ Hms) as (m & ms & Heq & Hm & Hsorted & Hlt).
  rewrite Heq in Hnum |- *.
  destruct (build_snippet_order _ m ms Hm Hsorted Hlt) as (_ & _ & Hcount).
  eexists r, _. split; [done|]. split; [done|]. exact Hcount.
Qed.

Lemma range_lookup a b k :
  (k < Z.to_nat (b - a + 1))%nat → range a b !! k = Some (a + Z.of_nat k).
Proof.
  intros Hk. unfold range.
  change (((fun k => a + Z.of_nat k) <$> seq 0 (Z.to_nat (b - a + 1))) !! k
          = Some (a + Z.of_nat k)).
  by rewrite list_lookup_fmap, lookup_seq_lt.
Qed.

Lemma line_at_lookup lines i :
  0 ≤ i < Z.of_nat (length lines) →
  Some (line_at lines i) = lines !! Z.to_nat i.
Proof.
  intros Hi. unfold line_at. destruct (Z.ltb_spec i 0); [lia|].
  destruct (lookup_lt_is_Some_2 lines (Z.to_nat i)) as [l Hl]; [lia|].
  by rewrite Hl.
Qed.

Lemma push_lines_content lines a b acc :
  0 ≤ a → b < Z.of_nat (length lines) →
  snippet_content lines acc → snippet_content lines (push_lines lines a b acc).
Proof.
  intros Ha Hb (Hlen & Hlast & Hc). unfold snippet_content, push_lines. simpl.
  split; [by rewrite !length_app, !length_map, Hlen|]. split; [done|].
  intros j n Hj Hn.
  destruct (decide (j < length (snippetNumbers acc))%nat) as [Hlt|Hge].
  - rewrite lookup_app_l in Hj by done. rewrite lookup_app_l by lia. by apply Hc.
  - rewrite lookup_app_r in Hj by lia. rewrite lookup_app_r by lia.
    rewrite <- Hlen.
    change (((fun i => i + 1) <$> range a b) !! (j - length (snippetNumbers acc))%nat
            = Some n) in Hj.
    rewrite list_lookup_fmap in Hj.
    destruct (range a b !! (j - length (snippetNumbers acc))%nat) as [i|] eqn:Hi;
      [|discriminate].
    simpl in Hj. injection Hj as <-.
    pose proof (list_elem_of_lookup_2 _ _ _ Hi) as Hr. apply range_elem in Hr.
    split; [lia|].
    change ((line_at lines <$> range a b) !! (j - length (snippetNumbers acc))%nat
            = lines !! Z.to_nat (i + 1 - 1)).
    rewrite list_lookup_fmap, Hi. simpl.
    replace (i + 1 - 1) with i by lia. apply line_at_lookup. lia.
Qed.

Lemma push_separator_content lines acc :
  snippet_content lines acc → snippet_content lines (push_separator acc).
Proof.
  intros (Hlen & Hlast & Hc). unfold snippet_content, push_separator. simpl.
  split; [by rewrite !length_app, Hlen|]. split; [done|].
  intros j n Hj Hn.
  destruct (decide (j < length (snippetNumbers acc))%nat) as [Hlt|Hge].
  - rewrite lookup_app_l in Hj by done. rewrite lookup_app_l by lia. by apply Hc.
  - rewrite lookup_app_r in Hj by lia.
    destruct (j - length (snippetNumbers acc))%nat as [|k]; simpl in Hj;
      [by injection Hj as <-|].
    by destruct k.
Qed.

Lemma snippet_step_content lines acc m :
  0 ≤ m →
  snippet_content lines acc → snippet_content lines (snippet_step lines acc m).
Proof.
  intros Hm Hacc.
  assert (Hset : ∀ e acc', -1 ≤ e → snippet_content lines acc' →
                            snippet_content lines (set_lastLineAdded e acc')).
  { intros e acc' He (H1 & _ & H3). unfold snippet_content. simpl.
    split; [exact H1|]. split; [exact He|exact H3]. }
  unfold snippet_step, contextSize.
  destruct (_ <=? _).
  - apply Hset; [lia|]. apply push_lines_content; [|lia|done].
    destruct Hacc as (_ & Hlast & _). lia.
  - apply Hset; [lia|]. apply push_lines_content; [lia|lia|].
    destruct (0 <? _)%nat; [by apply push_separator_content|done].
Qed.

Lemma build_snippet_content lines ms :
  Forall (fun m => 0 ≤ m) ms →
  snippet_content lines (build_snippet lines ms).
Proof.
  intros Hms. unfold build_snippet.
  assert (H : ∀ acc, snippet_content lines acc →
                     snippet_content lines (fold_left (snippet_step lines) ms acc)).
  { induction Hms as [|m ms Hm _ IH]; intros acc Hacc; [done|].
    simpl. apply IH. by apply snippet_step_content. }
  apply H. unfold snippet_content. simpl. split; [done|]. split; [lia|].
  intros j n Hj. by rewrite lookup_nil in Hj.
Qed.

(** X4.  Every entry of [lineNumbers] other than [-1] is the number of a
    line of the file, and the snippet line at its place is that line of the
    file. *)
Theorem snippet_lines_are_the_numbered_file_lines
    P query item statusText content re :
  get_contents (network P) (contents_url item)
  = Fulfilled 200 statusText (Text content) →
  RegExp_new (engine P) (queryRegex_source query) "i" = Normal re →
  matching_lines P re (split_lines content) 0 ≠ [] →
  ∃ r sn numbers,
    code_snippet_of_item P query item = Normal r ∧
    snippet r = Some sn ∧
    lineNumbers r = Some numbers ∧
    ∀ j n, numbers !! j = Some n → n ≠ -1 →
           1 ≤ n ≤ Z.of_nat (length (split_lines content)) ∧
           split_lines sn !! j = split_lines content !! Z.to_nat (n - 1).
Proof.
  intros Hget Hre Hms.
  destruct (matched_snippet_of_item P query item statusText content re Hget Hre Hms)
    as (r & Hr & Hsn & Hnum & Hsplit).
  exists r. do 2 eexists. split; [done|]. split; [done|]. split; [done|].
  rewrite Hsplit.
  assert (Hb : Forall (fun m => 0 ≤ m) (matching_lines P re (split_lines content) 0)).
  { apply Forall_forall. intros x Hx. apply matching_lines_bounds in Hx. lia. }
  by destruct (build_snippet_content (split_lines content) _ Hb) as (_ & _ & Hc).
Qed.

Lemma lines_of_range lines a e :
  0 ≤ a → e < Z.of_nat (length lines) →
  map (line_at lines) (range a e)
  = take (Z.to_nat (e - a + 1)) (drop (Z.to_nat a) lines).
Proof.
  intros Ha He. apply list_eq. intros i.
  change ((line_at lines <$> range a e) !! i
          = take (Z.to_nat (e - a + 1)) (drop (Z.to_nat a) lines) !! i).
  rewrite list_lookup_fmap.
  destruct (decide (i < Z.to_nat (e - a + 1))%nat) as [Hi|Hi].
  - rewrite range_lookup by done. simpl.
    rewrite lookup_take_lt by done. rewrite lookup_drop.
    rewrite line_at_lookup by lia. f_equal. lia.
  - rewrite lookup_take_ge by lia.
    rewrite (lookup_ge_None_2 (range a e)) by (rewrite range_length; lia). done.
Qed.

(** X5.  When exactly one line of the file matches, the snippet is that line
    with the two lines before it and the two lines after it, as far as the
    file has them, numbered as in the file and without separator. *)
Theorem snippet_of_a_single_match P query item statusText content re k :
  get_contents (network P) (contents_url item)
  = Fulfilled 200 statusText (Text content) →
  RegExp_new (engine P) (queryRegex_source query) "i" = Normal re →
  matching_lines P re (split_lines content) 0 = [k] →
  let lines := split_lines content in
  let first := Z.max 0 (k - 2) in
  let last := Z.min (Z.of_nat (length lines) - 1) (k + 2) in
  ∃ r sn,
    code_snippet_of_item P query item = Normal r ∧
    snippet r = Some sn ∧
    lineNumbers r = Some (map (fun i => i + 1) (range first last)) ∧
    split_lines sn = take (Z.to_nat (last - first + 1)) (drop (Z.to_nat first) lines) ∧
    first ≤ k ≤ last.
Proof.
  intros Hget Hre Hms lines first last.
  assert (Hk : 0 ≤ k < Z.of_nat (length (split_lines content))).
  { assert (Hin : k ∈ matching_lines P re (split_lines content) 0)
      by (rewrite Hms; constructor).
    apply matching_lines_bounds in Hin. lia. }
  destruct (matched_snippet_of_item P query item statusText content re Hget Hre)
    as (r & Hr & Hsn & Hnum & Hsplit); [by rewrite Hms|].
  rewrite Hms in Hsn, Hnum, Hsplit.
  unfold build_snippet in Hsn, Hnum, Hsplit. simpl fold_left in Hsn, Hnum, Hsplit.
  rewrite snippet_step_first in Hsn, Hnum, Hsplit by exact Hk.
  simpl in Hsn, Hnum, Hsplit.
  exists r. eexists. split; [done|]. split; [exact Hsn|]. split; [exact Hnum|].
  split; [|subst first last lines; lia].
  rewrite Hsplit. apply lines_of_range; subst first last lines; lia.
Qed.

Lemma split_char_nonempty c s : split_char c s ≠ [].
Proof.
  destruct s as [|d s]; simpl; [done|].
  destruct (Ascii.eqb d c); [done|]. by destruct (split_char c s).
Qed.

(** X6.  When no line of the file matches, the snippet is the first ten
    lines of the file, or the whole file when it is shorter, and
    [lineNumbers] is 1 to 10 whatever the file: the two have the same
    length exactly when the file has ten lines or more. *)
Theorem fallback_snippet_of_a_file_without_match
    P query item statusText content re :
  get_contents (network P) (contents_url item)
  = Fulfilled 200 statusText (Text content) →
  RegExp_new (engine P) (queryRegex_source query) "i" = Normal re →
  matching_lines P re (split_lines content) 0 = [] →
  ∃ r sn,
    code_snippet_of_item P query item = Normal r ∧
    snippet r = Some sn ∧
    split_lines sn = take 10 (split_lines content) ∧
    lineNumbers r = Some [1; 2; 3; 4; 5; 6; 7; 8; 9; 10] ∧
    (length (split_lines sn) = 10%nat ↔ (10 ≤ length (split_lines content))%nat).
Proof.
  intros Hget Hre Hms.
  unfold code_snippet_of_item. rewrite Hget. simpl. rewrite Hre. simpl.
  rewrite Hms. simpl.
  assert (Hsplit : split_lines (join (String newline "") (take 10 (split_lines content)))
                   = take 10 (split_lines content)).
  { apply split_lines_join.
    - pose proof (split_char_nonempty newline content) as Hne.
      unfold split_lines. destruct (split_char newline content); done.
    - apply Forall_take, split_char_pieces. }
  do 2 eexists. split; [reflexivity|]. simpl. split; [reflexivity|].
  split; [exact Hsplit|]. split; [reflexivity|].
  rewrite Hsplit, length_take. lia.
Qed.

(** ** Rendering a snippet line by line *)

Section Rendering.

Context (P : Platform) (opts : ResultsList.SearchOptions).
Context (re : RegExp (engine P)) (numbers : list Z).
Hypothesis global : re_global re = true.

Lemma test_hit_matches s lastIndex e :
  test re s lastIndex = (true, e) → matches re s = true.
Proof.
  intros Ht. destruct (matches re s) eqn:Hm; [done|].
  rewrite (test_global_no_match _ re s lastIndex global Hm) in Ht. done.
Qed.

Lemma process_lines_by_match lines idx :
  ResultsList.process_lines P opts (Some re) numbers lines idx O
  = (rows_by_match (ResultsList.highlightMatchesOnly opts) re numbers lines idx, O).
Proof.
  revert idx. induction lines as [|l0 lines IH]; intros idx; [reflexivity|].
  simpl. unfold ResultsList.process_line.
  destruct (ResultsList.is_separator numbers idx) eqn:Hsep.
  - rewrite IH. reflexivity.
  - destruct (matches re l0) eqn:Hm.
    + destruct (test_global_match _ re l0 global Hm) as [e He].
      rewrite He. rewrite andb_false_r. rewrite IH. reflexivity.
    + rewrite (test_global_no_match _ re l0 O global Hm). rewrite andb_true_r.
      destruct (ResultsList.highlightMatchesOnly opts); rewrite IH; reflexivity.
Qed.

(** The count of matching lines, from any [lastIndex]: never more than the
    flagged rows, and at least every other one of them. *)
Lemma count_matches_bounds b lines idx lastIndex :
  let n := fst (ResultsList.count_matches P re numbers lines idx lastIndex) in
  let m := flagged_rows (rows_by_match b re numbers lines idx) in
  (n ≤ m ∧ m ≤ 2 * n + (if lastIndex is O then 0 else 1))%nat.
Proof.
  unfold flagged_rows.
  revert idx lastIndex. induction lines as [|l0 lines IH]; intros idx li; simpl.
  { destruct li; lia. }
  destruct (ResultsList.is_separator numbers idx) eqn:Hsep.
  - specialize (IH (S idx) li). simpl in IH |- *. exact IH.
  - destruct (matches re l0) eqn:Hm.
    + simpl.
      destruct (test re l0 li) as [hit e] eqn:Ht.
      destruct hit.
      * specialize (IH (S idx) e). simpl in IH.
        destruct (ResultsList.count_matches P re numbers lines (S idx) e) as [n li'].
        simpl in *. destruct e, li; lia.
      * assert (Hli : li ≠ O).
        { intros ->. destruct (test_global_match _ re l0 global Hm) as [e' He'].
          congruence. }
        assert (e = O) as ->.
        { unfold test in Ht. rewrite global in Ht.
          destruct (exec_from _ _ _ _) as [[? ?]|]; congruence. }
        specialize (IH (S idx) O). simpl in IH.
        destruct (ResultsList.count_matches P re numbers lines (S idx) O) as [n li'].
        simpl in *. destruct li; [done|lia].
    + rewrite (test_global_no_match _ re l0 li global Hm).
      specialize (IH (S idx) O). simpl in IH.
      destruct (ResultsList.count_matches P re numbers lines (S idx) O) as [n li'].
      simpl in *.
      destruct b; simpl; destruct li; lia.
Qed.

Lemma inline_lines_by_match lines idx :
  ResultsList.inline_lines P re lines idx O = lines_by_match re lines idx.
Proof.
  revert idx. induction lines as [|l0 lines IH]; intros idx; [reflexivity|].
  simpl. unfold ResultsList.inline_line.
  destruct (matches re l0) eqn:Hm.
  - destruct (test_global_match _ re l0 global Hm) as [e He].
    rewrite He. simpl. by rewrite IH.
  - rewrite (test_global_no_match _ re l0 O global Hm). simpl. apply IH.
Qed.

End Rendering.

(** X7.  The rows of a snippet with line numbers are decided line by line,
    although all the lines are tested with one global [RegExp]: a separator
    entry gives a divider, a content line is flagged and marked up exactly
    when it has a match, and a content line without match is left out in
    match-only mode and shown unchanged otherwise. *)
Theorem numbered_view_is_decided_line_by_line
    P opts result query codeContent numbers re :
  snippet result = Some codeContent →
  truthy codeContent = true →
  lineNumbers result = Some numbers →
  numbers ≠ [] →
  ResultsList.createSearchRegex P opts query = Normal (Some re) →
  ∃ matchCount,
    ResultsList.getEnhancedCodeSnippet P opts result query
    = Normal (Some (ResultsList.NumberedView
        (rows_by_match (ResultsList.highlightMatchesOnly opts) re numbers
           (split_lines codeContent) O)
        matchCount)).
Proof.
  intros Hsn Hc Hln Hne Hre.
  pose proof (createSearchRegex_global _ _ _ _ Hre) as Hg.
  unfold ResultsList.getEnhancedCodeSnippet.
  rewrite Hsn, Hc, Hln, Hre. simpl.
  destruct numbers as [|n0 numbers']; [done|]. simpl.
  rewrite (process_lines_by_match P opts re (n0 :: numbers') Hg).
  by eexists.
Qed.

(** X8.  The match count shown with a numbered snippet is at most the number
    of highlighted rows and at least half of it.  (It is computed by a
    second pass that does not reset [lastIndex], so that a matching line
    which follows a counted one can be missed.) *)
Theorem match_count_against_highlighted_rows
    P opts result query codeContent numbers re :
  snippet result = Some codeContent →
  truthy codeContent = true →
  lineNumbers result = Some numbers →
  numbers ≠ [] →
  ResultsList.createSearchRegex P opts query = Normal (Some re) →
  ∃ rows matchCount,
    ResultsList.getEnhancedCodeSnippet P opts result query
    = Normal (Some (ResultsList.NumberedView rows matchCount)) ∧
    (matchCount ≤ flagged_rows rows ≤ 2 * matchCount)%nat.
Proof.
  intros Hsn Hc Hln Hne Hre.
  pose proof (createSearchRegex_global _ _ _ _ Hre) as Hg.
  unfold ResultsList.getEnhancedCodeSnippet.
  rewrite Hsn, Hc, Hln, Hre. simpl.
  destruct numbers as [|n0 numbers']; [done|]. simpl.
  rewrite (process_lines_by_match P opts re (n0 :: numbers') Hg).
  do 2 eexists. split; [reflexivity|].
  pose proof (count_matches_bounds P re (n0 :: numbers') Hg
                (ResultsList.highlightMatchesOnly opts) (split_lines codeContent) O O) as H.
  simpl in H. lia.
Qed.

(** X9.  For a snippet without line numbers in match-only mode, the view
    holds exactly the lines that have a match, in order, each with its
    index and its matches marked; without any such line it is the notice
    that no line matches. *)
Theorem inline_view_shows_the_matching_lines P opts result query codeContent re :
  snippet result = Some codeContent →
  truthy codeContent = true →
  default [] (lineNumbers result) = [] →
  ResultsList.createSearchRegex P opts query = Normal (Some re) →
  ResultsList.highlightMatchesOnly opts = true →
  let rows := lines_by_match re (split_lines codeContent) O in
  ResultsList.getEnhancedCodeSnippet P opts result query
  = Normal (Some (ResultsList.InlineView
      (if rows is [] then ResultsList.NoMatchingLines
       else ResultsList.MatchingLines rows))).
Proof.
  intros Hsn Hc Hln Hre Honly rows.
  pose proof (createSearchRegex_global _ _ _ _ Hre) as Hg.
  unfold ResultsList.getEnhancedCodeSnippet.
  rewrite Hsn, Hc, Hln, Hre. simpl. rewrite Honly.
  rewrite (inline_lines_by_match P re Hg). fold rows.
  by destruct rows.
Qed.

(** ** What the fetchers throw, and what the merge returns *)

Lemma prefix_app (p s : string) : String.prefix p (p +:+ s) = true.
Proof.
  induction p as [|c p IH]; simpl; [by destruct s|].
  destruct (ascii_dec c c); [exact IH|done].
Qed.

Lemma search_error_message e0 :
  ∃ m, search_error e0 = Error m ∧ truthy m = true ∧
       (m ∈ fixed_failure_messages
        ∨ String.prefix "GitHub API error (" m = true
        ∨ String.prefix "Search failed: " m = true).
Proof.
  unfold fixed_failure_messages.
  assert (Hfailed : ∀ m, ∃ m', Error ("Search failed: " +:+ m) = Error m' ∧ truthy m' = true ∧
            (m' ∈ fixed_failure_messages
             ∨ String.prefix "GitHub API error (" m' = true
             ∨ String.prefix "Search failed: " m' = true)).
  { intros m. eexists. split; [reflexivity|]. split; [reflexivity|].
    right. right. apply prefix_app. }
  assert (Hfixed : ∀ m, truthy m = true → m ∈ fixed_failure_messages →
            ∃ m', Error m = Error m' ∧ truthy m' = true ∧
            (m' ∈ fixed_failure_messages
             ∨ String.prefix "GitHub API error (" m' = true
             ∨ String.prefix "Search failed: " m' = true)).
  { intros m Ht Hm. exists m. by repeat split; [|left]. }
  assert (Hstatus : ∀ status dm m,
            ∃ m', (if status =? 401 then
                     Error "GitHub API authentication failed. Please check your API token."
                   else if status =? 403 then
                     Error "GitHub API rate limit exceeded. Please try again later."
                   else if status =? 422 then
                     Error "Invalid search query. Please check your search terms."
                   else
                     Error ("GitHub API error (" +:+ pretty status +:+ "): "
                            +:+ or_else dm m)) = Error m' ∧ truthy m' = true ∧
            (m' ∈ fixed_failure_messages
             ∨ String.prefix "GitHub API error (" m' = true
             ∨ String.prefix "Search failed: " m' = true)).
  { intros status dm m.
    destruct (status =? 401);
      [apply Hfixed; [reflexivity|unfold fixed_failure_messages; repeat constructor]|].
    destruct (status =? 403);
      [apply Hfixed; [reflexivity|unfold fixed_failure_messages; repeat constructor]|].
    destruct (status =? 422);
      [apply Hfixed; [reflexivity|unfold fixed_failure_messages; repeat constructor]|].
    eexists. split; [reflexivity|]. split; [reflexivity|].
    right. left. apply prefix_app. }
  destruct e0 as [m|m|[[status dm]|] [c|] m]; simpl;
    try apply Hfailed; try apply Hstatus.
  destruct (String.eqb c "ENOTFOUND" || String.eqb c "ECONNREFUSED"); [|apply Hfailed].
  apply Hfixed; [reflexivity|unfold fixed_failure_messages; repeat constructor].
Qed.

(** X10.  A blank query makes both fetchers throw the [Error] "Search
    failed: Search query cannot be empty", whatever the network answers.
    Whatever [fetchGitHubRepositories] or [fetchGitHubCodeSnippets] throws
    is an [Error] with a non-empty message: one of the four fixed sentences
    (authentication, rate limit, invalid query, network), or a message that
    starts with "GitHub API error (" or with "Search failed: ". *)
Theorem fetchers_throw_search_errors P query filters :
  (truthy (trim query) = false →
   fetchGitHubRepositories P query filters
   = Throw (Error "Search failed: Search query cannot be empty") ∧
   fetchGitHubCodeSnippets P query filters
   = Throw (Error "Search failed: Search query cannot be empty")) ∧
  ∀ e,
    fetchGitHubRepositories P query filters = Throw e
    ∨ fetchGitHubCodeSnippets P query filters = Throw e →
    ∃ m, e = Error m ∧ truthy m = true ∧
         (m ∈ fixed_failure_messages
          ∨ String.prefix "GitHub API error (" m = true
          ∨ String.prefix "Search failed: " m = true).
Proof.
  split.
  - intros Hq. unfold fetchGitHubRepositories, fetchGitHubCodeSnippets.
    rewrite Hq. split; reflexivity.
  - intros e [H|H].
    + apply fetchGitHubRepositories_throws in H as [e0 ->]. apply search_error_message.
    + apply fetchGitHubCodeSnippets_throws in H as [e0 ->]. apply search_error_message.
Qed.

(** X11.  For a non-blank query, when one of the two searches fails and the
    other returns no result, [fetchSearchResults] rejects with "Search
    failed: " followed by the name of the failed search and its message. *)
Theorem fetchSearchResults_rejects_when_one_fails_and_the_other_is_empty
    P query filters e :
  truthy (trim query) = true →
  (fetchGitHubRepositories P query filters = Throw e →
   fetchGitHubCodeSnippets P query filters = Normal [] →
   fetchSearchResults P query filters
   = Throw (Error ("Search failed: Repository search: " +:+ message e))) ∧
  (fetchGitHubRepositories P query filters = Normal [] →
   fetchGitHubCodeSnippets P query filters = Throw e →
   fetchSearchResults P query filters
   = Throw (Error ("Search failed: Code search: " +:+ message e))).
Proof.
  intros Hq. unfold fetchSearchResults. rewrite Hq. simpl.
  split; intros -> ->; reflexivity.
Qed.

Lemma mapM_Forall2 {A B} (f : A → Completion B) xs ys :
  mapM f xs = Normal ys → Forall2 (fun x y => f x = Normal y) xs ys.
Proof.
  revert ys. induction xs as [|x xs IH]; intros ys Hm; simpl in Hm.
  - injection Hm as <-. constructor.
  - unfold bind in Hm.
    destruct (f x) as [y|] eqn:Hf; [|done].
    destruct (mapM f xs) as [ys'|] eqn:Hm'; [|done].
    injection Hm as <-. constructor; [done|by apply IH].
Qed.

Lemma enrich_same_entry m c : same_entry c (enrich m c).
Proof.
  unfold enrich, same_entry. destruct (truthy (source c)); [|done].
  by destruct (m !! source c).
Qed.

Lemma calculateCombinedScore_with_score P sc r query :
  calculateCombinedScore P (with_score sc r) query = calculateCombinedScore P r query.
Proof. reflexivity. Qed.

Lemma fetchSearchResults_merged P query filters results :
  fetchSearchResults P query filters = Normal results →
  let repos := values (fetchGitHubRepositories P query filters) in
  let codes := values (fetchGitHubCodeSnippets P query filters) in
  let repoResults := map (with_apiSource (snd apiSources)) repos in
  let enriched :=
    map (enrich (repoDataMap_of repoResults))
        (map (with_apiSource (fst apiSources)) codes) in
  Forall2 (fun x y => ∃ sc, calculateCombinedScore P x query = Normal sc
                            ∧ y = with_score sc x)
    (take 3 repoResults ++ enriched ++ drop 3 repoResults) results.
Proof.
  intros Hres repos codes repoResults enriched.
  apply fetchSearchResults_Normal in Hres.
  assert (Hne : repos ≠ [] ∨ codes ≠ []).
  { subst repos codes. unfold combine_results in Hres.
    destruct (fetchGitHubRepositories P query filters) as [[|r rs]|e1],
             (fetchGitHubCodeSnippets P query filters) as [[|c cs]|e2];
      simpl in *; try done; by (left + right). }
  rewrite combine_results_values, combine_results_Normal in Hres by done.
  apply mapM_Forall2 in Hres.
  eapply Forall2_impl; [exact Hres|]. simpl.
  intros x y Hxy. unfold mbind, Completion_bind, bind in Hxy.
  destruct (calculateCombinedScore P x query) as [sc|]; [|done].
  exists sc. split; [done|]. by injection Hxy as <-.
Qed.

Lemma fetchSearchResults_nonempty P query filters results :
  fetchSearchResults P query filters = Normal results → results ≠ [].
Proof.
  intros Hres.
  pose proof (fetchSearchResults_merged P query filters results Hres) as H.
  cbv zeta in H. apply Forall2_length in H.
  apply fetchSearchResults_Normal in Hres.
  intros ->. simpl in H.
  rewrite !length_app, !length_map, length_take, length_drop, length_map in H.
  unfold combine_results in Hres.
  destruct (fetchGitHubRepositories P query filters) as [[|r rs]|e1],
           (fetchGitHubCodeSnippets P query filters) as [[|c cs]|e2];
    simpl in *; try done; lia.
Qed.

(** X12.  The list that [fetchSearchResults] returns holds the first three
    repository results, then all the code results, then the remaining
    repository results, each with the [id], [type], [title], [source],
    [url], [snippet], [lineNumbers] and [timestamp] it was fetched with; and
    the [score] of every entry is the composite score of that entry. *)
Theorem fetchSearchResults_merge_order P query filters results :
  fetchSearchResults P query filters = Normal results →
  let repos := values (fetchGitHubRepositories P query filters) in
  let codes := values (fetchGitHubCodeSnippets P query filters) in
  Forall2 same_entry (take 3 repos ++ codes ++ drop 3 repos) results ∧
  Forall (fun r => ∃ sc, score r = Some sc
                         ∧ calculateCombinedScore P r query = Normal sc) results.
Proof.
  intros Hres repos codes.
  pose proof (fetchSearchResults_merged P query filters results Hres) as H.
  cbv zeta in H. fold repos codes in H.
  set (repoResults := map (with_apiSource (snd apiSources)) repos) in *.
  split.
  - assert (Hrepos : Forall2 same_entry repos repoResults).
    { unfold repoResults. apply Forall2_fmap_r, Forall_Forall2_diag, Forall_forall.
      by intros x _. }
    assert (Hcodes : Forall2 same_entry codes
              (map (enrich (repoDataMap_of repoResults))
                 (map (with_apiSource (fst apiSources)) codes))).
    { apply Forall2_fmap_r, Forall2_fmap_r, Forall_Forall2_diag, Forall_forall.
      intros x _. apply (enrich_same_entry _ (with_apiSource (fst apiSources) x)). }
    assert (Hall : Forall2 same_entry (take 3 repos ++ codes ++ drop 3 repos)
              (take 3 repoResults
               ++ map (enrich (repoDataMap_of repoResults))
                    (map (with_apiSource (fst apiSources)) codes)
               ++ drop 3 repoResults)).
    { apply Forall2_app; [by apply Forall2_take|].
      apply Forall2_app; [exact Hcodes|by apply Forall2_drop]. }
    clear Hrepos Hcodes Hres.
    revert Hall H. generalize (take 3 repos ++ codes ++ drop 3 repos).
    generalize (take 3 repoResults
               ++ map (enrich (repoDataMap_of repoResults))
                    (map (with_apiSource (fst apiSources)) codes)
               ++ drop 3 repoResults).
    intros mid src Hall H. revert src Hall.
    induction H as [|x y mid results (sc & _ & ->) _ IH]; intros src Hall.
    + inversion Hall. constructor.
    + inversion Hall as [|x0 ? src' ? Hx Hrest]; subst. constructor; [exact Hx|].
      by apply IH.
  - apply Forall_forall. intros y Hy.
    apply list_elem_of_lookup in Hy as [j Hj].
    destruct (Forall2_lookup_r _ _ _ _ _ H Hj) as (x & _ & sc & Hsc & ->).
    exists sc. split; [reflexivity|]. by rewrite calculateCombinedScore_with_score.
Qed.

Lemma code_snippet_of_item_shape P query item c :
  code_snippet_of_item P query item = Normal c →
  ∃ language snippetLines lineNumbers,
    c = code_result P item language snippetLines lineNumbers.
Proof.
  unfold code_snippet_of_item.
  destruct (get_contents (network P) (contents_url item)) as [st txt d|e]; simpl; [|done].
  destruct (negb (st =? 200)); [done|].
  destruct (RegExp_new (engine P) (queryRegex_source query) "i") as [re|e]; simpl; [|done].
  destruct (length _ =? 0)%nat; intros [= <-]; by do 3 eexists.
Qed.

Lemma fetchGitHubCodeSnippets_shape P query filters codes c :
  fetchGitHubCodeSnippets P query filters = Normal codes → c ∈ codes →
  ∃ item language snippetLines lineNumbers,
    c = code_result P item language snippetLines lineNumbers.
Proof.
  unfold fetchGitHubCodeSnippets, try_catch. intros H Hc.
  destruct (negb (truthy (trim query))); [done|].
  destruct (get_code (network P) _) as [st txt d|e]; simpl in H; [|done].
  destruct (negb (st =? 200)); [done|].
  destruct d as [items|]; [|done]. injection H as <-.
  apply list_elem_of_omap in Hc as (item & _ & Hitem).
  unfold code_result_or_null in Hitem.
  destruct (code_snippet_of_item P query item) as [c'|] eqn:Hc'; [|done].
  injection Hitem as ->. exists item. by apply (code_snippet_of_item_shape P query).
Qed.

Lemma fetchGitHubRepositories_shape P query filters repos r :
  fetchGitHubRepositories P query filters = Normal repos → r ∈ repos →
  ∃ item, r = repository_of_item item.
Proof.
  unfold fetchGitHubRepositories, try_catch. intros H Hr.
  destruct (negb (truthy (trim query))); [done|].
  destruct (get_repositories (network P) _) as [st txt d|e]; simpl in H; [|done].
  destruct (negb (st =? 200)); [done|].
  destruct d as [items|]; [|done]. injection H as <-.
  apply list_elem_of_fmap in Hr as (item & -> & _). by exists item.
Qed.

(** X13.  A code result comes out of [fetchSearchResults] without repository
    data when the repository search failed, when its [source] is empty, or
    when its source is the source of no fetched repository result:
    [hasRepoData] is false, [stars] is what the code search gave, and
    [forks], [watchers], [openIssues], [license] and [topics] are absent. *)
Theorem code_result_without_repository_is_not_enriched
    P query filters codes results i c :
  fetchGitHubCodeSnippets P query filters = Normal codes →
  fetchSearchResults P query filters = Normal results →
  codes !! i = Some c →
  let repos := values (fetchGitHubRepositories P query filters) in
  (∃ e, fetchGitHubRepositories P query filters = Throw e)
  ∨ source c = ""
  ∨ (∀ r, r ∈ repos → source r ≠ source c) →
  ∃ merged,
    results !! (length (take 3 repos) + i)%nat = Some merged ∧
    same_entry c merged ∧
    hasRepoData merged = false ∧
    stars merged = stars c ∧
    forks merged = None ∧ watchers merged = None ∧ openIssues merged = None ∧
    license merged = None ∧ topics merged = None.
Proof.
  intros Hcodes Hres Hc repos Hcase.
  assert (Hno : source c = "" ∨ (∀ r, r ∈ repos → source r ≠ source c)).
  { destruct Hcase as [[e He]|[Hempty|Hno]]; [|by left|by right].
    right. intros r Hr. subst repos. rewrite He in Hr. by apply elem_of_nil in Hr. }
  clear Hcase.
  pose proof (fetchSearchResults_merged P query filters results Hres) as H.
  cbv zeta in H. fold repos in H. rewrite Hcodes in H. simpl in H.
  clearbody repos.
  set (repoResults := map (with_apiSource (snd apiSources)) repos) in *.
  assert (Hi : (take 3 repoResults
                ++ map (enrich (repoDataMap_of repoResults))
                       (map (with_apiSource (fst apiSources)) codes)
                ++ drop 3 repoResults)
               !! (length (take 3 repos) + i)%nat
               = Some (enrich (repoDataMap_of repoResults)
                         (with_apiSource (fst apiSources) c))).
  { assert (Ht : length (take 3 repoResults) = length (take 3 repos))
      by (unfold repoResults; by rewrite !length_take, length_map).
    rewrite lookup_app_r by lia. rewrite Ht, Nat.add_comm, Nat.add_sub.
    rewrite lookup_app_l.
    - by rewrite !list_lookup_fmap, Hc.
    - rewrite !length_map. by apply lookup_lt_Some in Hc. }
  destruct (Forall2_lookup_l _ _ _ _ _ H Hi) as (merged & Hmerged & sc & _ & ->).
  exists (with_score sc (enrich (repoDataMap_of repoResults)
                           (with_apiSource (fst apiSources) c))).
  split; [exact Hmerged|].
  assert (Hsame : enrich (repoDataMap_of repoResults) (with_apiSource (fst apiSources) c)
                  = with_apiSource (fst apiSources) c).
  { unfold enrich. simpl.
    destruct (truthy (source c)) eqn:Htruthy; [|done].
    rewrite repoDataMap_of_lookup. unfold repoResults.
    rewrite repository_for_fmap by done.
    destruct (repository_for (source c) repos) as [r|] eqn:Hr; [|done].
    apply repository_for_elem in Hr as [Hin Hsrc].
    destruct Hno as [Hempty|Hno]; [by rewrite Hempty in Htruthy|].
    by destruct (Hno r Hin). }
  rewrite Hsame.
  destruct (fetchGitHubCodeSnippets_shape P query filters codes c Hcodes)
    as (item & lang & sl & ns & ->); [by eapply list_elem_of_lookup_2|].
  repeat split; reflexivity.
Qed.

(** X14.  Every result that [fetchSearchResults] returns is either a
    repository result, without [snippet] and [lineNumbers] and with the
    repositories API as [apiSource], or a code result, with a [snippet],
    with [lineNumbers] and with the code API as [apiSource]. *)
Theorem fetchSearchResults_kinds P query filters results :
  fetchSearchResults P query filters = Normal results →
  Forall (fun r =>
            (type r = repository ∧ snippet r = None ∧ lineNumbers r = None
             ∧ apiSource r = Some (snd apiSources))
            ∨ (type r = code ∧ is_Some (snippet r) ∧ is_Some (lineNumbers r)
               ∧ apiSource r = Some (fst apiSources)))
         results.
Proof.
  intros Hres.
  pose proof (fetchSearchResults_merged P query filters results Hres) as H.
  cbv zeta in H.
  apply Forall_forall. intros y Hy.
  apply list_elem_of_lookup in Hy as [j Hj].
  destruct (Forall2_lookup_r _ _ _ _ _ H Hj) as (x & Hx & sc & _ & ->).
  apply list_elem_of_lookup_2 in Hx.
  assert (Hrepo : ∀ x, x ∈ map (with_apiSource (snd apiSources))
                               (values (fetchGitHubRepositories P query filters)) →
            type x = repository ∧ snippet x = None ∧ lineNumbers x = None
            ∧ apiSource x = Some (snd apiSources)).
  { intros r Hr. apply list_elem_of_fmap in Hr as (r0 & -> & Hr0).
    destruct (fetchGitHubRepositories P query filters) as [repos|] eqn:Hrepos;
      [|by apply elem_of_nil in Hr0].
    destruct (fetchGitHubRepositories_shape P query filters repos r0 Hrepos Hr0)
      as [item ->]. done. }
  apply elem_of_app in Hx as [Hx|Hx]; [left; apply (Hrepo x); exact (subseteq_take 3 _ x Hx)|].
  apply elem_of_app in Hx as [Hx|Hx]; [|left; apply (Hrepo x); exact (subseteq_drop 3 _ x Hx)].
  right.
  apply list_elem_of_fmap in Hx as (c1 & -> & Hc1).
  apply list_elem_of_fmap in Hc1 as (c & -> & Hc).
  destruct (fetchGitHubCodeSnippets P query filters) as [codes|] eqn:Hcodes;
    [|by apply elem_of_nil in Hc].
  destruct (fetchGitHubCodeSnippets_shape P query filters codes c Hcodes Hc)
    as (item & lang & sl & ns & ->).
  unfold enrich. simpl.
  destruct (truthy _); [destruct (repoDataMap_of _ !! _)|]; simpl;
    repeat split; by eexists.
Qed.

(** ** The range of the two scores *)

Section ScoreBounds.

Context (P : Platform).

Lemma inject_Z_S (n : nat) :
  (inject_Z (Z.of_nat (S n)) == inject_Z (Z.of_nat n) + 1)%Q.
Proof.
  rewrite Nat2Z.inj_succ, <- Z.add_1_r, inject_Z_plus. reflexivity.
Qed.

Lemma fold_left_score_bounds (f : Q → string → Q) (c : Q) (terms : list string) (a : Q) :
  (∀ x t, (x <= f x t <= x + c)%Q) →
  (a <= fold_left f terms a <= a + c * inject_Z (Z.of_nat (length terms)))%Q.
Proof.
  intros Hf. revert a. induction terms as [|t terms IH]; intros a.
  - simpl. change (inject_Z (Z.of_nat 0)) with 0%Q. lra.
  - simpl fold_left. simpl length. rewrite inject_Z_S.
    specialize (IH (f a t)). specialize (Hf a t). lra.
Qed.

Lemma foldM_score_bounds (f : Q → string → Completion Q) (c : Q)
    (terms : list string) (a s : Q) :
  (∀ x t y, f x t = Normal y → (x <= y <= x + c)%Q) →
  foldM f terms a = Normal s →
  (a <= s <= a + c * inject_Z (Z.of_nat (length terms)))%Q.
Proof.
  intros Hf. revert a. induction terms as [|t terms IH]; intros a; simpl foldM.
  - intros [= <-]. simpl. change (inject_Z (Z.of_nat 0)) with 0%Q. lra.
  - unfold bind. destruct (f a t) as [y|] eqn:Hy; [|done]. intros Hs.
    simpl length. rewrite inject_Z_S.
    specialize (IH y Hs). specialize (Hf a t y Hy). lra.
Qed.

Lemma stars_score_bounds result (s : Q) :
  0 ≤ stars_value (stars result) →
  (s <= stars_score result s <= s + 50)%Q.
Proof.
  unfold stars_score, stars_value. intros H.
  destruct (stars result) as [n|]; simpl in H; [|lra].
  destruct (negb (n =? 0)); [|lra].
  assert (Hn : (0 <= inject_Z n / 100)%Q).
  { assert (0 <= inject_Z n)%Q
      by (change 0%Q with (inject_Z 0); rewrite <- Zle_Qle; lia).
    assert (Hdiv : (inject_Z n / 100 == inject_Z n * (1 # 100))%Q) by reflexivity.
    rewrite Hdiv. lra. }
  pose proof (Q.le_min_r (inject_Z n / 100) 50).
  assert (0 <= Qmin (inject_Z n / 100) 50)%Q by (apply Q.min_glb; lra).
  lra.
Qed.

Lemma type_score_bounds result (s : Q) :
  (type_score result s == s + type_bonus result)%Q ∧
  (0 <= type_bonus result <= 10)%Q.
Proof.
  unfold type_bonus, type_score.
  destruct (type result), (hasRepoData result); simpl; split; lra.
Qed.

Lemma title_score_bounds terms result (s : Q) :
  (s <= title_score terms result s <= s + 25 * inject_Z (Z.of_nat (length terms)))%Q.
Proof.
  unfold title_score. destruct (truthy (title result)).
  - apply fold_left_score_bounds. intros x t.
    destruct (includes _ t); [|lra]. destruct (String.eqb _ t); lra.
  - assert (0 <= inject_Z (Z.of_nat (length terms)))%Q
      by (change 0%Q with (inject_Z 0); rewrite <- Zle_Qle; lia).
    lra.
Qed.

Lemma description_score_bounds terms result (s : Q) :
  (s <= description_score terms result s
   <= s + 5 * inject_Z (Z.of_nat (length terms)))%Q.
Proof.
  assert (0 <= inject_Z (Z.of_nat (length terms)))%Q
    by (change 0%Q with (inject_Z 0); rewrite <- Zle_Qle; lia).
  unfold description_score. destruct (description result) as [d|]; [|lra].
  destruct (truthy d); [|lra].
  apply fold_left_score_bounds. intros x t. destruct (includes _ t); lra.
Qed.

Lemma snippet_score_bounds terms result (s s' : Q) :
  snippet_score P terms result s = Normal s' →
  (s <= s' <= s + 20 * inject_Z (Z.of_nat (length terms)))%Q.
Proof.
  assert (0 <= inject_Z (Z.of_nat (length terms)))%Q
    by (change 0%Q with (inject_Z 0); rewrite <- Zle_Qle; lia).
  unfold snippet_score. destruct (snippet result) as [sn|]; [|intros [= <-]; lra].
  destruct (truthy sn); [|intros [= <-]; lra].
  apply foldM_score_bounds. intros x t y.
  unfold mbind, Completion_bind, bind.
  destruct (RegExp_new (engine P) t "g") as [re|]; [|done]. intros [= <-].
  set (occurrences := Z.of_nat (match_count re (toLowerCase sn))).
  pose proof (Q.le_min_r (inject_Z (occurrences * 2)) 20).
  assert (0 <= Qmin (inject_Z (occurrences * 2)) 20)%Q.
  { apply Q.min_glb; [|lra]. change 0%Q with (inject_Z 0). rewrite <- Zle_Qle.
    subst occurrences. lia. }
  lra.
Qed.

Lemma freshness_score_bounds result (s : Q) :
  (s <= freshness_score P result s <= s + 10)%Q.
Proof.
  unfold freshness_score. destruct (truthy (timestamp result)); [|lra].
  destruct (Date_getTime P (timestamp result)) as [t|]; [|lra].
  simpl. repeat match goal with |- context [Qltb ?x ?y] => destruct (Qltb x y) end; lra.
Qed.

End ScoreBounds.

(** X15.  For a result whose [stars] is absent or not negative, the
    composite score is at least what the type of the result adds to it,
    which is between 0 and 10, and at most 70 plus 50 for each term of the
    query. *)
Theorem calculateCombinedScore_bounds P result query sc :
  calculateCombinedScore P result query = Normal sc →
  0 ≤ stars_value (stars result) →
  (type_bonus result <= sc <= 70 + 50 * term_count query)%Q ∧
  (0 <= type_bonus result <= 10)%Q.
Proof.
  unfold calculateCombinedScore, term_count. intros Hsc Hstars.
  set (terms := split_ws (toLowerCase query)) in *.
  unfold mbind, Completion_bind, bind in Hsc.
  destruct (snippet_score P terms result _) as [s5|] eqn:H5; [|done].
  injection Hsc as <-.
  pose proof (stars_score_bounds result 0 Hstars) as H1.
  destruct (type_score_bounds result (stars_score result 0)) as [H2 Hb].
  pose proof (title_score_bounds terms result
                (type_score result (stars_score result 0))) as H3.
  pose proof (description_score_bounds terms result
                (title_score terms result
                   (type_score result (stars_score result 0)))) as H4.
  apply snippet_score_bounds in H5.
  pose proof (freshness_score_bounds P result s5) as H6.
  split; [|exact Hb]. lra.
Qed.

Lemma calculateRepoScore_value P result s :
  ResultsList.calculateRepoScore P result = Some s →
  ∃ rest : Q,
    (s == Qmax 0 (popularity result + rest))%Q ∧
    ∀ result' s',
      openIssues result' = openIssues result →
      timestamp result' = timestamp result →
      ResultsList.calculateRepoScore P result' = Some s' →
      (s' == Qmax 0 (popularity result' + rest))%Q.
Proof.
  assert (Hweigh : ∀ (v : option Z) (w a : Q),
            (match v with
             | Some n => if negb (n =? 0) then (a + inject_Z n * w)%Q else a
             | None => a
             end == a + inject_Z (stars_value v) * w)%Q).
  { intros [n|] w a; unfold stars_value; simpl;
      [|change (inject_Z 0) with 0%Q; lra].
    destruct (Z.eqb_spec n 0) as [->|]; simpl;
      [change (inject_Z 0) with 0%Q; lra|reflexivity]. }
  assert (Hone : ∀ (v : option Z) (a : Q),
            (match v with
             | Some n => if negb (n =? 0) then (a + inject_Z n)%Q else a
             | None => a
             end == a + inject_Z (stars_value v))%Q).
  { intros [n|] a; unfold stars_value; simpl;
      [|change (inject_Z 0) with 0%Q; lra].
    destruct (Z.eqb_spec n 0) as [->|]; simpl;
      [change (inject_Z 0) with 0%Q; lra|reflexivity]. }
  assert (Hgen : ∀ r s0, ResultsList.calculateRepoScore P r = Some s0 →
            ∃ bonus : Q,
              (if truthy (timestamp r) then
                 ∃ t, Date_getTime P (timestamp r) = Some t ∧
                      bonus = Qmax 0 (50 - (inject_Z (Date_now P - t)
                                            / inject_Z (1000 * 60 * 60 * 24)) / 2)
               else bonus = 0%Q) ∧
              (s0 == Qmax 0 (popularity r
                             + ((match openIssues r with
                                 | Some n => - Qmin (inject_Z n / 10) 20
                                 | None => 0
                                 end) + bonus)))%Q).
  { intros r s0. unfold ResultsList.calculateRepoScore, popularity.
    set (a1 := match stars r with Some n => _ | None => _ end).
    set (a2 := match forks r with Some n => _ | None => _ end).
    set (a3 := match watchers r with Some n => _ | None => _ end).
    assert (H1 : (a1 == 0 + inject_Z (stars_value (stars r)) * 3)%Q) by apply Hweigh.
    assert (H2 : (a2 == a1 + inject_Z (stars_value (forks r)) * 2)%Q) by apply Hweigh.
    assert (H3 : (a3 == a2 + inject_Z (stars_value (watchers r)))%Q) by apply Hone.
    clearbody a1 a2 a3.
    destruct (truthy (timestamp r)); simpl.
    - destruct (Date_getTime P (timestamp r)) as [t|]; simpl; [|done].
      intros [= <-]. eexists. split; [exists t; split; reflexivity|].
      apply Q.max_compat; [reflexivity|]. destruct (openIssues r); lra.
    - intros [= <-]. exists 0%Q. split; [reflexivity|].
      apply Q.max_compat; [reflexivity|]. destruct (openIssues r); lra. }
  intros Hs. destruct (Hgen result s Hs) as (bonus & Hbonus & Heq).
  eexists. split; [exact Heq|].
  intros result' s' Hissues Htime Hs'.
  destruct (Hgen result' s' Hs') as (bonus' & Hbonus' & Heq').
  rewrite Heq'. rewrite Hissues. rewrite Htime in Hbonus'.
  assert (bonus' = bonus) as ->; [|reflexivity].
  destruct (truthy (timestamp result)); [|congruence].
  destruct Hbonus as (t & Ht & ->), Hbonus' as (t' & Ht' & ->). congruence.
Qed.

(** X16.  [calculateRepoScore] is [NaN] exactly when the [timestamp] is a
    non-empty string that is not a date, and a number that is not negative
    otherwise. *)
Theorem calculateRepoScore_is_not_negative P result :
  (ResultsList.calculateRepoScore P result = None ↔
   truthy (timestamp result) = true ∧ Date_getTime P (timestamp result) = None) ∧
  ∀ s, ResultsList.calculateRepoScore P result = Some s → (0 <= s)%Q.
Proof.
  split.
  - unfold ResultsList.calculateRepoScore.
    destruct (truthy (timestamp result)); simpl.
    + destruct (Date_getTime P (timestamp result)); simpl; split;
        (done || by intros [_ ?]).
    + split; [done|by intros [? _]].
  - intros s Hs. apply calculateRepoScore_value in Hs as (rest & -> & _).
    apply Q.le_max_l.
Qed.

(** X17.  Of two results with the same [timestamp] and the same
    [openIssues], the one with at least as many stars, forks and watchers
    has at least the repository score of the other. *)
Theorem calculateRepoScore_monotone P a b sa sb :
  openIssues a = openIssues b →
  timestamp a = timestamp b →
  stars_value (stars a) ≤ stars_value (stars b) →
  stars_value (forks a) ≤ stars_value (forks b) →
  stars_value (watchers a) ≤ stars_value (watchers b) →
  ResultsList.calculateRepoScore P a = Some sa →
  ResultsList.calculateRepoScore P b = Some sb →
  (sa <= sb)%Q.
Proof.
  intros Hissues Htime Hstars Hforks Hwatchers Ha Hb.
  destruct (calculateRepoScore_value P b sb Hb) as (rest & -> & Hother).
  rewrite (Hother a sa Hissues Htime Ha).
  apply Q.max_le_compat_l.
  unfold popularity.
  assert (inject_Z (stars_value (stars a)) <= inject_Z (stars_value (stars b)))%Q
    by (by rewrite <- Zle_Qle).
  assert (inject_Z (stars_value (forks a)) <= inject_Z (stars_value (forks b)))%Q
    by (by rewrite <- Zle_Qle).
  assert (inject_Z (stars_value (watchers a)) <= inject_Z (stars_value (watchers b)))%Q
    by (by rewrite <- Zle_Qle).
  lra.
Qed.

(** ** The header of the results list *)

Lemma existsb_url (a : ApiSource) sources :
  existsb (fun s => String.eqb (api_url s) (api_url a)) sources = true
  ↔ api_url a ∈ api_url <$> sources.
Proof.
  rewrite existsb_exists, list_elem_of_fmap. split.
  - intros (s & Hs & Heq). apply String.eqb_eq in Heq. exists s.
    split; [done|]. by apply list_elem_of_In.
  - intros (s & Heq & Hs). exists s. split; [by apply list_elem_of_In|].
    by apply String.eqb_eq.
Qed.

Lemma fold_add_source_spec (given : list ApiSource) : ∀ acc,
  NoDup (api_url <$> acc) →
  let sources := fold_left ResultsHeader.add_source given acc in
  NoDup (api_url <$> sources) ∧
  (∃ more, sources = acc ++ more ∧ ∀ s, s ∈ more → s ∈ given) ∧
  (∀ a, a ∈ given → api_url a ∈ api_url <$> sources).
Proof.
  induction given as [|a given IH]; intros acc Hacc; simpl.
  - split; [done|]. split; [exists []; split; [by rewrite app_nil_r|]|];
      by intros ? ?%elem_of_nil.
  - assert (Hstep : NoDup (api_url <$> ResultsHeader.add_source acc a) ∧
                    (∃ more, ResultsHeader.add_source acc a = acc ++ more ∧ ∀ s, s ∈ more → s = a) ∧
                    api_url a ∈ api_url <$> ResultsHeader.add_source acc a).
    { unfold ResultsHeader.add_source.
      destruct (existsb _ acc) eqn:Hex.
      - split; [done|]. split; [exists []; split; [by rewrite app_nil_r|]|].
        + by intros ? ?%elem_of_nil.
        + by apply existsb_url.
      - split.
        { rewrite fmap_app. apply NoDup_app. split; [done|]. split.
          - intros u Hu [->|?%elem_of_nil]%elem_of_cons; [|done].
            apply existsb_url in Hu. congruence.
          - apply NoDup_singleton. }
        split; [exists [a]; split; [done|]; by intros s ->%list_elem_of_singleton|].
        rewrite fmap_app. apply elem_of_app. right. by left. }
    destruct Hstep as (Hnd & (more1 & Hmore1 & Hin1) & Ha).
    destruct (IH (ResultsHeader.add_source acc a) Hnd) as (Hnd' & (more & Hmore & Hin) & Hall).
    split; [exact Hnd'|]. split.
    + exists (more1 ++ more). split; [by rewrite Hmore, Hmore1, app_assoc|].
      intros s [Hs|Hs]%elem_of_app; [rewrite (Hin1 s Hs); by left|right; by apply Hin].
    + intros b [->|Hb]%elem_of_cons; [|by apply Hall].
      rewrite Hmore, fmap_app. apply elem_of_app. by left.
Qed.


(** X18.  [ApiSourcesInfo] lists no [url] twice, lists only sources that some
    result carries, lists the [url] of every source that a result carries,
    and renders nothing exactly when no result carries a source. *)
Theorem apiSources_of_lists_every_url_once results :
  let sources := ResultsHeader.apiSources_of results in
  NoDup (api_url <$> sources) ∧
  (∀ s, s ∈ sources → Some s ∈ apiSource <$> results) ∧
  (∀ r a, r ∈ results → apiSource r = Some a → api_url a ∈ api_url <$> sources) ∧
  (ResultsHeader.ApiSourcesInfo results = None ↔
   ∀ r, r ∈ results → apiSource r = None).
Proof.
  intros sources.
  destruct (fold_add_source_spec (omap apiSource results) [] (NoDup_nil_2))
    as (Hnd & (more & Hmore & Hin) & Hall).
  fold (ResultsHeader.apiSources_of results) in Hnd, Hmore, Hall. fold sources in Hnd, Hmore, Hall.
  simpl in Hmore. subst more.
  assert (Hsome : ∀ a, a ∈ omap apiSource results ↔ ∃ r, r ∈ results ∧ apiSource r = Some a).
  { intros a. rewrite list_elem_of_omap. done. }
  split; [exact Hnd|]. split.
  { intros s Hs. apply Hin, Hsome in Hs as (r & Hr & Heq).
    apply list_elem_of_fmap. by exists r. }
  split.
  { intros r a Hr Ha. apply Hall, Hsome. by exists r. }
  unfold ResultsHeader.ApiSourcesInfo. fold sources.
  destruct sources as [|s0 sources'] eqn:Hsrc; simpl.
  - split; [|done]. intros _ r Hr.
    destruct (apiSource r) as [a|] eqn:Ha; [|done].
    assert (Hu : api_url a ∈ api_url <$> @nil ApiSource)
      by (apply Hall, Hsome; by exists r).
    by apply elem_of_nil in Hu.
  - split; [done|]. intros Hnone.
    assert (Hs0 : s0 ∈ omap apiSource results) by (apply Hin; by left).
    apply Hsome in Hs0 as (r & Hr & Ha). rewrite (Hnone r Hr) in Ha. done.
Qed.

Lemma fold_add_source_replicate (a : ApiSource) n acc :
  fold_left ResultsHeader.add_source (replicate n a) acc
  = match n with
    | O => acc
    | S _ => ResultsHeader.add_source acc a
    end.
Proof.
  destruct n as [|n]; [done|]. simpl.
  assert (Hfix : ∀ acc', existsb (fun s => String.eqb (api_url s) (api_url a)) acc' = true →
                         fold_left ResultsHeader.add_source (replicate n a) acc' = acc').
  { induction n as [|n IH]; intros acc' Hex; [done|].
    simpl. unfold ResultsHeader.add_source at 2. rewrite Hex. by apply IH. }
  apply Hfix. unfold ResultsHeader.add_source.
  destruct (existsb _ acc) eqn:Hex; [done|].
  rewrite existsb_app. simpl. rewrite String.eqb_refl. by rewrite orb_true_r.
Qed.

Lemma omap_apiSource_with_apiSource a (l : list SearchResult) :
  omap apiSource (map (with_apiSource a) l) = replicate (length l) a.
Proof.
  induction l as [|r l IH]; [done|]. simpl in *. f_equal. exact IH.
Qed.

Lemma omap_apiSource_enriched a m (l : list SearchResult) :
  omap apiSource (map (enrich m) (map (with_apiSource a) l)) = replicate (length l) a.
Proof.
  induction l as [|r l IH]; [done|].
  assert (Hr : apiSource (enrich m (with_apiSource a r)) = Some a).
  { unfold enrich. destruct (truthy _); [|done]. by destruct (m !! _). }
  simpl in *. rewrite Hr. simpl. f_equal. exact IH.
Qed.

Lemma scored_results_view (P : Platform) (query : string) mid results :
  Forall2 (fun x y => ∃ sc, calculateCombinedScore P x query = Normal sc
                            ∧ y = with_score sc x) mid results →
  omap apiSource results = omap apiSource mid ∧
  type <$> results = type <$> mid.
Proof.
  induction 1 as [|x y mid results (sc & _ & ->) _ [IH1 IH2]]; [done|].
  split; [|by rewrite !fmap_cons, IH2].
  simpl. destruct (apiSource x); [f_equal|]; exact IH1.
Qed.


Lemma values_repositories_type P query filters :
  Forall (fun r => type r = repository)
         (values (fetchGitHubRepositories P query filters)).
Proof.
  destruct (fetchGitHubRepositories P query filters) as [repos|] eqn:Hrepos;
    [|constructor].
  apply Forall_forall. intros r Hr.
  by destruct (fetchGitHubRepositories_shape P query filters repos r Hrepos Hr) as [item ->].
Qed.

Lemma values_codes_type P query filters :
  Forall (fun r => type r = code)
         (values (fetchGitHubCodeSnippets P query filters)).
Proof.
  destruct (fetchGitHubCodeSnippets P query filters) as [codes|] eqn:Hcodes;
    [|constructor].
  apply Forall_forall. intros r Hr.
  by destruct (fetchGitHubCodeSnippets_shape P query filters codes r Hcodes Hr)
    as (item & lang & sl & ns & ->).
Qed.

Lemma types_of_mapped (t : ResultType) (f : SearchResult → SearchResult) l :
  (∀ r, type (f r) = type r) →
  Forall (fun r => type r = t) l →
  type <$> map f l = replicate (length l) t.
Proof.
  intros Hf. induction 1 as [|r l Hr _ IH]; [done|].
  change (type (f r) :: (type <$> map f l) = t :: replicate (length l) t).
  rewrite Hf, Hr. f_equal. exact IH.
Qed.

Lemma count_by_type (g : ResultType → bool) (l : list SearchResult) :
  length (List.filter (fun r => g (type r)) l)
  = length (List.filter g (type <$> l)).
Proof.
  induction l as [|r l IH]; [done|]. simpl.
  destruct (g (type r)); simpl; [f_equal|]; exact IH.
Qed.

Lemma count_replicate (g : ResultType → bool) (t : ResultType) n :
  length (List.filter g (replicate n t)) = if g t then n else O.
Proof.
  induction n as [|n IH]; simpl; [by destruct (g t)|].
  destruct (g t); simpl; [f_equal|]; exact IH.
Qed.

(** The numbers and the sources of the list as [fetchSearchResults] returns
    it, before the component sorts it. *)
Lemma header_of_the_fetched_list P query filters results :
  fetchSearchResults P query filters = Normal results →
  let repos := values (fetchGitHubRepositories P query filters) in
  let codes := values (fetchGitHubCodeSnippets P query filters) in
  ResultsHeader.ResultsMetrics results
  = (length codes, length repos, (length repos + length codes)%nat) ∧
  ResultsHeader.apiSources_of results
  = (if repos is [] then [] else [snd apiSources])
    ++ (if codes is [] then [] else [fst apiSources]).
Proof.
  intros Hres repos codes.
  pose proof (fetchSearchResults_merged P query filters results Hres) as H.
  cbv zeta in H. fold repos codes in H.
  pose proof (values_repositories_type P query filters) as Hrt. fold repos in Hrt.
  pose proof (values_codes_type P query filters) as Hct. fold codes in Hct.
  clearbody repos codes. clear Hres.
  set (repoResults := map (with_apiSource (snd apiSources)) repos) in *.
  pose proof (Forall2_length _ _ _ H) as Hlen.
  destruct (scored_results_view P query _ _ H) as [Hapi Htype]. clear H.
  assert (Ht3 : take 3 repoResults = map (with_apiSource (snd apiSources)) (take 3 repos))
    by (unfold repoResults; symmetry; apply fmap_take).
  assert (Hd3 : drop 3 repoResults = map (with_apiSource (snd apiSources)) (drop 3 repos))
    by (unfold repoResults; symmetry; apply fmap_drop).
  rewrite Ht3, Hd3 in *.
  assert (Henrich_api : ∀ m r, apiSource (enrich m r) = apiSource r).
  { intros m r. unfold enrich. destruct (truthy _); [|done]. by destruct (m !! _). }
  assert (Henrich_type : ∀ m r, type (enrich m r) = type r).
  { intros m r. unfold enrich. destruct (truthy _); [|done]. by destruct (m !! _). }
  split.
  - unfold ResultsHeader.ResultsMetrics, ResultsHeader.codeCount, ResultsHeader.repoCount.
    rewrite !count_by_type, Htype, !fmap_app.
    rewrite (types_of_mapped repository (with_apiSource (snd apiSources)) (take 3 repos));
      [|done|by apply Forall_take].
    rewrite (types_of_mapped repository (with_apiSource (snd apiSources)) (drop 3 repos));
      [|done|by apply Forall_drop].
    rewrite (types_of_mapped code (enrich (repoDataMap_of repoResults))
               (map (with_apiSource (fst apiSources)) codes));
      [|done|by apply Forall_fmap].
    rewrite !List.filter_app, !length_app, !count_replicate. simpl.
    rewrite length_map, !length_app, !length_map in *.
    rewrite length_take, length_drop in *. repeat f_equal; lia.
  - unfold ResultsHeader.apiSources_of. rewrite Hapi, !omap_app.
    rewrite !omap_apiSource_with_apiSource, omap_apiSource_enriched.
    rewrite !fold_left_app, !fold_add_source_replicate.
    set (n3 := length (drop 3 repos)).
    assert (Hn3 : repos = [] → n3 = O) by (by intros ->).
    clearbody n3.
    destruct repos as [|r0 repos'], codes as [|c0 codes']; simpl;
      rewrite ?(Hn3 eq_refl); destruct n3; reflexivity.
Qed.

Lemma count_filter_perm {A} (f : A → bool) (l k : list A) :
  l ≡ₚ k → length (List.filter f l) = length (List.filter f k).
Proof.
  induction 1 as [|x l k _ IH|x y l|l k m _ IH1 _ IH2]; simpl.
  - done.
  - destruct (f x); simpl; by rewrite IH.
  - by destruct (f x), (f y).
  - by rewrite IH1.
Qed.

Lemma apiSources_of_head results :
  head (ResultsHeader.apiSources_of results) = head (omap apiSource results).
Proof.
  unfold ResultsHeader.apiSources_of.
  destruct (omap apiSource results) as [|a given]; [done|]. simpl.
  destruct (fold_add_source_spec given [a]) as (_ & (more & Hmore & _) & _);
    [apply NoDup_singleton|].
  change (fold_left ResultsHeader.add_source given (ResultsHeader.add_source [] a))
    with (fold_left ResultsHeader.add_source given [a]).
  by rewrite Hmore.
Qed.

Lemma apiSources_of_elem results s :
  (∀ x y, x ∈ omap apiSource results → y ∈ omap apiSource results →
          api_url x = api_url y → x = y) →
  s ∈ ResultsHeader.apiSources_of results ↔ s ∈ omap apiSource results.
Proof.
  intros Hurl.
  destruct (fold_add_source_spec (omap apiSource results) [] (NoDup_nil_2))
    as (_ & (more & Hmore & Hin) & Hall).
  fold (ResultsHeader.apiSources_of results) in Hmore, Hall.
  simpl in Hmore. subst more. split; [apply Hin|].
  intros Hs. pose proof (Hall s Hs) as Hu.
  apply list_elem_of_fmap in Hu as (s' & Heq & Hs').
  rewrite (Hurl s s' Hs (Hin s' Hs') Heq). exact Hs'.
Qed.

Lemma apiSources_of_NoDup results : NoDup (ResultsHeader.apiSources_of results).
Proof.
  destruct (fold_add_source_spec (omap apiSource results) [] (NoDup_nil_2))
    as (Hnd & _).
  by apply NoDup_fmap_1 in Hnd.
Qed.

Lemma apiSource_of_fetched P query filters results :
  fetchSearchResults P query filters = Normal results →
  Forall (fun a => a = snd apiSources ∨ a = fst apiSources) (omap apiSource results).
Proof.
  intros Hres.
  pose proof (fetchSearchResults_merged P query filters results Hres) as H.
  cbv zeta in H.
  destruct (scored_results_view P query _ _ H) as [-> _].
  rewrite !omap_app, omap_apiSource_enriched.
  set (repos := values (fetchGitHubRepositories P query filters)).
  assert (Ht3 : take 3 (map (with_apiSource (snd apiSources)) repos)
                = map (with_apiSource (snd apiSources)) (take 3 repos))
    by (symmetry; apply fmap_take).
  assert (Hd3 : drop 3 (map (with_apiSource (snd apiSources)) repos)
                = map (with_apiSource (snd apiSources)) (drop 3 repos))
    by (symmetry; apply fmap_drop).
  rewrite Ht3, Hd3, !omap_apiSource_with_apiSource.
  rewrite !Forall_app. repeat split; apply Forall_replicate; by (left + right).
Qed.

Lemma apiSource_is_Some_of_fetched P query filters results :
  fetchSearchResults P query filters = Normal results →
  Forall (fun r => is_Some (apiSource r)) results.
Proof.
  intros Hres.
  pose proof (fetchSearchResults_merged P query filters results Hres) as H.
  cbv zeta in H.
  apply Forall_forall. intros y Hy.
  apply list_elem_of_lookup in Hy as [j Hj].
  destruct (Forall2_lookup_r _ _ _ _ _ H Hj) as (x & Hx & sc & _ & ->).
  apply list_elem_of_lookup_2 in Hx.
  assert (Hrepo : ∀ x, x ∈ map (with_apiSource (snd apiSources))
                               (values (fetchGitHubRepositories P query filters)) →
                       is_Some (apiSource x)).
  { intros r Hr. apply list_elem_of_fmap in Hr as (r0 & -> & _). by eexists. }
  apply elem_of_app in Hx as [Hx|Hx]; [apply (Hrepo x); exact (subseteq_take 3 _ x Hx)|].
  apply elem_of_app in Hx as [Hx|Hx]; [|apply (Hrepo x); exact (subseteq_drop 3 _ x Hx)].
  apply list_elem_of_fmap in Hx as (c1 & -> & Hc1).
  apply list_elem_of_fmap in Hc1 as (c & -> & _).
  unfold enrich. simpl.
  destruct (truthy _); [destruct (repoDataMap_of _ !! _)|]; by eexists.
Qed.

(** X19.  [ResultsList] sorts its [results] array in place, and the two
    components of the header read the array in the order of the cards.  For
    the list that [fetchSearchResults] returns, [ResultsMetrics] shows the
    number of code results and the number of repository results of the two
    searches, and their sum as the total; [ApiSourcesInfo] lists the
    repositories API if there is a repository result and the code API if
    there is a code result, nothing else, and the API of the first card
    comes first. *)
Theorem header_of_a_search P query filters results :
  fetchSearchResults P query filters = Normal results →
  let repos := values (fetchGitHubRepositories P query filters) in
  let codes := values (fetchGitHubCodeSnippets P query filters) in
  ∃ sources top a,
    ResultsHeader.header P results
    = (Some (length sources, sources),
       (length codes, length repos, (length repos + length codes)%nat)) ∧
    sources ≡ₚ (if repos is [] then [] else [snd apiSources])
               ++ (if codes is [] then [] else [fst apiSources]) ∧
    head (ResultsList.rendered_results P results) = Some top ∧
    apiSource top = Some a ∧
    head sources = Some a.
Proof.
  intros Hres repos codes.
  destruct (header_of_the_fetched_list P query filters results Hres) as [Hm Hs].
  fold repos codes in Hm, Hs.
  pose proof (apiSource_of_fetched P query filters results Hres) as Hkinds.
  pose proof (apiSource_is_Some_of_fetched P query filters results Hres) as Hsome.
  pose proof (fetchSearchResults_nonempty P query filters results Hres) as Hne.
  clear Hres.
  unfold ResultsHeader.header.
  set (shown := ResultsList.rendered_results P results).
  assert (Hperm : shown ≡ₚ results) by apply Array_sort_perm.
  assert (Hoperm : omap apiSource shown ≡ₚ omap apiSource results) by (by rewrite Hperm).
  assert (Hurl : ∀ given, given ≡ₚ omap apiSource results →
            ∀ x y, x ∈ given → y ∈ given → api_url x = api_url y → x = y).
  { intros given Hg x y Hx Hy. rewrite Hg in Hx, Hy.
    rewrite Forall_forall in Hkinds.
    destruct (Hkinds x Hx) as [->| ->], (Hkinds y Hy) as [->| ->]; done. }
  assert (Hsources : ResultsHeader.apiSources_of shown
                     ≡ₚ (if repos is [] then [] else [snd apiSources])
                        ++ (if codes is [] then [] else [fst apiSources])).
  { rewrite <- Hs. apply NoDup_Permutation; [apply apiSources_of_NoDup..|].
    intros s. rewrite !apiSources_of_elem.
    - by rewrite Hoperm.
    - by apply Hurl.
    - by apply Hurl. }
  destruct shown as [|top rest] eqn:Hshown.
  { apply Permutation_nil_l in Hperm. by destruct Hne. }
  assert (Htop : ∃ a, apiSource top = Some a).
  { rewrite <- Hperm in Hsome. by apply Forall_cons in Hsome as [[a Ha] _]; exists a. }
  destruct Htop as [a Ha].
  exists (ResultsHeader.apiSources_of (top :: rest)), top, a.
  assert (Hhead : head (ResultsHeader.apiSources_of (top :: rest)) = Some a).
  { rewrite apiSources_of_head. simpl. by rewrite Ha. }
  split; [|done].
  f_equal.
  - unfold ResultsHeader.ApiSourcesInfo.
    destruct (ResultsHeader.apiSources_of (top :: rest)); [done|done].
  - rewrite <- Hm. unfold ResultsHeader.ResultsMetrics, ResultsHeader.codeCount,
      ResultsHeader.repoCount.
    by rewrite !(count_filter_perm _ _ _ Hperm), (Permutation_length Hperm).
Qed.

(** ** The date of a card *)

Lemma Qltb_quotient (a : Z) (b : positive) (k : Z) :
  Qltb (inject_Z a / inject_Z (Zpos b)) (inject_Z k) = (a <? k * Zpos b).
Proof.
  unfold Qltb. rewrite <- Qmake_Qdiv.
  destruct (Z.ltb_spec a (k * Zpos b)) as [Hlt|Hge].
  - apply negb_true_iff, not_true_iff_false. rewrite Qle_bool_iff.
    unfold Qle, inject_Z. simpl. lia.
  - apply negb_false_iff. rewrite Qle_bool_iff.
    unfold Qle, inject_Z. simpl. lia.
Qed.

Lemma Qfloor_quotient (a : Z) (b : positive) :
  Qfloor (inject_Z a / inject_Z (Zpos b)) = a / Zpos b.
Proof. rewrite <- Qmake_Qdiv. reflexivity. Qed.

Lemma Qfloor_quotient2 (a : Z) (b c : positive) :
  Qfloor (inject_Z a / inject_Z (Zpos b) / inject_Z (Zpos c)) = a / Zpos (b * c).
Proof.
  assert (H : (inject_Z a / inject_Z (Zpos b) / inject_Z (Zpos c) == a # (b * c))%Q).
  { rewrite <- Qmake_Qdiv. unfold Qdiv, Qmult, Qinv, Qeq, inject_Z. simpl. lia. }
  rewrite H. reflexivity.
Qed.

(** [formatDate] in whole milliseconds. *)
Lemma formatDate_of_age P dateString date :
  truthy dateString = true →
  Date_getTime P dateString = Some date →
  let d := Date_now P - date in
  ResultCard.formatDate P dateString
  = if d <? 86400000 then
      if d / 3600000 <? 1 then
        if d / 60000 <=? 1 then "Just now" else pretty (d / 60000) +:+ " minutes ago"
      else pretty (d / 3600000) +:+ " "
           +:+ (if d / 3600000 =? 1 then "hour" else "hours") +:+ " ago"
    else if d <? 172800000 then "Yesterday"
    else if d <? 604800000 then pretty (d / 86400000) +:+ " days ago"
    else if d <? 2592000000 then
      pretty (d / 604800000) +:+ " "
      +:+ (if d / 604800000 =? 1 then "week" else "weeks") +:+ " ago"
    else if d <? 31536000000 then
      pretty (d / 2592000000) +:+ " "
      +:+ (if d / 2592000000 =? 1 then "month" else "months") +:+ " ago"
    else
      pretty (d / 31536000000) +:+ " "
      +:+ (if d / 31536000000 =? 1 then "year" else "years") +:+ " ago".
Proof.
  intros Hs Hdate d. unfold ResultCard.formatDate. rewrite Hs, Hdate. cbn [negb].
  fold d.
  change (1000 * 60 * 60 * 24) with (Zpos 86400000).
  change (1000 * 60 * 60) with (Zpos 3600000).
  change (1000 * 60) with (Zpos 60000).
  change 1%Q with (inject_Z 1). change 2%Q with (inject_Z 2).
  change 7%Q with (inject_Z (Zpos 7)). change 30%Q with (inject_Z (Zpos 30)).
  change 365%Q with (inject_Z (Zpos 365)).
  rewrite !Qltb_quotient, !Qfloor_quotient, !Qfloor_quotient2.
  reflexivity.
Qed.

(** X20.  What [formatDate] prints, by the age of the date in milliseconds:
    nothing for no date, "Unknown date" for a text that is no date, "Just
    now" up to two minutes and for every date in the future, then the whole
    minutes (2 to 59), the whole hours (1 to 23), "Yesterday" for the second
    day, the whole days (2 to 6), the whole weeks (1 to 4) up to thirty
    days, the months of thirty days (1 to 12) up to 365 days, and the years
    of 365 days from then on; the unit is in the singular for the count
    1. *)
Theorem formatDate_by_age P dateString :
  (truthy dateString = false → ResultCard.formatDate P dateString = "") ∧
  (truthy dateString = true → Date_getTime P dateString = None →
   ResultCard.formatDate P dateString = "Unknown date") ∧
  ∀ date,
    truthy dateString = true →
    Date_getTime P dateString = Some date →
    let age := Date_now P - date in
    let shown := ResultCard.formatDate P dateString in
    (age < 2 * minute_ms → shown = "Just now") ∧
    (2 * minute_ms ≤ age < hour_ms →
     shown = ago (age / minute_ms) "minutes" ∧ 2 ≤ age / minute_ms ≤ 59) ∧
    (hour_ms ≤ age < 2 * hour_ms → shown = "1 hour ago") ∧
    (2 * hour_ms ≤ age < day_ms →
     shown = ago (age / hour_ms) "hours" ∧ 2 ≤ age / hour_ms ≤ 23) ∧
    (day_ms ≤ age < 2 * day_ms → shown = "Yesterday") ∧
    (2 * day_ms ≤ age < 7 * day_ms →
     shown = ago (age / day_ms) "days" ∧ 2 ≤ age / day_ms ≤ 6) ∧
    (7 * day_ms ≤ age < 14 * day_ms → shown = "1 week ago") ∧
    (14 * day_ms ≤ age < 30 * day_ms →
     shown = ago (age / (7 * day_ms)) "weeks" ∧ 2 ≤ age / (7 * day_ms) ≤ 4) ∧
    (30 * day_ms ≤ age < 60 * day_ms → shown = "1 month ago") ∧
    (60 * day_ms ≤ age < 365 * day_ms →
     shown = ago (age / (30 * day_ms)) "months" ∧ 2 ≤ age / (30 * day_ms) ≤ 12) ∧
    (365 * day_ms ≤ age < 730 * day_ms → shown = "1 year ago") ∧
    (730 * day_ms ≤ age →
     shown = ago (age / (365 * day_ms)) "years" ∧ 2 ≤ age / (365 * day_ms)).
Proof.
  split; [|split].
  - intros Hs. unfold ResultCard.formatDate. by rewrite Hs.
  - intros Hs Hdate. unfold ResultCard.formatDate. by rewrite Hs, Hdate.
  - intros date Hs Hdate age shown.
    pose proof (formatDate_of_age P dateString date Hs Hdate) as Hshown.
    cbv zeta in Hshown. fold age in Hshown. fold shown in Hshown.
    clearbody shown age.
    change minute_ms with 60000. change hour_ms with 3600000.
    change day_ms with 86400000.
    change (7 * 86400000) with 604800000.
    change (30 * 86400000) with 2592000000.
    change (365 * 86400000) with 31536000000.
    pose proof (Z.div_mod age 60000 ltac:(lia)) as Em.
    pose proof (Z.mod_pos_bound age 60000 ltac:(lia)) as Bm.
    pose proof (Z.div_mod age 3600000 ltac:(lia)) as Eh.
    pose proof (Z.mod_pos_bound age 3600000 ltac:(lia)) as Bh.
    pose proof (Z.div_mod age 86400000 ltac:(lia)) as Ed.
    pose proof (Z.mod_pos_bound age 86400000 ltac:(lia)) as Bd.
    pose proof (Z.div_mod age 604800000 ltac:(lia)) as Ew.
    pose proof (Z.mod_pos_bound age 604800000 ltac:(lia)) as Bw.
    pose proof (Z.div_mod age 2592000000 ltac:(lia)) as Eo.
    pose proof (Z.mod_pos_bound age 2592000000 ltac:(lia)) as Bo.
    pose proof (Z.div_mod age 31536000000 ltac:(lia)) as Ey.
    pose proof (Z.mod_pos_bound age 31536000000 ltac:(lia)) as By.
    set (qm := age / 60000) in *. set (qh := age / 3600000) in *.
    set (qd := age / 86400000) in *. set (qw := age / 604800000) in *.
    set (qo := age / 2592000000) in *. set (qy := age / 31536000000) in *.
    repeat split; intros; try lia; subst shown.
    all: repeat match goal with
         | |- context [?a <? ?b] => destruct (Z.ltb_spec a b); try lia
         | |- context [?a <=? ?b] => destruct (Z.leb_spec a b); try lia
         | |- context [?a =? ?b] => destruct (Z.eqb_spec a b); try lia
         end.
    all: try reflexivity.
    all: match goal with
         | H : ?q = 1 |- _ => rewrite H; reflexivity
         end.
Qed.

(** ** The lines of a code block *)

Lemma createHighlightPattern_global P query re :
  CodeBlock.createHighlightPattern P query = Normal (Some re) →
  re_global re = true.
Proof.
  unfold CodeBlock.createHighlightPattern.
  destruct (negb (truthy (trim query))); [done|].
  match goal with
  | |- try_catch (?b ≫= _) _ = _ → _ => destruct b as [r|e] eqn:Hnew
  end; simpl; [|done].
  intros [= <-]. by rewrite (RegExp_new_global _ _ _ _ Hnew).
Qed.

Lemma line_flags_by_match {E : RegExpEngine} (re : RegExp E) tokens :
  re_global re = true →
  Forall (fun line => line ≠ []) tokens →
  CodeBlockLines.line_flags re tokens O
  = map (fun line => matches re (join "" line)) tokens.
Proof.
  intros Hg. induction 1 as [|line tokens Hline _ IH]; [done|]. simpl.
  assert (Hlen : (0 <? length line)%nat = true) by (by destruct line).
  destruct (matches re (join "" line)) eqn:Hm.
  - destruct (test_global_match _ re _ Hg Hm) as [e He]. rewrite He, Hlen.
    by rewrite IH.
  - rewrite (test_global_no_match _ re _ O Hg Hm), Hlen. by rewrite IH.
Qed.

(** X21.  When every line that the highlighter gives has a token, [CodeBlock]
    flags its lines without failing on any query, one flag for each line;
    and the lines it flags are exactly those in which the pattern of the
    query has a match, although all of them are tested with one global
    [RegExp]. *)
Theorem code_block_flags_the_matching_lines P searchQuery tokens :
  Forall (fun line => line ≠ []) tokens →
  ∃ flags,
    CodeBlockLines.lineHasMatch P searchQuery tokens = Normal flags ∧
    length flags = length tokens ∧
    ∀ re, CodeBlock.createHighlightPattern P searchQuery = Normal (Some re) →
          flags = map (fun line => matches re (join "" line)) tokens.
Proof.
  intros Htokens. unfold CodeBlockLines.lineHasMatch.
  assert (Hnormal : ∃ r, CodeBlock.createHighlightPattern P searchQuery = Normal r).
  { unfold CodeBlock.createHighlightPattern.
    destruct (negb (truthy (trim searchQuery))); [by eexists|].
    match goal with
    | |- ∃ r, try_catch ?b _ = _ => destruct b as [r|e]
    end; by eexists. }
  destruct Hnormal as [r Hr].
  rewrite Hr. simpl. destruct r as [re|].
  - pose proof (createHighlightPattern_global P searchQuery re Hr) as Hg.
    rewrite (line_flags_by_match re tokens Hg Htokens).
    eexists. split; [reflexivity|]. split; [by rewrite length_map|].
    by intros re' [= <-].
  - eexists. split; [reflexivity|]. split; [by rewrite length_map|]. done.
Qed.

(** ** The component around the search *)

Lemma blank_query (q : string) :
  negb (truthy q) || (String.length (trim q) =? 0)%nat = negb (truthy (trim q)).
Proof.
  destruct q as [|c q]; [reflexivity|]. simpl negb at 1. rewrite orb_false_l.
  by destruct (trim (String c q)).
Qed.

Lemma fetchSearchResults_message P query filters e :
  fetchSearchResults P query filters = Throw e → truthy (message e) = true.
Proof.
  unfold fetchSearchResults, try_catch.
  destruct (negb (truthy (trim query))); [by intros [= <-]|].
  destruct (combine_results _ _ _ _) as [v|e0]; [done|].
  destruct (truthy (message e0)) eqn:Hm; intros [= <-]; [exact Hm|reflexivity].
Qed.

(** X22.  [handleSearch] with a blank query sets the error "Please enter a
    search query" and leaves the results and the query as they were.  With
    any other query it ends with [loading] off and with either a non-empty
    list of results and no error, or no result and the message of the
    [Error] that [fetchSearchResults] threw: the message of the component
    for an empty list is never shown. *)
Theorem handleSearch_sets_results_or_error P searchQuery st :
  let st' := App.handleSearch P searchQuery st in
  (truthy (trim searchQuery) = false →
   App.results st' = App.results st ∧ App.query st' = App.query st ∧
   App.error st' = Some "Please enter a search query") ∧
  (truthy (trim searchQuery) = true →
   App.query st' = searchQuery ∧ App.loading st' = false ∧
   ((App.results st' ≠ [] ∧ App.error st' = None) ∨
    (App.results st' = [] ∧
     ∃ msg, App.error st' = Some msg ∧ truthy msg = true ∧
            fetchSearchResults P searchQuery (App.as_SearchFilters (App.filters st))
            = Throw (Error msg)))).
Proof.
  intros st'. subst st'. unfold App.handleSearch. rewrite blank_query.
  split; intros Hq; rewrite Hq; simpl; [done|].
  destruct (fetchSearchResults P searchQuery _) as [data|err] eqn:Hres; simpl.
  - split; [done|]. split; [done|]. left.
    pose proof (fetchSearchResults_nonempty _ _ _ _ Hres) as Hne.
    split; [done|]. by destruct data.
  - split; [done|]. split; [done|]. right. split; [done|].
    pose proof (fetchSearchResults_message _ _ _ _ Hres) as Hm. rewrite Hm.
    exists (message err). split; [done|]. split; [done|].
    unfold fetchSearchResults, try_catch in Hres.
    destruct (negb (truthy (trim searchQuery))); [by injection Hres as <-|].
    destruct (combine_results _ _ _ _) as [v|e0]; [done|].
    destruct (truthy (message e0)); by injection Hres as <-.
Qed.

Lemma fetchGitHubRepositories_unrecognised P query (f : SearchFilters) :
  timeRange f ∉ ["day"; "week"; "month"; "year"] →
  sortBy f ∉ ["recent"; "relevance"] →
  fetchGitHubRepositories P query f
  = fetchGitHubRepositories P query
      {| filter_language := filter_language f; timeRange := "all"; sortBy := "stars" |}.
Proof.
  intros Htime Hsort. unfold fetchGitHubRepositories.
  assert (Hdays : daysAgo f = 0).
  { unfold daysAgo.
    destruct (String.eqb_spec (timeRange f) "day") as [He|_];
      [destruct Htime; rewrite He; repeat constructor|].
    destruct (String.eqb_spec (timeRange f) "week") as [He|_];
      [destruct Htime; rewrite He; repeat constructor|].
    destruct (String.eqb_spec (timeRange f) "month") as [He|_];
      [destruct Htime; rewrite He; repeat constructor|].
    destruct (String.eqb_spec (timeRange f) "year") as [He|_];
      [destruct Htime; rewrite He; repeat constructor|].
    reflexivity. }
  assert (Hrecent : String.eqb (sortBy f) "recent" = false).
  { destruct (String.eqb_spec (sortBy f) "recent") as [He|_]; [|done].
    destruct Hsort. rewrite He. repeat constructor. }
  assert (Hrelevance : String.eqb (sortBy f) "relevance" = false).
  { destruct (String.eqb_spec (sortBy f) "relevance") as [He|_]; [|done].
    destruct Hsort. rewrite He. repeat constructor. }
  rewrite Hdays, Hrecent, Hrelevance. rewrite andb_false_r. reflexivity.
Qed.

(** X23.  The service narrows by date only for the time ranges "day", "week",
    "month" and "year", and sorts by something other than stars only for
    "recent" and "relevance": with any other values the search is the one
    with no time range and the repositories sorted by stars.  The filters of
    the component have the keys [time] and [sort] where the service reads
    [timeRange] and [sortBy], so every search the component starts is of
    that kind, whatever its filters are. *)
Theorem search_ignores_unrecognised_time_and_sort P query :
  (∀ f : SearchFilters,
     timeRange f ∉ ["day"; "week"; "month"; "year"] →
     sortBy f ∉ ["recent"; "relevance"] →
     fetchSearchResults P query f
     = fetchSearchResults P query
         {| filter_language := filter_language f; timeRange := "all";
            sortBy := "stars" |}) ∧
  (∀ filters : App.Filters,
     fetchSearchResults P query (App.as_SearchFilters filters)
     = fetchSearchResults P query
         {| filter_language := App.language filters; timeRange := "all";
            sortBy := "stars" |}).
Proof.
  assert (H : ∀ f : SearchFilters,
     timeRange f ∉ ["day"; "week"; "month"; "year"] →
     sortBy f ∉ ["recent"; "relevance"] →
     fetchSearchResults P query f
     = fetchSearchResults P query
         {| filter_language := filter_language f; timeRange := "all";
            sortBy := "stars" |}).
  { intros f Htime Hsort. unfold fetchSearchResults.
    rewrite (fetchGitHubRepositories_unrecognised P query f Htime Hsort).
    reflexivity. }
  split; [exact H|].
  intros filters. apply (H (App.as_SearchFilters filters)).
  - intros Hin. simpl in Hin. unfold App.undefined in Hin.
    repeat (apply elem_of_cons in Hin as [Hin|Hin]; [discriminate Hin|]).
    by apply elem_of_nil in Hin.
  - intros Hin. simpl in Hin. unfold App.undefined in Hin.
    repeat (apply elem_of_cons in Hin as [Hin|Hin]; [discriminate Hin|]).
    by apply elem_of_nil in Hin.
Qed.

Lemma Qltb_le (a b d : Q) : (a <= b)%Q → Qltb a d = false → Qltb b d = false.
Proof.
  unfold Qltb. rewrite !negb_false_iff, !Qle_bool_iff. intros Hab Hd.
  by eapply Qle_trans.
Qed.

(** X24.  The time windows of [applyFilters] are nested: a result kept for
    "day" is kept for "week", one kept for "week" is kept for "month",
    then "year", then "all".  A result whose [timestamp] is not a date, and
    any value of the time filter other than these, filter as "all" does. *)
Theorem applyFilters_time_windows_nest P (f : App.Filters) (r : SearchResult) :
  let within t := App.keeps P (App.handleFilterChange "time" t f) r in
  (within "day" = true → within "week" = true) ∧
  (within "week" = true → within "month" = true) ∧
  (within "month" = true → within "year" = true) ∧
  (within "year" = true → within "all" = true) ∧
  (Date_getTime P (timestamp r) = None → ∀ t, within t = within "all") ∧
  (∀ t, t ∉ ["day"; "week"; "month"; "year"] → within t = within "all").
Proof.
  intros within. subst within. unfold App.keeps. simpl.
  destruct (negb (String.eqb (App.language f) "all") && _); [by repeat split|].
  destruct (negb (String.eqb (App.type f) "all") && _); [by repeat split|].
  destruct (negb (String.eqb (App.repository f) "all") && _); [by repeat split|].
  destruct (Date_getTime P (timestamp r)) as [t0|].
  - set (d := (inject_Z (Date_now P - t0) / inject_Z (1000 * 60 * 60 * 24))%Q).
    split; [rewrite !negb_true_iff; apply Qltb_le; lra|].
    split; [rewrite !negb_true_iff; apply Qltb_le; lra|].
    split; [rewrite !negb_true_iff; apply Qltb_le; lra|].
    split; [done|]. split; [done|].
    intros t Ht. destruct (String.eqb t "all"); [done|]. simpl.
    destruct (String.eqb_spec t "day") as [->|_]; [destruct Ht; repeat constructor|].
    destruct (String.eqb_spec t "week") as [->|_]; [destruct Ht; repeat constructor|].
    destruct (String.eqb_spec t "month") as [->|_]; [destruct Ht; repeat constructor|].
    destruct (String.eqb_spec t "year") as [->|_]; [destruct Ht; repeat constructor|].
    done.
  - repeat split; try done; intros; by destruct (negb _).
Qed.

(** X25.  [handleFilterChange] with the key "reset" restores the initial
    filters whatever the filters and the value are, and [applyFilters]
    then returns the list it is given; with any filters it returns a
    sublist of that list, and applying it twice is applying it once. *)
Theorem applyFilters_after_reset P (f : App.Filters) value results :
  App.handleFilterChange "reset" value f = App.initialFilters ∧
  App.applyFilters P (App.handleFilterChange "reset" value f) results = results ∧
  App.applyFilters P f results `sublist_of` results ∧
  App.applyFilters P f (App.applyFilters P f results) = App.applyFilters P f results.
Proof.
  split; [reflexivity|]. split.
  { change (App.handleFilterChange "reset" value f) with App.initialFilters.
    unfold App.applyFilters. induction results as [|r results IH]; [done|].
    simpl. by rewrite IH. }
  unfold App.applyFilters. split.
  - induction results as [|r results IH]; [done|]. simpl.
    destruct (App.keeps P f r); [by apply sublist_skip|by apply sublist_cons].
  - induction results as [|r results IH]; [done|]. simpl.
    destruct (App.keeps P f r) eqn:Hr; simpl; [rewrite Hr; by f_equal|done].
Qed.

(** ** Runs of the further statements *)

(** [needle] on line 4 of seven: the lines 2 to 6. *)
Lemma snippet_of_one_match_in_seven_lines :
  (get_contents (network MoreRuns.one_match) (contents_url Runs.hello_a)
   = Fulfilled 200 "OK" (Text (Runs.lines_text MoreRuns.seven_lines)) ∧
   RegExp_new (engine MoreRuns.one_match) (queryRegex_source "needle") "i"
   = Normal Runs.needle_i ∧
   matching_lines MoreRuns.one_match Runs.needle_i
     (split_lines (Runs.lines_text MoreRuns.seven_lines)) 0 = [3]) ∧
  ∃ r sn,
    code_snippet_of_item MoreRuns.one_match "needle" Runs.hello_a = Normal r ∧
    snippet r = Some sn ∧
    lineNumbers r = Some [2; 3; 4; 5; 6] ∧
    split_lines sn = ["l2"; "l3"; "the needle"; "l5"; "l6"].
Proof.
  assert (H1 : get_contents (network MoreRuns.one_match) (contents_url Runs.hello_a)
               = Fulfilled 200 "OK" (Text (Runs.lines_text MoreRuns.seven_lines)))
    by (vm_compute; reflexivity).
  assert (H2 : RegExp_new (engine MoreRuns.one_match) (queryRegex_source "needle") "i"
               = Normal Runs.needle_i) by reflexivity.
  assert (H3 : matching_lines MoreRuns.one_match Runs.needle_i
                 (split_lines (Runs.lines_text MoreRuns.seven_lines)) 0 = [3])
    by (vm_compute; reflexivity).
  split; [by repeat split|].
  destruct (snippet_of_a_single_match MoreRuns.one_match "needle" Runs.hello_a "OK"
              (Runs.lines_text MoreRuns.seven_lines) Runs.needle_i 3 H1 H2 H3)
    as (r & sn & Hr & Hsn & Hnum & Hlines & _).
  exists r, sn. split; [exact Hr|]. split; [exact Hsn|].
  split; [rewrite Hnum; vm_compute; reflexivity|].
  rewrite Hlines. vm_compute. reflexivity.
Defined.

(** The twelve lines with [needle] on lines 2 and 8. *)
Lemma six_apart_matched :
  get_contents (network Runs.six_apart) (contents_url Runs.hello_a)
  = Fulfilled 200 "OK" (Text (Runs.lines_text Runs.twelve_lines)) ∧
  RegExp_new (engine Runs.six_apart) (queryRegex_source "needle") "i"
  = Normal Runs.needle_i ∧
  matching_lines Runs.six_apart Runs.needle_i
    (split_lines (Runs.lines_text Runs.twelve_lines)) 0 = [1; 7].
Proof.
  split; [vm_compute; reflexivity|]. split; [reflexivity|]. vm_compute. reflexivity.
Qed.

(** Some line of the twelve matches. *)
Lemma six_apart_matches_something :
  matching_lines Runs.six_apart Runs.needle_i
    (split_lines (Runs.lines_text Runs.twelve_lines)) 0 ≠ [].
Proof. destruct six_apart_matched as (_ & _ & ->). discriminate. Qed.

(** The snippet of the twelve lines holds the lines it numbers. *)
Lemma snippet_lines_of_matches_six_apart :
  (get_contents (network Runs.six_apart) (contents_url Runs.hello_a)
   = Fulfilled 200 "OK" (Text (Runs.lines_text Runs.twelve_lines)) ∧
   RegExp_new (engine Runs.six_apart) (queryRegex_source "needle") "i"
   = Normal Runs.needle_i ∧
   matching_lines Runs.six_apart Runs.needle_i
     (split_lines (Runs.lines_text Runs.twelve_lines)) 0 ≠ []) ∧
  ∃ r sn numbers,
    code_snippet_of_item Runs.six_apart "needle" Runs.hello_a = Normal r ∧
    snippet r = Some sn ∧
    lineNumbers r = Some numbers ∧
    ∀ j n, numbers !! j = Some n → n ≠ -1 →
           1 ≤ n ≤ Z.of_nat (length (split_lines (Runs.lines_text Runs.twelve_lines))) ∧
           split_lines sn !! j
           = split_lines (Runs.lines_text Runs.twelve_lines) !! Z.to_nat (n - 1).
Proof.
  destruct six_apart_matched as (H1 & H2 & _).
  pose proof six_apart_matches_something as H3.
  split; [by repeat split|].
  exact (snippet_lines_are_the_numbered_file_lines Runs.six_apart "needle" Runs.hello_a
           "OK" (Runs.lines_text Runs.twelve_lines) Runs.needle_i H1 H2 H3).
Defined.

(** Its numbers increase and hold 2 and 8. *)
Lemma snippet_numbers_of_matches_six_apart :
  (get_contents (network Runs.six_apart) (contents_url Runs.hello_a)
   = Fulfilled 200 "OK" (Text (Runs.lines_text Runs.twelve_lines)) ∧
   RegExp_new (engine Runs.six_apart) (queryRegex_source "needle") "i"
   = Normal Runs.needle_i ∧
   matching_lines Runs.six_apart Runs.needle_i
     (split_lines (Runs.lines_text Runs.twelve_lines)) 0 ≠ []) ∧
  ∃ r numbers,
    code_snippet_of_item Runs.six_apart "needle" Runs.hello_a = Normal r ∧
    lineNumbers r = Some numbers ∧
    StronglySorted Z.lt (content_numbers numbers) ∧
    ∀ m, m ∈ matching_lines Runs.six_apart Runs.needle_i
               (split_lines (Runs.lines_text Runs.twelve_lines)) 0 →
         m + 1 ∈ numbers.
Proof.
  destruct six_apart_matched as (H1 & H2 & _).
  pose proof six_apart_matches_something as H3.
  split; [by repeat split|].
  exact (snippet_numbers_increase_and_cover Runs.six_apart "needle" Runs.hello_a
           "OK" (Runs.lines_text Runs.twelve_lines) Runs.needle_i H1 H2 H3).
Defined.

(** Its separator stands between 4 and 6. *)
Lemma snippet_gap_of_matches_six_apart :
  (get_contents (network Runs.six_apart) (contents_url Runs.hello_a)
   = Fulfilled 200 "OK" (Text (Runs.lines_text Runs.twelve_lines)) ∧
   RegExp_new (engine Runs.six_apart) (queryRegex_source "needle") "i"
   = Normal Runs.needle_i ∧
   matching_lines Runs.six_apart Runs.needle_i
     (split_lines (Runs.lines_text Runs.twelve_lines)) 0 ≠ []) ∧
  ∃ r numbers,
    code_snippet_of_item Runs.six_apart "needle" Runs.hello_a = Normal r ∧
    lineNumbers r = Some numbers ∧
    ∀ j, numbers !! j = Some (-1) →
         ∃ a b, (0 < j)%nat ∧ numbers !! (j - 1)%nat = Some a ∧
                numbers !! S j = Some b ∧ 1 ≤ a ∧ a + 2 ≤ b.
Proof.
  destruct six_apart_matched as (H1 & H2 & _).
  pose proof six_apart_matches_something as H3.
  split; [by repeat split|].
  exact (snippet_separator_marks_a_gap Runs.six_apart "needle" Runs.hello_a
           "OK" (Runs.lines_text Runs.twelve_lines) Runs.needle_i H1 H2 H3).
Defined.

(** One pair of matches more than 5 apart, one separator. *)
Lemma snippet_separators_of_matches_six_apart :
  (get_contents (network Runs.six_apart) (contents_url Runs.hello_a)
   = Fulfilled 200 "OK" (Text (Runs.lines_text Runs.twelve_lines)) ∧
   RegExp_new (engine Runs.six_apart) (queryRegex_source "needle") "i"
   = Normal Runs.needle_i ∧
   matching_lines Runs.six_apart Runs.needle_i
     (split_lines (Runs.lines_text Runs.twelve_lines)) 0 ≠ []) ∧
  ∃ r numbers,
    code_snippet_of_item Runs.six_apart "needle" Runs.hello_a = Normal r ∧
    lineNumbers r = Some numbers ∧
    count_separators numbers = 1%nat.
Proof.
  destruct six_apart_matched as (H1 & H2 & H3').
  pose proof six_apart_matches_something as H3.
  split; [by repeat split|].
  destruct (snippet_separator_count Runs.six_apart "needle" Runs.hello_a
              "OK" (Runs.lines_text Runs.twelve_lines) Runs.needle_i H1 H2 H3)
    as (r & numbers & Hr & Hnum & Hcount).
  exists r, numbers. split; [exact Hr|]. split; [exact Hnum|].
  rewrite Hcount, H3'. reflexivity.
Defined.

(** As many numbers as lines, the separator on its line. *)
Lemma matched_snippet_of_matches_six_apart :
  (get_contents (network Runs.six_apart) (contents_url Runs.hello_a)
   = Fulfilled 200 "OK" (Text (Runs.lines_text Runs.twelve_lines)) ∧
   RegExp_new (engine Runs.six_apart) (queryRegex_source "needle") "i"
   = Normal Runs.needle_i ∧
   matching_lines Runs.six_apart Runs.needle_i
     (split_lines (Runs.lines_text Runs.twelve_lines)) 0 ≠ []) ∧
  ∃ r sn numbers,
    code_snippet_of_item Runs.six_apart "needle" Runs.hello_a = Normal r ∧
    snippet r = Some sn ∧
    lineNumbers r = Some numbers ∧
    length numbers = length (split_lines sn) ∧
    ∀ j, numbers !! j = Some (-1) → split_lines sn !! j = Some "...".
Proof.
  destruct six_apart_matched as (H1 & H2 & _).
  pose proof six_apart_matches_something as H3.
  split; [by repeat split|].
  exact (matched_snippet_keeps_the_invariant Runs.six_apart "needle" Runs.hello_a
           "OK" (Runs.lines_text Runs.twelve_lines) Runs.needle_i H1 H2 H3).
Defined.

(** Three lines without a match: all three, and the numbers 1 to 10. *)
Lemma fallback_snippet_of_three_lines :
  (get_contents (network Runs.short_file) (contents_url Runs.hello_a)
   = Fulfilled 200 "OK" (Text (Runs.lines_text ["alpha"; "beta"; "gamma"])) ∧
   RegExp_new (engine Runs.short_file) (queryRegex_source "zzz") "i"
   = Normal MoreRuns.zzz_i ∧
   matching_lines Runs.short_file MoreRuns.zzz_i
     (split_lines (Runs.lines_text ["alpha"; "beta"; "gamma"])) 0 = []) ∧
  ∃ r sn,
    code_snippet_of_item Runs.short_file "zzz" Runs.hello_a = Normal r ∧
    snippet r = Some sn ∧
    split_lines sn = ["alpha"; "beta"; "gamma"] ∧
    lineNumbers r = Some [1; 2; 3; 4; 5; 6; 7; 8; 9; 10].
Proof.
  assert (H1 : get_contents (network Runs.short_file) (contents_url Runs.hello_a)
               = Fulfilled 200 "OK" (Text (Runs.lines_text ["alpha"; "beta"; "gamma"])))
    by (vm_compute; reflexivity).
  assert (H2 : RegExp_new (engine Runs.short_file) (queryRegex_source "zzz") "i"
               = Normal MoreRuns.zzz_i) by reflexivity.
  assert (H3 : matching_lines Runs.short_file MoreRuns.zzz_i
                 (split_lines (Runs.lines_text ["alpha"; "beta"; "gamma"])) 0 = [])
    by (vm_compute; reflexivity).
  split; [by repeat split|].
  destruct (fallback_snippet_of_a_file_without_match Runs.short_file "zzz" Runs.hello_a
              "OK" (Runs.lines_text ["alpha"; "beta"; "gamma"]) MoreRuns.zzz_i H1 H2 H3)
    as (r & sn & Hr & Hsn & Hlines & Hnum & _).
  exists r, sn. split; [exact Hr|]. split; [exact Hsn|]. split; [|exact Hnum].
  rewrite Hlines. vm_compute. reflexivity.
Defined.

(** Without network, and with a blank query. *)
Lemma fetchers_throw_search_errors_offline :
  (truthy (trim " ") = false ∧
   fetchGitHubRepositories Runs.offline "react" defaultSearchFilters
   = Throw (Error "Network error. Please check your internet connection.")) ∧
  fetchGitHubCodeSnippets Runs.offline " " defaultSearchFilters
  = Throw (Error "Search failed: Search query cannot be empty") ∧
  ∃ m, Error "Network error. Please check your internet connection." = Error m ∧
       truthy m = true ∧
       (m ∈ fixed_failure_messages
        ∨ String.prefix "GitHub API error (" m = true
        ∨ String.prefix "Search failed: " m = true).
Proof.
  assert (H1 : truthy (trim " ") = false) by reflexivity.
  assert (H2 : fetchGitHubRepositories Runs.offline "react" defaultSearchFilters
               = Throw (Error "Network error. Please check your internet connection."))
    by (vm_compute; reflexivity).
  split; [by split|]. split.
  - exact (proj2 (proj1 (fetchers_throw_search_errors Runs.offline " "
                           defaultSearchFilters) H1)).
  - exact (proj2 (fetchers_throw_search_errors Runs.offline "react" defaultSearchFilters)
             _ (or_introl H2)).
Defined.

(** The repository search is unreachable and no code is found. *)
Lemma fetchSearchResults_rejects_when_repositories_are_unreachable :
  (truthy (trim "react") = true ∧
   fetchGitHubRepositories MoreRuns.repositories_unreachable "react" defaultSearchFilters
   = Throw (Error "Network error. Please check your internet connection.") ∧
   fetchGitHubCodeSnippets MoreRuns.repositories_unreachable "react" defaultSearchFilters
   = Normal []) ∧
  fetchSearchResults MoreRuns.repositories_unreachable "react" defaultSearchFilters
  = Throw (Error ("Search failed: Repository search: "
                  +:+ "Network error. Please check your internet connection.")).
Proof.
  assert (H1 : truthy (trim "react") = true) by reflexivity.
  assert (H2 : fetchGitHubRepositories MoreRuns.repositories_unreachable "react"
                 defaultSearchFilters
               = Throw (Error "Network error. Please check your internet connection."))
    by (vm_compute; reflexivity).
  assert (H3 : fetchGitHubCodeSnippets MoreRuns.repositories_unreachable "react"
                 defaultSearchFilters = Normal [])
    by (vm_compute; reflexivity).
  split; [by repeat split|].
  exact (proj1 (fetchSearchResults_rejects_when_one_fails_and_the_other_is_empty
                  MoreRuns.repositories_unreachable "react" defaultSearchFilters _ H1)
           H2 H3).
Defined.

(** One repository and one code hit: the repository first. *)
Lemma fetchSearchResults_merge_order_run :
  ∃ results,
    fetchSearchResults Runs.enriched "greeting" defaultSearchFilters = Normal results ∧
    id <$> results = ["repo-1"; "1-3b18e512dba79e4c8300dd08aeb37f8e728b8dad"] ∧
    Forall2 same_entry
      (take 3 (values (fetchGitHubRepositories Runs.enriched "greeting"
                         defaultSearchFilters))
       ++ values (fetchGitHubCodeSnippets Runs.enriched "greeting" defaultSearchFilters)
       ++ drop 3 (values (fetchGitHubRepositories Runs.enriched "greeting"
                            defaultSearchFilters)))
      results.
Proof.
  destruct (fetchSearchResults Runs.enriched "greeting" defaultSearchFilters)
    as [results|e] eqn:Hres; [|vm_compute in Hres; discriminate Hres].
  exists results. split; [reflexivity|]. split.
  - vm_compute in Hres. injection Hres as <-. reflexivity.
  - exact (proj1 (fetchSearchResults_merge_order Runs.enriched "greeting"
                    defaultSearchFilters results Hres)).
Defined.

(** The query [greeting] is a pattern: two results. *)
Lemma fetchSearchResults_returns_for_greeting :
  (truthy (trim "greeting") = true ∧
   values (fetchGitHubRepositories Runs.enriched "greeting" defaultSearchFilters) ≠ [] ∧
   terms_compile Runs.enriched "greeting") ∧
  ∃ results,
    fetchSearchResults Runs.enriched "greeting" defaultSearchFilters = Normal results ∧
    length results = 2%nat.
Proof.
  assert (H1 : truthy (trim "greeting") = true) by reflexivity.
  assert (H2 : values (fetchGitHubRepositories Runs.enriched "greeting"
                         defaultSearchFilters) ≠ []).
  { destruct (fetchGitHubRepositories Runs.enriched "greeting" defaultSearchFilters)
      as [repos|e] eqn:Hrepos; vm_compute in Hrepos; [|discriminate Hrepos].
    injection Hrepos as <-. discriminate. }
  assert (H3 : terms_compile Runs.enriched "greeting").
  { intros term Hterm. vm_compute in Hterm.
    apply list_elem_of_singleton in Hterm as ->. eexists. reflexivity. }
  split; [by repeat split|].
  destruct (fetchSearchResults_returns_when_terms_compile Runs.enriched "greeting"
              defaultSearchFilters H1 (or_introl H2) H3) as (results & Hres & _ & Hlen).
  exists results. split; [exact Hres|]. rewrite Hlen.
  destruct (fetchGitHubRepositories Runs.enriched "greeting" defaultSearchFilters)
    as [repos|e] eqn:Hrepos; vm_compute in Hrepos; [|discriminate Hrepos].
  destruct (fetchGitHubCodeSnippets Runs.enriched "greeting" defaultSearchFilters)
    as [codes|e] eqn:Hcodes; vm_compute in Hcodes; [|discriminate Hcodes].
  injection Hrepos as <-. injection Hcodes as <-. reflexivity.
Defined.

(** The query [c++] is not a pattern. *)
Lemma fetchSearchResults_throws_for_cpp :
  (truthy (trim "c++") = true ∧
   "c++" ∈ split_ws (toLowerCase "c++") ∧
   compile (engine Runs.cpp) "c++" false
   = inl "Invalid regular expression: /c++/: Nothing to repeat") ∧
  ∃ m, fetchSearchResults Runs.cpp "c++" defaultSearchFilters = Throw (Error m).
Proof.
  assert (H1 : truthy (trim "c++") = true) by reflexivity.
  assert (H2 : "c++" ∈ split_ws (toLowerCase "c++")) by (vm_compute; constructor).
  assert (H3 : compile (engine Runs.cpp) "c++" false
               = inl "Invalid regular expression: /c++/: Nothing to repeat")
    by (vm_compute; reflexivity).
  split; [by repeat split|].
  destruct (fetchGitHubCodeSnippets Runs.cpp "c++" defaultSearchFilters)
    as [codes|e] eqn:Hcodes; [|vm_compute in Hcodes; discriminate Hcodes].
  pose proof Hcodes as Ecodes. vm_compute in Ecodes. injection Ecodes as Ecodes.
  destruct codes as [|c codes']; [discriminate Ecodes|].
  assert (Hsn : snippet c = Some (Runs.lines_text ["int c = 0;"; "c++;"; "return c;"]))
    by (injection Ecodes as <- _; reflexivity).
  exact (fetchSearchResults_throws_when_a_term_does_not_compile Runs.cpp "c++"
           defaultSearchFilters (c :: codes') c _ "c++" _ H1 Hcodes
           (list_elem_of_here c codes') Hsn eq_refl H2 H3).
Defined.

(** The repository search fails and the code search finds a file: the code
    result comes out as the code search gave it. *)
Lemma code_result_of_one_missing_is_not_enriched :
  ∃ e codes results c merged,
    fetchGitHubRepositories MoreRuns.code_only "greeting" defaultSearchFilters
    = Throw e ∧
    fetchGitHubCodeSnippets MoreRuns.code_only "greeting" defaultSearchFilters
    = Normal codes ∧
    fetchSearchResults MoreRuns.code_only "greeting" defaultSearchFilters
    = Normal results ∧
    codes !! O = Some c ∧
    results !! O = Some merged ∧
    hasRepoData merged = false ∧ stars merged = stars c ∧ forks merged = None.
Proof.
  destruct (fetchGitHubRepositories MoreRuns.code_only "greeting" defaultSearchFilters)
    as [repos|e] eqn:Hrepos; [vm_compute in Hrepos; discriminate Hrepos|].
  destruct (fetchGitHubCodeSnippets MoreRuns.code_only "greeting" defaultSearchFilters)
    as [codes|e'] eqn:Hcodes; [|vm_compute in Hcodes; discriminate Hcodes].
  destruct (fetchSearchResults MoreRuns.code_only "greeting" defaultSearchFilters)
    as [results|e'] eqn:Hres; [|vm_compute in Hres; discriminate Hres].
  pose proof Hcodes as Ecodes. vm_compute in Ecodes. injection Ecodes as Ecodes.
  destruct codes as [|c codes']; [discriminate Ecodes|].
  destruct (code_result_without_repository_is_not_enriched MoreRuns.code_only "greeting"
              defaultSearchFilters (c :: codes') results O c Hcodes Hres eq_refl)
    as (merged & Hm & _ & Hdata & Hstars & Hforks & _).
  { left. exists e. exact Hrepos. }
  rewrite Hrepos in Hm. simpl in Hm.
  exists e, (c :: codes'), results, c, merged.
  repeat (split; [first [reflexivity|assumption]|]). assumption.
Defined.

(** One repository and a code hit in it that is dated now: the code result
    has the higher repository score, its card comes first, and so does the
    code API. *)
Lemma header_of_the_search_for_greeting :
  ∃ results,
    fetchSearchResults MoreRuns.undated "greeting" defaultSearchFilters = Normal results ∧
    type <$> results = [repository; code] ∧
    type <$> ResultsList.rendered_results MoreRuns.undated results = [code; repository] ∧
    ResultsHeader.header MoreRuns.undated results
    = (Some (2%nat, [fst apiSources; snd apiSources]), (1, 1, 2)%nat).
Proof.
  destruct (fetchSearchResults MoreRuns.undated "greeting" defaultSearchFilters)
    as [results|e] eqn:Hres; [|vm_compute in Hres; discriminate Hres].
  exists results. split; [reflexivity|].
  destruct (header_of_a_search MoreRuns.undated "greeting" defaultSearchFilters
              results Hres) as (sources & top & a & Hhdr & _).
  vm_compute in Hres. injection Hres as <-.
  split; [reflexivity|]. split; [vm_compute; reflexivity|].
  assert (Hsources : sources = [fst apiSources; snd apiSources]).
  { pose proof Hhdr as E. apply (f_equal fst) in E. vm_compute in E.
    injection E as _ E. symmetry. exact E. }
  rewrite Hhdr, Hsources. vm_compute. reflexivity.
Defined.

(** A code result without repository data that holds the query twice. *)
Lemma calculateCombinedScore_bounds_run :
  (calculateCombinedScore Runs.offline Runs.five_lines "needle" = Normal 4%Q ∧
   0 ≤ stars_value (stars Runs.five_lines)) ∧
  (type_bonus Runs.five_lines <= 4 <= 70 + 50 * term_count "needle")%Q.
Proof.
  assert (H1 : calculateCombinedScore Runs.offline Runs.five_lines "needle" = Normal 4%Q)
    by (vm_compute; reflexivity).
  assert (H2 : 0 ≤ stars_value (stars Runs.five_lines)) by (simpl; lia).
  split; [by split|].
  exact (proj1 (calculateCombinedScore_bounds Runs.offline Runs.five_lines "needle"
                  4%Q H1 H2)).
Defined.

(** 100 stars, 10 forks, 100 watchers, updated five years before. *)
Lemma calculateRepoScore_of_hello_repository :
  ∃ s, ResultsList.calculateRepoScore Runs.two_repos MoreRuns.hello_repository = Some s ∧
       (s == 420)%Q ∧ (0 <= s)%Q.
Proof.
  destruct (ResultsList.calculateRepoScore Runs.two_repos MoreRuns.hello_repository)
    as [s|] eqn:H; [|vm_compute in H; discriminate H].
  exists s. split; [reflexivity|]. split.
  - vm_compute in H. injection H as <-. reflexivity.
  - exact (proj2 (calculateRepoScore_is_not_negative Runs.two_repos
                    MoreRuns.hello_repository) s H).
Defined.

(** 100 stars against 200. *)
Lemma calculateRepoScore_monotone_run :
  ∃ sa sb,
    (openIssues MoreRuns.hello_repository = openIssues MoreRuns.linux_repository ∧
     timestamp MoreRuns.hello_repository = timestamp MoreRuns.linux_repository ∧
     stars_value (stars MoreRuns.hello_repository)
     ≤ stars_value (stars MoreRuns.linux_repository) ∧
     stars_value (forks MoreRuns.hello_repository)
     ≤ stars_value (forks MoreRuns.linux_repository) ∧
     stars_value (watchers MoreRuns.hello_repository)
     ≤ stars_value (watchers MoreRuns.linux_repository) ∧
     ResultsList.calculateRepoScore Runs.two_repos MoreRuns.hello_repository = Some sa ∧
     ResultsList.calculateRepoScore Runs.two_repos MoreRuns.linux_repository = Some sb) ∧
    (sa == 420)%Q ∧ (sb == 820)%Q ∧ (sa <= sb)%Q.
Proof.
  destruct (ResultsList.calculateRepoScore Runs.two_repos MoreRuns.hello_repository)
    as [sa|] eqn:Ha; [|vm_compute in Ha; discriminate Ha].
  destruct (ResultsList.calculateRepoScore Runs.two_repos MoreRuns.linux_repository)
    as [sb|] eqn:Hb; [|vm_compute in Hb; discriminate Hb].
  assert (H1 : stars_value (stars MoreRuns.hello_repository)
               ≤ stars_value (stars MoreRuns.linux_repository))
    by (vm_compute; discriminate).
  assert (H2 : stars_value (forks MoreRuns.hello_repository)
               ≤ stars_value (forks MoreRuns.linux_repository))
    by (vm_compute; discriminate).
  assert (H3 : stars_value (watchers MoreRuns.hello_repository)
               ≤ stars_value (watchers MoreRuns.linux_repository))
    by (vm_compute; discriminate).
  exists sa, sb. split; [by repeat split|].
  split; [vm_compute in Ha; injection Ha as <-; reflexivity|].
  split; [vm_compute in Hb; injection Hb as <-; reflexivity|].
  exact (calculateRepoScore_monotone Runs.two_repos MoreRuns.hello_repository
           MoreRuns.linux_repository sa sb eq_refl eq_refl H1 H2 H3 Ha Hb).
Defined.

(** Two lines that match: two flagged rows. *)
Lemma numbered_view_of_two_needles :
  (snippet MoreRuns.two_needles
   = Some (Runs.lines_text ["a long line with a needle"; "needle"]) ∧
   truthy (Runs.lines_text ["a long line with a needle"; "needle"]) = true ∧
   lineNumbers MoreRuns.two_needles = Some [1; 2] ∧
   [1; 2] ≠ [] ∧
   ResultsList.createSearchRegex Runs.offline Runs.default_options "needle"
   = Normal (Some Runs.needle_regex)) ∧
  ∃ matchCount,
    ResultsList.getEnhancedCodeSnippet Runs.offline Runs.default_options
      MoreRuns.two_needles "needle"
    = Normal (Some (ResultsList.NumberedView
        [ResultsList.LineRow 0 (Some 1) true
           ("a long line with a " +:+ ResultsList.mark_open +:+ "needle"
            +:+ ResultsList.mark_close);
         ResultsList.LineRow 1 (Some 2) true
           (ResultsList.mark_open +:+ "needle" +:+ ResultsList.mark_close)]
        matchCount)).
Proof.
  assert (H5 : ResultsList.createSearchRegex Runs.offline Runs.default_options "needle"
               = Normal (Some Runs.needle_regex)) by reflexivity.
  split; [repeat split; (reflexivity || discriminate)|].
  destruct (numbered_view_is_decided_line_by_line Runs.offline Runs.default_options
              MoreRuns.two_needles "needle"
              (Runs.lines_text ["a long line with a needle"; "needle"]) [1; 2]
              Runs.needle_regex eq_refl eq_refl eq_refl ltac:(discriminate) H5)
    as [matchCount Hview].
  exists matchCount. rewrite Hview. vm_compute. reflexivity.
Defined.

(** Both lines are highlighted and one is counted: the test of the second
    line starts where the match of the first one ended. *)
Lemma match_count_of_two_needles :
  (snippet MoreRuns.two_needles
   = Some (Runs.lines_text ["a long line with a needle"; "needle"]) ∧
   truthy (Runs.lines_text ["a long line with a needle"; "needle"]) = true ∧
   lineNumbers MoreRuns.two_needles = Some [1; 2] ∧
   [1; 2] ≠ [] ∧
   ResultsList.createSearchRegex Runs.offline Runs.default_options "needle"
   = Normal (Some Runs.needle_regex)) ∧
  ∃ rows matchCount,
    ResultsList.getEnhancedCodeSnippet Runs.offline Runs.default_options
      MoreRuns.two_needles "needle"
    = Normal (Some (ResultsList.NumberedView rows matchCount)) ∧
    (matchCount ≤ flagged_rows rows ≤ 2 * matchCount)%nat ∧
    matchCount = 1%nat ∧ flagged_rows rows = 2%nat.
Proof.
  assert (H5 : ResultsList.createSearchRegex Runs.offline Runs.default_options "needle"
               = Normal (Some Runs.needle_regex)) by reflexivity.
  split; [repeat split; (reflexivity || discriminate)|].
  destruct (match_count_against_highlighted_rows Runs.offline Runs.default_options
              MoreRuns.two_needles "needle"
              (Runs.lines_text ["a long line with a needle"; "needle"]) [1; 2]
              Runs.needle_regex eq_refl eq_refl eq_refl ltac:(discriminate) H5)
    as (rows & matchCount & Hview & Hbounds).
  exists rows, matchCount. split; [exact Hview|]. split; [exact Hbounds|].
  vm_compute in Hview. injection Hview as <- <-. split; reflexivity.
Defined.

(** Five lines without numbers: the third alone is shown. *)
Lemma inline_view_of_unnumbered_lines :
  (snippet MoreRuns.unnumbered
   = Some (Runs.lines_text ["alpha"; "beta"; "needle and needle"; "delta"; "epsilon"]) ∧
   default [] (lineNumbers MoreRuns.unnumbered) = [] ∧
   ResultsList.createSearchRegex Runs.offline Runs.default_options "needle"
   = Normal (Some Runs.needle_regex) ∧
   ResultsList.highlightMatchesOnly Runs.default_options = true) ∧
  ResultsList.getEnhancedCodeSnippet Runs.offline Runs.default_options
    MoreRuns.unnumbered "needle"
  = Normal (Some (ResultsList.InlineView (ResultsList.MatchingLines
      [(2%nat, ResultsList.mark_open +:+ "needle" +:+ ResultsList.mark_close +:+ " and "
               +:+ ResultsList.mark_open +:+ "needle" +:+ ResultsList.mark_close)]))).
Proof.
  assert (H4 : ResultsList.createSearchRegex Runs.offline Runs.default_options "needle"
               = Normal (Some Runs.needle_regex)) by reflexivity.
  split; [repeat split; reflexivity|].
  rewrite (inline_view_shows_the_matching_lines Runs.offline Runs.default_options
             MoreRuns.unnumbered "needle"
             (Runs.lines_text ["alpha"; "beta"; "needle and needle"; "delta"; "epsilon"])
             Runs.needle_regex eq_refl eq_refl eq_refl H4 eq_refl).
  vm_compute. reflexivity.
Defined.

(** Two repositories, a code result and a result without source. *)
Lemma apiSources_of_three_results :
  let results := [with_apiSource (snd apiSources) MoreRuns.hello_repository;
                  with_apiSource (fst apiSources) Runs.five_lines;
                  with_apiSource (snd apiSources) MoreRuns.linux_repository;
                  MoreRuns.two_needles] in
  ResultsHeader.apiSources_of results = [snd apiSources; fst apiSources] ∧
  Some (fst apiSources) ∈ apiSource <$> results ∧
  ResultsHeader.ApiSourcesInfo [MoreRuns.two_needles] = None.
Proof.
  intros results. split; [vm_compute; reflexivity|]. split.
  - apply (proj1 (proj2 (apiSources_of_lists_every_url_once results))).
    vm_compute. right. left.
  - apply (proj2 (proj2 (proj2 (apiSources_of_lists_every_url_once
                                  [MoreRuns.two_needles])))).
    intros r Hr. apply list_elem_of_singleton in Hr as ->. reflexivity.
Defined.

(** A blank query, a search that returns and a search without network. *)
Lemma handleSearch_runs :
  (truthy (trim "  ") = false ∧ truthy (trim "greeting") = true) ∧
  App.error (App.handleSearch Runs.enriched "  " MoreRuns.idle)
  = Some "Please enter a search query" ∧
  App.query (App.handleSearch Runs.enriched "greeting" MoreRuns.idle) = "greeting" ∧
  App.error (App.handleSearch Runs.offline "greeting" MoreRuns.idle)
  = Some ("Search failed: Repository search: "
          +:+ "Network error. Please check your internet connection."
          +:+ "; Code search: "
          +:+ "Network error. Please check your internet connection.").
Proof.
  assert (H1 : truthy (trim "  ") = false) by reflexivity.
  assert (H2 : truthy (trim "greeting") = true) by reflexivity.
  split; [by split|]. split.
  - exact (proj2 (proj2 (proj1 (handleSearch_sets_results_or_error Runs.enriched "  "
                                  MoreRuns.idle) H1))).
  - split.
    + exact (proj1 (proj2 (handleSearch_sets_results_or_error Runs.enriched "greeting"
                             MoreRuns.idle) H2)).
    + vm_compute. reflexivity.
Defined.

(** A repository updated two days before: out of the day, in the week. *)
Lemma applyFilters_time_windows_run :
  App.keeps Runs.offline (App.handleFilterChange "time" "day" App.initialFilters)
    MoreRuns.two_days_old = false ∧
  App.keeps Runs.offline (App.handleFilterChange "time" "week" App.initialFilters)
    MoreRuns.two_days_old = true ∧
  App.keeps Runs.offline (App.handleFilterChange "time" "month" App.initialFilters)
    MoreRuns.two_days_old = true.
Proof.
  assert (Hweek : App.keeps Runs.offline
                    (App.handleFilterChange "time" "week" App.initialFilters)
                    MoreRuns.two_days_old = true) by (vm_compute; reflexivity).
  split; [vm_compute; reflexivity|]. split; [exact Hweek|].
  exact (proj1 (proj2 (applyFilters_time_windows_nest Runs.offline App.initialFilters
                         MoreRuns.two_days_old)) Hweek).
Defined.

(** Three lines of tokens, two of which hold [needle]. *)
Lemma code_block_flags_run :
  Forall (fun line => line ≠ [])
    [["const "; "needle"; " = 1;"]; ["needle"]; ["return"]] ∧
  CodeBlockLines.lineHasMatch Runs.offline "needle"
    [["const "; "needle"; " = 1;"]; ["needle"]; ["return"]]
  = Normal [true; true; false].
Proof.
  assert (H : Forall (fun line : list string => line ≠ [])
                [["const "; "needle"; " = 1;"]; ["needle"]; ["return"]])
    by (repeat constructor; discriminate).
  split; [exact H|].
  destruct (code_block_flags_the_matching_lines Runs.offline "needle" _ H)
    as (flags & -> & _ & Hflags).
  f_equal. rewrite (Hflags Runs.needle_regex eq_refl). vm_compute. reflexivity.
Defined.

(** A repository and a code hit in it: one result of each kind. *)
Lemma fetchSearchResults_kinds_run :
  ∃ results,
    fetchSearchResults Runs.enriched "greeting" defaultSearchFilters = Normal results ∧
    type <$> results = [repository; code] ∧
    Forall (fun r =>
              (type r = repository ∧ snippet r = None ∧ lineNumbers r = None
               ∧ apiSource r = Some (snd apiSources))
              ∨ (type r = code ∧ is_Some (snippet r) ∧ is_Some (lineNumbers r)
                 ∧ apiSource r = Some (fst apiSources)))
           results.
Proof.
  destruct (fetchSearchResults Runs.enriched "greeting" defaultSearchFilters)
    as [results|e] eqn:Hres; [|vm_compute in Hres; discriminate Hres].
  exists results. split; [reflexivity|]. split.
  - vm_compute in Hres. injection Hres as <-. reflexivity.
  - exact (fetchSearchResults_kinds Runs.enriched "greeting" defaultSearchFilters
             results Hres).
Defined.

(** Dates seen on 2025-01-15: two weeks before, a month and a half before, a
    day ahead, and no date at all. *)
Example formatDate_run :
  map (ResultCard.formatDate Runs.offline)
    ["2025-01-01T00:00:00Z"; "2024-12-01T00:00:00Z"; "2025-01-14T23:00:00Z";
     "2025-01-16T00:00:00Z"; "last week"; ""]
  = ["2 weeks ago"; "1 month ago"; "1 hour ago"; "Just now"; "Unknown date"; ""].
Proof. vm_compute. reflexivity. Qed.

Lemma search_of_the_component_with_week_and_recent :
  let filters := App.handleFilterChange "sort" "recent"
                   (App.handleFilterChange "time" "week" App.initialFilters) in
  ((timeRange (App.as_SearchFilters filters) ∉ ["day"; "week"; "month"; "year"]) ∧
   (sortBy (App.as_SearchFilters filters) ∉ ["recent"; "relevance"])) ∧
  fetchSearchResults Runs.enriched "greeting" (App.as_SearchFilters filters)
  = fetchSearchResults Runs.enriched "greeting"
      {| filter_language := "all"; timeRange := "all"; sortBy := "stars" |}.
Proof.
  intros filters.
  assert (H1 : timeRange (App.as_SearchFilters filters)
               ∉ ["day"; "week"; "month"; "year"]).
  { intros Hin. vm_compute in Hin.
    repeat (apply elem_of_cons in Hin as [Hin|Hin]; [discriminate Hin|]).
    apply elem_of_nil in Hin. destruct Hin. }
  assert (H2 : sortBy (App.as_SearchFilters filters) ∉ ["recent"; "relevance"]).
  { intros Hin. vm_compute in Hin.
    repeat (apply elem_of_cons in Hin as [Hin|Hin]; [discriminate Hin|]).
    apply elem_of_nil in Hin. destruct Hin. }
  split; [by split|].
  exact (proj1 (search_ignores_unrecognised_time_and_sort Runs.enriched "greeting")
           (App.as_SearchFilters filters) H1 H2).
Defined.

(** Seen on 2025-01-15: a date one day ahead, and a date two weeks back. *)
Lemma formatDate_of_two_dates :
  (truthy "2025-01-16T00:00:00Z" = true ∧
   Date_getTime Runs.offline "2025-01-16T00:00:00Z" = Some (Runs.now + day_ms) ∧
   Date_now Runs.offline - (Runs.now + day_ms) < 2 * minute_ms ∧
   truthy "2025-01-01T00:00:00Z" = true ∧
   Date_getTime Runs.offline "2025-01-01T00:00:00Z" = Some (Runs.now - 14 * day_ms) ∧
   14 * day_ms ≤ Date_now Runs.offline - (Runs.now - 14 * day_ms) < 30 * day_ms) ∧
  ResultCard.formatDate Runs.offline "2025-01-16T00:00:00Z" = "Just now" ∧
  ResultCard.formatDate Runs.offline "2025-01-01T00:00:00Z" = "2 weeks ago".
Proof.
  assert (H1 : truthy "2025-01-16T00:00:00Z" = true) by reflexivity.
  assert (H2 : Date_getTime Runs.offline "2025-01-16T00:00:00Z"
               = Some (Runs.now + day_ms)) by (vm_compute; reflexivity).
  assert (H3 : Date_now Runs.offline - (Runs.now + day_ms) < 2 * minute_ms)
    by (vm_compute; reflexivity).
  assert (H4 : truthy "2025-01-01T00:00:00Z" = true) by reflexivity.
  assert (H5 : Date_getTime Runs.offline "2025-01-01T00:00:00Z"
               = Some (Runs.now - 14 * day_ms)) by (vm_compute; reflexivity).
  assert (H6 : 14 * day_ms ≤ Date_now Runs.offline - (Runs.now - 14 * day_ms)
               < 30 * day_ms) by (split; vm_compute; [discriminate|reflexivity]).
  split; [by repeat split|]. split.
  - exact (proj1 (proj2 (proj2 (formatDate_by_age Runs.offline "2025-01-16T00:00:00Z"))
                    _ H1 H2) H3).
  - destruct (proj1 (proj2 (proj2 (proj2 (proj2 (proj2 (proj2 (proj2
                (proj2 (proj2 (formatDate_by_age Runs.offline "2025-01-01T00:00:00Z"))
                   _ H4 H5)))))))) H6) as [Hshown _].
    rewrite Hshown. vm_compute. reflexivity.
Defined.
